(** * SmartSaver: tiered-interest calculator and allocation optimizers

    A shallow embedding of [Calculator.py]: the product interest calculator
    [calculate_bank_interest], the helpers for the DBS Multiplier rules, the
    deposit optimizer [optimize_bank_distribution] and the spend allocator
    [optimize_spend_allocation], followed by the properties proved of them.

    Conventions of the embedding.
    - Money and rates are rationals ([Q]); Python floats are read as exact
      numbers, so equalities between amounts are stated with [==].
    - The deposit optimizer works on Python [int]s (it feeds them to
      [range]); they are [Z] here and injected into [Q] for the calculator.
    - A Python exception is a value [Raise e] of the type [result].
    - A [dict] whose iteration order matters is an association list in
      insertion order.
    - Text written to the Streamlit widgets is not part of the model. *)

From Stdlib Require Import QArith Qminmax Qabs ZArith List String Bool Lia Lqa.
From Stdlib Require Import DecimalString Sorted Permutation.
Import ListNotations.

Open Scope string_scope.
Open Scope list_scope.
Open Scope Z_scope.
Open Scope Q_scope.

(** ** Exceptions *)

Inductive exn : Type :=
| StopIteration
| KeyError (key : string).

Inductive result (A : Type) : Type :=
| Ok (a : A)
| Raise (e : exn).

Arguments Ok {A} a.
Arguments Raise {A} e.

Definition bind {A B : Type} (m : result A) (k : A -> result B) : result B :=
  match m with
  | Ok a => k a
  | Raise e => Raise e
  end.

Notation "x <- m ;; k" := (bind m (fun x => k))
  (at level 61, m at next level, right associativity).

(** A [for] loop whose body may raise: the state is threaded from one
    iteration to the next and the first exception ends the loop. *)
Fixpoint for_each {A S : Type} (body : A -> S -> result S) (l : list A) (s : S)
  : result S :=
  match l with
  | [] => Ok s
  | x :: l' => s' <- body x s ;; for_each body l' s'
  end.

(** ** Dictionaries in insertion order *)

Definition dict (V : Type) : Type := list (string * V).

Fixpoint dict_get {V : Type} (d : dict V) (k : string) : option V :=
  match d with
  | [] => None
  | (k', v) :: d' => if String.eqb k' k then Some v else dict_get d' k
  end.

(** [d[k] = v]: an existing key keeps its place, a new key goes last. *)
Fixpoint dict_set {V : Type} (k : string) (v : V) (d : dict V) : dict V :=
  match d with
  | [] => [(k, v)]
  | (k', v') :: d' =>
      if String.eqb k' k then (k', v) :: d' else (k', v') :: dict_set k v d'
  end.

(** [d[k]], which raises [KeyError] on a missing key. *)
Definition dict_item {V : Type} (d : dict V) (k : string) : result V :=
  match dict_get d k with
  | Some v => Ok v
  | None => Raise (KeyError k)
  end.

(** ** Data model *)

(** One row of the tier table. [interest_rate] is the number in front of
    the percent sign: rows whose rate does not parse are dropped when the
    table is loaded, so every tier the calculator sees has one. *)
Record Tier : Type := {
  tier_type : string;
  balance_tier : string;
  interest_rate : Q;
  requirement_type : string;
  min_spend : Q;
  min_salary : Q;
  tier_giro_count : Z;
  salary_credit : bool;
  cap_amount : Q;
  remarks : string
}.

Record BankInfo : Type := {
  bank : string;
  tiers : list Tier
}.

(** The requirements dictionary, with every key the application puts in
    it. *)
Record Requirements : Type := {
  has_salary : bool;
  salary_amount : Q;
  spend_amount : Q;
  giro_count : Z;
  has_insurance : bool;
  insurance_amount : Q;
  has_investments : bool;
  investment_amount : Q;
  has_home_loan : bool;
  home_loan_amount : Q;
  increased_balance : bool;
  grew_wealth : bool
}.

Definition set_has_salary (b : bool) (r : Requirements) : Requirements :=
  {| has_salary := b; salary_amount := salary_amount r;
     spend_amount := spend_amount r; giro_count := giro_count r;
     has_insurance := has_insurance r; insurance_amount := insurance_amount r;
     has_investments := has_investments r;
     investment_amount := investment_amount r;
     has_home_loan := has_home_loan r; home_loan_amount := home_loan_amount r;
     increased_balance := increased_balance r; grew_wealth := grew_wealth r |}.

Definition set_salary_amount (a : Q) (r : Requirements) : Requirements :=
  {| has_salary := has_salary r; salary_amount := a;
     spend_amount := spend_amount r; giro_count := giro_count r;
     has_insurance := has_insurance r; insurance_amount := insurance_amount r;
     has_investments := has_investments r;
     investment_amount := investment_amount r;
     has_home_loan := has_home_loan r; home_loan_amount := home_loan_amount r;
     increased_balance := increased_balance r; grew_wealth := grew_wealth r |}.

Definition set_spend_amount (a : Q) (r : Requirements) : Requirements :=
  {| has_salary := has_salary r; salary_amount := salary_amount r;
     spend_amount := a; giro_count := giro_count r;
     has_insurance := has_insurance r; insurance_amount := insurance_amount r;
     has_investments := has_investments r;
     investment_amount := investment_amount r;
     has_home_loan := has_home_loan r; home_loan_amount := home_loan_amount r;
     increased_balance := increased_balance r; grew_wealth := grew_wealth r |}.

(** The text of a breakdown line. Each constructor is one of the source's
    string templates, with the values the template formats. *)
Inductive Description : Type :=
| BaseInterest
| SalaryCreditBonusAtLeast (min_salary : Q)
| CardSpendBonusAtLeast (min_spend : Q)
| InvestmentBonus6Months
| InsuranceBonus6Months
| SalaryPlusSpend (balance_tier : string)
| GiroPlusSpend (balance_tier : string)
| SpendOnly (balance_tier : string)
| BaseInterestOf (balance_tier : string)
| Remarks (remarks : string)
| SalaryCreditBonus2000
| WealthBonusInsurance
| SpendBonus (spend_amount : Q)
| PaymentBonus (giro_count : Z)
| First20000
| Next30000
| BaseNoSalaryCredit
| BaseMinTransactionNotMet
| BonusInterest (category_count : nat) (total_transactions : Q)
| BaseAmountAboveCap
| BaseNoMatchingTier.

Record TierApplication : Type := {
  amount_in_tier : Q;
  tier_rate : Q;
  tier_interest : Q;
  monthly_interest : Q;
  description : Description
}.

Record CalculationResult : Type := {
  total_interest : Q;
  breakdown : list TierApplication
}.

(** ** Comparisons and small helpers *)

Definition Qlt_bool (x y : Q) : bool := negb (Qle_bool y x).

(** [next(t for t in tiers if p(t))] *)
Definition next_tier (p : Tier -> bool) (l : list Tier) : result Tier :=
  match find p l with
  | Some t => Ok t
  | None => Raise StopIteration
  end.

Definition has_type (ty : string) (t : Tier) : bool :=
  String.eqb (tier_type t) ty.

Definition has_requirement (ty : string) (t : Tier) : bool :=
  String.eqb (requirement_type t) ty.

Definition has_type_and_cap (ty : string) (cap : Q) (t : Tier) : bool :=
  String.eqb (tier_type t) ty && Qeq_bool (cap_amount t) cap.

(** [float(str(t['interest_rate']).strip('%')) / 100] *)
Definition rate_of (t : Tier) : Q := interest_rate t / 100.

(** The nested function [add_tier]: it appends one line to the breakdown
    and returns the interest of that line. *)
Definition add_tier (amount rate : Q) (description : Description)
  (breakdown : list TierApplication) : Q * list TierApplication :=
  let interest := amount * rate in
  (interest,
   breakdown ++ [ {| amount_in_tier := amount;
                     tier_rate := rate;
                     tier_interest := interest;
                     monthly_interest := interest / 12;
                     description := description |} ]).

(** [total_interest += add_tier(amount, rate, description)], and also the
    pair [total_interest += interest; add_tier(amount, rate, description)]
    with [interest = amount * rate]. *)
Definition credit (amount rate : Q) (description : Description)
  (acc : CalculationResult) : CalculationResult :=
  let '(interest, breakdown') :=
    add_tier amount rate description (breakdown acc) in
  {| total_interest := total_interest acc + interest;
     breakdown := breakdown' |}.

Definition empty_result : CalculationResult :=
  {| total_interest := 0; breakdown := [] |}.

(** ** Helpers of the DBS Multiplier rules *)

Definition calculate_dbs_eligible_transactions (requirements : Requirements)
  : Q :=
  let total := 0 in
  let total :=
    if has_salary requirements then total + salary_amount requirements
    else total in
  let total := total + spend_amount requirements in
  let total :=
    if has_insurance requirements then total + insurance_amount requirements
    else total in
  let total :=
    if has_investments requirements
    then total + investment_amount requirements
    else total in
  let total :=
    if has_home_loan requirements then total + home_loan_amount requirements
    else total in
  total.

Definition count_dbs_categories (requirements : Requirements) : nat :=
  let count := 0%nat in
  let count :=
    if Qlt_bool 0 (spend_amount requirements) then S count else count in
  let count :=
    if has_insurance requirements
       && Qlt_bool 0 (insurance_amount requirements)
    then S count else count in
  let count :=
    if has_investments requirements
       && Qlt_bool 0 (investment_amount requirements)
    then S count else count in
  let count :=
    if has_home_loan requirements
       && Qlt_bool 0 (home_loan_amount requirements)
    then S count else count in
  count.

(** [f"cat{category_count}_"] followed by the band of the volume. *)
Definition dbs_tier_type (category_count : nat) (total_transactions : Q)
  : string :=
  let tier_type :=
    String.append
      (String.append "cat" (NilZero.string_of_uint (Nat.to_uint category_count)))
      "_" in
  if Qle_bool 30000 total_transactions then String.append tier_type "high"
  else if Qle_bool 15000 total_transactions then String.append tier_type "mid"
  else String.append tier_type "low".

(** ** The product interest calculator *)

Section Calculator.

Variable deposit_amount : Q.
Variable bank_info : BankInfo.
Variable bank_requirements : Requirements.

(** *** SC BonusSaver *)

Definition calculate_sc_bonussaver : result CalculationResult :=
  salary_tier <- next_tier (has_type "salary") (tiers bank_info) ;;
  spend_tier <- next_tier (has_type "spend") (tiers bank_info) ;;
  let min_salary' := min_salary salary_tier in
  let min_spend' := min_spend spend_tier in
  base_tier <- next_tier (has_type "base") (tiers bank_info) ;;
  let base_rate := rate_of base_tier in
  let acc := credit deposit_amount base_rate BaseInterest empty_result in
  let eligible_amount := Qmin deposit_amount 100000 in
  let acc :=
    if has_salary bank_requirements
       && Qle_bool min_salary' (salary_amount bank_requirements)
    then credit eligible_amount (rate_of salary_tier)
           (SalaryCreditBonusAtLeast min_salary') acc
    else acc in
  let acc :=
    if Qle_bool min_spend' (spend_amount bank_requirements)
    then credit eligible_amount (rate_of spend_tier)
           (CardSpendBonusAtLeast min_spend') acc
    else acc in
  acc <- (if has_investments bank_requirements
          then invest_tier <- next_tier (has_type "invest") (tiers bank_info) ;;
               Ok (credit eligible_amount (rate_of invest_tier)
                     InvestmentBonus6Months acc)
          else Ok acc) ;;
  acc <- (if has_insurance bank_requirements
          then insure_tier <- next_tier (has_type "insure") (tiers bank_info) ;;
               Ok (credit eligible_amount (rate_of insure_tier)
                     InsuranceBonus6Months acc)
          else Ok acc) ;;
  Ok acc.

(** *** UOB One *)

(** One of the three ladders: each tier takes
    [min(remaining_amount, cap_amount)] until nothing is left. *)
Fixpoint uob_ladder (label : string -> Description) (ladder : list Tier)
  (remaining_amount : Q) (acc : CalculationResult) : CalculationResult :=
  match ladder with
  | [] => acc
  | tier :: ladder' =>
      let amount_in_tier := Qmin remaining_amount (cap_amount tier) in
      if Qle_bool amount_in_tier 0 then acc
      else
        let rate := rate_of tier in
        uob_ladder label ladder' (remaining_amount - amount_in_tier)
          (credit amount_in_tier rate (label (balance_tier tier)) acc)
  end.

Definition calculate_uob_one : result CalculationResult :=
  let acc := empty_result in
  let has_spend := Qle_bool 500 (spend_amount bank_requirements) in
  let has_salary' := has_salary bank_requirements in
  let has_giro := (3 <=? giro_count bank_requirements)%Z in
  if has_spend then
    let remaining_amount := deposit_amount in
    if has_salary' then
      Ok (uob_ladder SalaryPlusSpend
            (filter (has_requirement "salary") (tiers bank_info))
            remaining_amount acc)
    else if has_giro then
      Ok (uob_ladder GiroPlusSpend
            (filter (has_requirement "giro") (tiers bank_info))
            remaining_amount acc)
    else
      Ok (uob_ladder SpendOnly
            (filter (has_requirement "spend_only") (tiers bank_info))
            remaining_amount acc)
  else
    base_tier <- next_tier (has_type "base") (tiers bank_info) ;;
    let base_rate := rate_of base_tier in
    let base_amount := Qmin deposit_amount (cap_amount base_tier) in
    Ok (credit base_amount base_rate (BaseInterestOf (balance_tier base_tier))
          acc).

(** *** OCBC 360 *)

Definition first_75k : Q := Qmin deposit_amount 75000.
Definition next_25k : Q := Qmin (Qmax (deposit_amount - 75000) 0) 25000.

(** The state of the nested function [process_ocbc_tier]: its two
    [nonlocal] totals and the breakdown it appends to. *)
Record OcbcState : Type := {
  total_first_75k : Q;
  total_next_25k : Q;
  ocbc_breakdown : list TierApplication
}.

Definition process_ocbc_tier (ty : string) (requirement_met : bool)
  (st : OcbcState) : OcbcState :=
  if requirement_met then
    let tier_75k := find (has_type_and_cap ty 75000) (tiers bank_info) in
    let tier_25k := find (has_type_and_cap ty 25000) (tiers bank_info) in
    let st :=
      match tier_75k with
      | Some t =>
          let rate := rate_of t in
          let interest_75k := first_75k * rate in
          {| total_first_75k := total_first_75k st + interest_75k;
             total_next_25k := total_next_25k st;
             ocbc_breakdown :=
               snd (add_tier first_75k rate (Remarks (remarks t))
                      (ocbc_breakdown st)) |}
      | None => st
      end in
    match tier_25k with
    | Some t =>
        let rate := rate_of t in
        let interest_25k := next_25k * rate in
        {| total_first_75k := total_first_75k st;
           total_next_25k := total_next_25k st + interest_25k;
           ocbc_breakdown :=
             snd (add_tier next_25k rate (Remarks (remarks t))
                    (ocbc_breakdown st)) |}
    | None => st
    end
  else st.

Definition calculate_ocbc_360 : result CalculationResult :=
  base_tier <- next_tier (has_type "base") (tiers bank_info) ;;
  let base_rate := rate_of base_tier in
  let total := deposit_amount * base_rate in
  let st :=
    {| total_first_75k := 0;
       total_next_25k := 0;
       ocbc_breakdown :=
         snd (add_tier deposit_amount base_rate BaseInterest []) |} in
  salary_tier <- next_tier (has_type "salary") (tiers bank_info) ;;
  let has_salary' :=
    has_salary bank_requirements
    && Qle_bool (min_salary salary_tier) (salary_amount bank_requirements) in
  let st := process_ocbc_tier "salary" has_salary' st in
  let st := process_ocbc_tier "save" (increased_balance bank_requirements) st in
  spend_tier <- next_tier (has_type "spend") (tiers bank_info) ;;
  let has_spend :=
    Qle_bool (min_spend spend_tier) (spend_amount bank_requirements) in
  let st := process_ocbc_tier "spend" has_spend st in
  let st := process_ocbc_tier "insure" (has_insurance bank_requirements) st in
  let st := process_ocbc_tier "invest" (has_investments bank_requirements) st in
  let st := process_ocbc_tier "grow" (grew_wealth bank_requirements) st in
  Ok {| total_interest := total + (total_first_75k st + total_next_25k st);
        breakdown := ocbc_breakdown st |}.

(** *** BOC SmartSaver *)

(** [sorted(base_tiers, key=cap_amount)]: a stable sort, so a tier goes
    in front of the first tier of the sorted rest whose cap is not
    smaller. *)
Fixpoint insert_by_cap (t : Tier) (l : list Tier) : list Tier :=
  match l with
  | [] => [t]
  | u :: l' =>
      if Qle_bool (cap_amount t) (cap_amount u) then t :: u :: l'
      else u :: insert_by_cap t l'
  end.

Definition sorted_by_cap (l : list Tier) : list Tier :=
  fold_right insert_by_cap [] l.

(** The loop over the base bands; [remaining_amount] is never decreased
    in this branch, only [prev_cap] advances. *)
Fixpoint boc_base_bands (base_tiers : list Tier) (remaining_amount : Q)
  (prev_cap : Q) (acc : CalculationResult) : CalculationResult :=
  match base_tiers with
  | [] => acc
  | tier :: base_tiers' =>
      let cap := cap_amount tier in
      let tier_size := cap - prev_cap in
      let amount_in_tier :=
        Qmin (Qmax 0 (remaining_amount - prev_cap)) tier_size in
      if Qle_bool amount_in_tier 0 then acc
      else
        let rate := rate_of tier in
        boc_base_bands base_tiers' remaining_amount cap
          (credit amount_in_tier rate (BaseInterestOf (balance_tier tier))
             acc)
  end.

(** A flat bonus on [min(deposit_amount, cap_amount)] of its tier. *)
Definition boc_bonus (tier : Tier) (d : Description)
  (acc : CalculationResult) : CalculationResult :=
  let rate := rate_of tier in
  let bonus_amount := Qmin deposit_amount (cap_amount tier) in
  credit bonus_amount rate d acc.

Definition has_balance_tier (label : string) (t : Tier) : bool :=
  String.eqb (balance_tier t) label.

Definition calculate_boc_smartsaver : result CalculationResult :=
  let acc := empty_result in
  let remaining_amount := deposit_amount in
  let base_tiers := filter (has_type "base") (tiers bank_info) in
  let base_tiers := sorted_by_cap base_tiers in
  let acc := boc_base_bands base_tiers remaining_amount 0 acc in
  if Qle_bool 1500 deposit_amount then
    acc <- (if has_salary bank_requirements
               && Qle_bool 2000 (salary_amount bank_requirements)
            then salary_tier <-
                   next_tier (has_type "salary") (tiers bank_info) ;;
                 Ok (boc_bonus salary_tier SalaryCreditBonus2000 acc)
            else Ok acc) ;;
    acc <- (if has_insurance bank_requirements
            then wealth_tier <-
                   next_tier (has_type "wealth") (tiers bank_info) ;;
                 Ok (boc_bonus wealth_tier WealthBonusInsurance acc)
            else Ok acc) ;;
    let spend_amount' := spend_amount bank_requirements in
    acc <- (if Qle_bool 500 spend_amount'
            then
              let spend_tiers := filter (has_type "spend") (tiers bank_info) in
              spend_tier <-
                (if Qle_bool 1500 spend_amount'
                 then next_tier (has_balance_tier "2") spend_tiers
                 else next_tier (has_balance_tier "1") spend_tiers) ;;
              Ok (boc_bonus spend_tier (SpendBonus spend_amount') acc)
            else Ok acc) ;;
    let giro_count' := giro_count bank_requirements in
    acc <- (if (3 <=? giro_count')%Z
            then payment_tier <-
                   next_tier (has_type "payment") (tiers bank_info) ;;
                 Ok (boc_bonus payment_tier (PaymentBonus giro_count') acc)
            else Ok acc) ;;
    Ok acc
  else Ok acc.

(** *** Chocolate *)

(** The base interest on the whole deposit is computed first and then
    overwritten by the interest of the first band; its [add_tier] call is
    commented out in the source. *)
Definition calculate_chocolate : result CalculationResult :=
  base_tier <- next_tier (has_type "base") (tiers bank_info) ;;
  let base_rate := rate_of base_tier in
  let total := deposit_amount * base_rate in
  let first_20k := Qmin deposit_amount 20000 in
  first_tier <- next_tier (has_type_and_cap "base" 20000) (tiers bank_info) ;;
  let rate_20k := rate_of first_tier in
  let interest_20k := first_20k * rate_20k in
  let total := interest_20k in
  let breakdown' := snd (add_tier first_20k rate_20k First20000 []) in
  let acc := {| total_interest := total; breakdown := breakdown' |} in
  if Qlt_bool 20000 deposit_amount then
    let next_30k := Qmin (deposit_amount - 20000) 30000 in
    second_tier <-
      next_tier (has_type_and_cap "base" 30000) (tiers bank_info) ;;
    let rate_30k := rate_of second_tier in
    Ok (credit next_30k rate_30k Next30000 acc)
  else Ok acc.

(** *** DBS Multiplier *)

Definition calculate_dbs_multiplier : result CalculationResult :=
  let acc := empty_result in
  if negb (has_salary bank_requirements) then
    let base_rate := 0.0005 in
    Ok (credit deposit_amount base_rate BaseNoSalaryCredit acc)
  else
    let total_transactions :=
      calculate_dbs_eligible_transactions bank_requirements in
    let category_count := count_dbs_categories bank_requirements in
    if Qlt_bool total_transactions 500 || Nat.eqb category_count 0 then
      let base_rate := 0.0005 in
      Ok (credit deposit_amount base_rate BaseMinTransactionNotMet acc)
    else
      let ty := dbs_tier_type category_count total_transactions in
      match find (has_type ty) (tiers bank_info) with
      | Some tier =>
          let rate := rate_of tier in
          let cap_amount' := cap_amount tier in
          let eligible_amount := Qmin deposit_amount cap_amount' in
          let acc :=
            if Qlt_bool 0 eligible_amount
            then credit eligible_amount rate
                   (BonusInterest category_count total_transactions) acc
            else acc in
          let acc :=
            if Qlt_bool cap_amount' deposit_amount
            then
              let base_rate := 0.0005 in
              let remaining := deposit_amount - cap_amount' in
              credit remaining base_rate BaseAmountAboveCap acc
            else acc in
          Ok acc
      | None =>
          (* except StopIteration: the warning goes to the screen *)
          let base_rate := 0.0005 in
          Ok (credit deposit_amount base_rate BaseNoMatchingTier acc)
      end.

(** *** Dispatch on the product *)

Definition calculate_bank_interest : result CalculationResult :=
  let name := bank bank_info in
  if String.eqb name "SC BonusSaver" then calculate_sc_bonussaver
  else if String.eqb name "UOB One" then calculate_uob_one
  else if String.eqb name "OCBC 360" then calculate_ocbc_360
  else if String.eqb name "BOC SmartSaver" then calculate_boc_smartsaver
  else if String.eqb name "Chocolate" then calculate_chocolate
  else if String.eqb name "DBS Multiplier" then calculate_dbs_multiplier
  else Ok empty_result.

End Calculator.

(** ** The deposit optimizer *)

Module Solution.
Record t : Type := {
  distribution : dict Z;
  total_interest : Q;
  breakdown : dict (list TierApplication);
  salary_bank : option string
}.
End Solution.

(** The entry the top-3 list is filled with at the start. *)
Definition empty_solution : Solution.t :=
  {| Solution.distribution := [];
     Solution.total_interest := 0;
     Solution.breakdown := [];
     Solution.salary_bank := None |}.

(** The variables the nested functions of [optimize_bank_distribution]
    share: the list [top_solutions] and the counter [current_scenario]. *)
Record SearchState : Type := {
  top_solutions : list Solution.t;
  current_scenario : Z
}.

Definition bonus_caps : dict Z :=
  [ ("UOB One", 150000%Z);
    ("SC BonusSaver", 100000%Z);
    ("OCBC 360", 100000%Z);
    ("BOC SmartSaver", 100000%Z);
    ("Chocolate", 50000%Z) ].

Definition all_banks : list string :=
  [ "UOB One"; "SC BonusSaver"; "OCBC 360"; "BOC SmartSaver"; "Chocolate" ].

Definition salary_banks : list string :=
  [ "SC BonusSaver"; "OCBC 360"; "BOC SmartSaver" ].

(** [range(0, stop, step)] for a positive [step]. *)
Definition range0 (stop step : Z) : list Z :=
  map (fun k => (Z.of_nat k * step)%Z)
      (seq 0 (Z.to_nat ((stop + step - 1) / step))).

(** [sum(d.values())] *)
Definition sum_values (d : dict Z) : Z :=
  fold_left Z.add (map snd d) 0%Z.

(** [l[i] = v] for an index inside the list. *)
Fixpoint list_set {A : Type} (l : list A) (i : nat) (v : A) : list A :=
  match l, i with
  | [], _ => []
  | _ :: l', O => v :: l'
  | x :: l', S i' => x :: list_set l' i' v
  end.

(** [for j in range(len(top) - 1, i, -1): top[j] = top[j - 1]] *)
Definition shift_down (top : list Solution.t) (i : nat) : list Solution.t :=
  fold_left
    (fun top j =>
       match nth_error top (j - 1) with
       | Some s => list_set top j s
       | None => top
       end)
    (rev (seq (S i) (List.length top - 1 - i)))
    top.

(** The loop that files a new solution: it goes in front of the first
    kept entry it strictly beats, and the loop stops there. *)
Fixpoint file_solution (new : Solution.t) (indices : list nat)
  (top : list Solution.t) : list Solution.t :=
  match indices with
  | [] => top
  | i :: indices' =>
      match nth_error top i with
      | Some s =>
          if Qlt_bool (Solution.total_interest s) (Solution.total_interest new)
          then list_set (shift_down top i) i new
          else file_solution new indices' top
      | None => top
      end
  end.

Definition is_salary_bank (bank : string) (salary_bank : option string)
  : bool :=
  match salary_bank with
  | Some b => String.eqb bank b
  | None => false
  end.

Section Optimizer.

Variable total_amount : Z.
Variable banks_data : dict BankInfo.
Variable user_requirements : Requirements.

(** The copy of the requirements one product is evaluated with. *)
Definition bank_reqs_for (bank : string) (salary_bank : option string)
  : Requirements :=
  let bank_reqs := user_requirements in
  if String.eqb bank "UOB One" then
    let bank_reqs :=
      set_has_salary (has_salary user_requirements) bank_reqs in
    set_salary_amount (salary_amount user_requirements) bank_reqs
  else
    set_has_salary
      (is_salary_bank bank salary_bank && has_salary user_requirements)
      bank_reqs.

(** The body of the loop over [amounts_dict.items()]. *)
Definition evaluate_bank (salary_bank : option string) (item : string * Z)
  (acc : Q * dict (list TierApplication))
  : result (Q * dict (list TierApplication)) :=
  let '(bank, amount) := item in
  let '(total, all_breakdowns) := acc in
  if (amount >? 0)%Z then
    let bank_reqs := bank_reqs_for bank salary_bank in
    info <- dict_item banks_data bank ;;
    r <- calculate_bank_interest (inject_Z amount) info bank_reqs ;;
    Ok (total + total_interest r, dict_set bank (breakdown r) all_breakdowns)
  else Ok acc.

Definition evaluate_distribution (amounts_dict : dict Z)
  (salary_bank : option string) : result (Q * dict (list TierApplication)) :=
  for_each (evaluate_bank salary_bank) amounts_dict (0, []).

Definition try_combination (amounts_dict : dict Z)
  (salary_bank : option string) (st : SearchState) : result SearchState :=
  let st := {| top_solutions := top_solutions st;
               current_scenario := (current_scenario st + 1)%Z |} in
  if (Z.abs (sum_values amounts_dict - total_amount) >? 5000)%Z then Ok st
  else
    ev <- evaluate_distribution amounts_dict salary_bank ;;
    let '(total, all_breakdowns) := ev in
    let new :=
      {| Solution.distribution := amounts_dict;
         Solution.total_interest := total;
         Solution.breakdown := all_breakdowns;
         Solution.salary_bank := salary_bank |} in
    let top := top_solutions st in
    Ok {| top_solutions := file_solution new (seq 0 (List.length top)) top;
          current_scenario := current_scenario st |}.

Fixpoint try_all_combinations (remaining_amount : Z)
  (remaining_banks : list string) (current_distribution : dict Z)
  (salary_bank : option string) (st : SearchState) : result SearchState :=
  match remaining_banks with
  | [] =>
      if (remaining_amount <? 5000)%Z
      then try_combination current_distribution salary_bank st
      else Ok st
  | current_bank :: next_banks =>
      cap <- dict_item bonus_caps current_bank ;;
      let max_amount := Z.min remaining_amount cap in
      for_each
        (fun amount st =>
           if (amount <=? max_amount)%Z then
             let new_distribution :=
               if (amount >? 0)%Z
               then dict_set current_bank amount current_distribution
               else current_distribution in
             try_all_combinations (remaining_amount - amount) next_banks
               new_distribution salary_bank st
           else Ok st)
        (range0 (max_amount + 5000) 5000) st
  end.

(** The passes with the salary credited to one of the three banks that
    take it. *)
Definition try_salary_bank (salary_bank : string) (st : SearchState)
  : result SearchState :=
  cap <- dict_item bonus_caps salary_bank ;;
  let non_salary_banks :=
    filter (fun bank => negb (String.eqb bank salary_bank)) all_banks in
  for_each
    (fun amount st =>
       if (amount <=? total_amount)%Z then
         let initial_distribution :=
           if (amount >? 0)%Z then [(salary_bank, amount)] else [] in
         try_all_combinations (total_amount - amount) non_salary_banks
           initial_distribution (Some salary_bank) st
       else Ok st)
    (range0 (Z.min (total_amount + 5000) (cap + 5000)) 5000) st.

Definition initial_state : SearchState :=
  {| top_solutions := [empty_solution; empty_solution; empty_solution];
     current_scenario := 0 |}.

(** The search of [optimize_bank_distribution], with its state exposed. *)
Definition search : result SearchState :=
  st <- (if has_salary user_requirements
         then for_each try_salary_bank salary_banks initial_state
         else Ok initial_state) ;;
  try_all_combinations total_amount all_banks [] None st.

Definition optimize_bank_distribution : result (list Solution.t) :=
  st <- search ;;
  Ok (top_solutions st).

End Optimizer.

(** ** The spend allocator *)

Definition min_spends : dict Z :=
  [ ("UOB One", 500%Z);
    ("SC BonusSaver", 1000%Z);
    ("OCBC 360", 500%Z);
    ("BOC SmartSaver", 500%Z) ].

(** [min(d.values())] of a dictionary that is not empty. *)
Definition min_value (d : dict Z) : Z :=
  match map snd d with
  | [] => 0%Z
  | v :: vs => fold_left Z.min vs v
  end.

(** The three [nonlocal] variables of [try_allocation]. *)
Record BestAllocation : Type := {
  best_allocation : dict Z;
  best_total_interest : Q;
  best_breakdown : dict CalculationResult
}.

Section SpendAllocator.

Variable banks_data : dict BankInfo.
Variable deposit_amounts : dict Q.
Variable base_requirements : Requirements.

(** The copy of the requirements a product is evaluated with for a given
    spend. *)
Definition spend_reqs_for (bank : string) (spend : Z) : Requirements :=
  let bank_reqs := set_spend_amount (inject_Z spend) base_requirements in
  if String.eqb bank "UOB One" then
    let bank_reqs :=
      set_has_salary (has_salary base_requirements) bank_reqs in
    set_salary_amount (salary_amount base_requirements) bank_reqs
  else bank_reqs.

Definition evaluate_spend (item : string * Z)
  (acc : Q * dict CalculationResult) : result (Q * dict CalculationResult) :=
  let '(bank, spend) := item in
  let '(total, interest_breakdown) := acc in
  let bank_reqs := spend_reqs_for bank spend in
  let deposit :=
    match dict_get deposit_amounts bank with
    | Some d => d
    | None => 0
    end in
  info <- dict_item banks_data bank ;;
  r <- calculate_bank_interest deposit info bank_reqs ;;
  Ok (total + total_interest r, dict_set bank r interest_breakdown).

(** The base case of [try_allocation]: evaluate the allocation and keep
    it when it strictly beats the best one so far. *)
Definition evaluate_allocation (current_allocation : dict Z)
  (best : BestAllocation) : result BestAllocation :=
  ev <- for_each evaluate_spend current_allocation (0, []) ;;
  let '(total, interest_breakdown) := ev in
  if Qlt_bool (best_total_interest best) total then
    Ok {| best_allocation := current_allocation;
          best_total_interest := total;
          best_breakdown := interest_breakdown |}
  else Ok best.

(** [new_allocation] is changed in place for the second level of BOC
    SmartSaver after it was handed to the first recursive call; that call
    only ever stores copies of it, so values do the same here. *)
Fixpoint try_allocation (remaining_spend : Q) (remaining_banks : list string)
  (current_allocation : dict Z) (best : BestAllocation)
  : result BestAllocation :=
  match remaining_banks with
  | [] => evaluate_allocation current_allocation best
  | current_bank :: next_banks =>
      if Qlt_bool remaining_spend (inject_Z (min_value min_spends)) then
        evaluate_allocation current_allocation best
      else
        min_spend <- dict_item min_spends current_bank ;;
        best <- try_allocation remaining_spend next_banks
                  current_allocation best ;;
        if Qle_bool (inject_Z min_spend) remaining_spend then
          let new_allocation :=
            dict_set current_bank min_spend current_allocation in
          best <- try_allocation (remaining_spend - inject_Z min_spend)
                    next_banks new_allocation best ;;
          if String.eqb current_bank "BOC SmartSaver"
             && Qle_bool 1500 remaining_spend
          then
            let new_allocation :=
              dict_set current_bank 1500%Z new_allocation in
            try_allocation (remaining_spend - 1500) next_banks
              new_allocation best
          else Ok best
        else Ok best
  end.

Definition eligible_banks : list string :=
  filter
    (fun bank =>
       match dict_get deposit_amounts bank with
       | Some d => Qlt_bool 0 d
       | None => false
       end)
    (map fst min_spends).

Definition optimize_spend_allocation (total_spend : Q)
  : result (dict Z * Q * dict CalculationResult) :=
  let best :=
    {| best_allocation := [];
       best_total_interest := 0;
       best_breakdown := [] |} in
  best <- try_allocation total_spend eligible_banks [] best ;;
  Ok (best_allocation best, best_total_interest best, best_breakdown best).

End SpendAllocator.

(** ** The standalone DBS tier key *)

(** [get_dbs_tier]: the key of the tier a category count and a volume
    select, or ["base"] below the minimum volume. *)
Definition get_dbs_tier (category_count : nat) (total_transactions : Q)
  : string :=
  if Qlt_bool total_transactions 500 then "base"
  else
    let tier_type :=
      String.append
        (String.append "cat"
           (NilZero.string_of_uint (Nat.to_uint category_count)))
        "_" in
    if Qle_bool 30000 total_transactions then String.append tier_type "high"
    else if Qle_bool 15000 total_transactions
         then String.append tier_type "mid"
         else String.append tier_type "low".

(** ** The estimate of the number of scenarios *)

(** The nested function [calculate_total_scenarios]:
    [(amount // 5000 + 1) ** num_banks]. *)
Definition calculate_total_scenarios (amount num_banks : Z) : Z :=
  let increments_per_bank := (amount / 5000 + 1)%Z in
  (increments_per_bank ^ num_banks)%Z.

(** The value of [total_scenarios] once the optimizer has counted the
    passes it is about to make. *)
Definition total_scenarios (total_amount : Z)
  (user_requirements : Requirements) : result Z :=
  n <- (if has_salary user_requirements
        then
          for_each
            (fun salary_bank n =>
               cap <- dict_item bonus_caps salary_bank ;;
               Ok (n + calculate_total_scenarios (Z.min total_amount cap) 4)%Z)
            salary_banks 0%Z
        else Ok 0%Z) ;;
  Ok (n + calculate_total_scenarios total_amount 5)%Z.

(** ** The comparison of all products for one amount *)

Module BankResult.
Record t : Type := {
  bank : string;
  monthly_interest : Q;
  annual_interest : Q;
  breakdown : list TierApplication
}.
End BankResult.

Definition comparison_banks : list string :=
  [ "UOB One"; "SC BonusSaver"; "OCBC 360"; "BOC SmartSaver"; "Chocolate";
    "DBS Multiplier" ].

(** [l.sort(key=annual_interest, reverse=True)] and
    [sorted(l, key=annual_interest, reverse=True)]: descending and stable,
    so an entry goes in front of the first entry of the sorted rest that
    does not earn more. *)
Fixpoint insert_by_interest (x : BankResult.t) (l : list BankResult.t)
  : list BankResult.t :=
  match l with
  | [] => [x]
  | y :: l' =>
      if Qle_bool (BankResult.annual_interest y) (BankResult.annual_interest x)
      then x :: y :: l'
      else y :: insert_by_interest x l'
  end.

Definition sorted_by_interest (l : list BankResult.t) : list BankResult.t :=
  fold_right insert_by_interest [] l.

Section Comparison.

Variable calc_investment_amount : Z.
Variable banks_data : dict BankInfo.
Variable calc_base_requirements : Requirements.

(** The body of the loop over the six product names in [streamlit_app]. *)
Definition calculate_one_bank (bank_name : string)
  (bank_results : list BankResult.t) : result (list BankResult.t) :=
  let bank_reqs := calc_base_requirements in
  let bank_reqs :=
    if String.eqb bank_name "UOB One" then
      set_salary_amount (salary_amount calc_base_requirements)
        (set_has_salary (has_salary calc_base_requirements) bank_reqs)
    else bank_reqs in
  info <- dict_item banks_data bank_name ;;
  results <- calculate_bank_interest (inject_Z calc_investment_amount) info
               bank_reqs ;;
  Ok (bank_results
        ++ [ {| BankResult.bank := bank_name;
                BankResult.monthly_interest := total_interest results / 12;
                BankResult.annual_interest := total_interest results;
                BankResult.breakdown := breakdown results |} ]).

(** The list [bank_results] the single-bank page shows: one entry per
    product, then sorted with the highest annual interest first. *)
Definition single_bank_results : result (list BankResult.t) :=
  bank_results <- for_each calculate_one_bank comparison_banks [] ;;
  Ok (sorted_by_interest bank_results).

End Comparison.

(** ** Suggested questions *)

(** [generate_suggestions] of [prompt_templates.py]. *)
Definition generate_suggestions (bank_results : list BankResult.t)
  : list string :=
  match bank_results with
  | [] =>
      [ "What are the best banks for savings?";
        "How can I maximize my interest?";
        "What requirements do banks have?" ]
  | _ :: _ =>
      let sorted_banks := sorted_by_interest bank_results in
      match sorted_banks with
      | [] => []  (* sorted_banks[0] of an empty list: not reached *)
      | top :: _ =>
          let top_bank := BankResult.bank top in
          let suggestions :=
            [ String.append "Why is "
                (String.append top_bank " giving me the highest interest?");
              "How can I increase my interest rate?";
              "What if I increase my savings amount?";
              "Which bank has the easiest requirements?" ] in
          let suggestions :=
            if String.eqb top_bank "UOB One"
            then suggestions ++ ["What are the requirements for UOB One?"]
            else if String.eqb top_bank "OCBC 360"
            then suggestions ++ ["How does OCBC 360 calculate interest?"]
            else if String.eqb top_bank "SC BonusSaver"
            then suggestions
                   ++ ["What bonus categories does SC BonusSaver have?"]
            else suggestions in
          firstn 4 suggestions
      end
  end.

(** * Properties *)

(** ** Sample data used by the closed examples *)

Definition tier (ty label : string) (rate : Q) (req : string) (cap : Q)
  : Tier :=
  {| tier_type := ty; balance_tier := label; interest_rate := rate;
     requirement_type := req; min_spend := 500; min_salary := 3000;
     tier_giro_count := 0; salary_credit := false; cap_amount := cap;
     remarks := "" |}.

Definition sample_chocolate : BankInfo :=
  {| bank := "Chocolate";
     tiers := [ tier "base" "1" 3.6 "base" 20000;
                tier "base" "2" 3.2 "base" 30000 ] |}.

Definition sample_uob : BankInfo :=
  {| bank := "UOB One";
     tiers := [ tier "base" "1" 0.05 "base" 150000;
                tier "salary" "1" 3 "salary" 75000;
                tier "salary" "2" 4 "salary" 50000;
                tier "spend_only" "1" 0.65 "spend_only" 75000 ] |}.

Definition sample_sc : BankInfo :=
  {| bank := "SC BonusSaver";
     tiers := [ tier "base" "1" 0.05 "base" 0;
                tier "salary" "1" 1 "salary" 100000;
                tier "spend" "1" 1 "spend" 100000 ] |}.

(** The same product with its [salary] row lost. *)
Definition sample_sc_no_salary_tier : BankInfo :=
  {| bank := "SC BonusSaver";
     tiers := [ tier "base" "1" 0.05 "base" 0;
                tier "spend" "1" 1 "spend" 100000 ] |}.

Definition sample_ocbc : BankInfo :=
  {| bank := "OCBC 360";
     tiers := [ tier "base" "1" 0.05 "base" 0;
                tier "salary" "1" 2 "salary" 75000;
                tier "salary" "2" 4 "salary" 25000;
                tier "spend" "1" 0.5 "spend" 75000 ] |}.

Definition sample_boc : BankInfo :=
  {| bank := "BOC SmartSaver";
     tiers := [ tier "base" "2" 0.2 "base" 20000;
                tier "base" "1" 0.15 "base" 5000;
                tier "salary" "1" 2 "salary" 100000;
                tier "spend" "1" 0.5 "spend" 100000;
                tier "spend" "2" 0.8 "spend" 100000 ] |}.

Definition sample_dbs : BankInfo :=
  {| bank := "DBS Multiplier";
     tiers := [ tier "cat1_low" "1" 1.8 "salary" 50000 ] |}.

Definition sample_banks : dict BankInfo :=
  [ ("UOB One", sample_uob); ("SC BonusSaver", sample_sc);
    ("OCBC 360", sample_ocbc); ("BOC SmartSaver", sample_boc);
    ("Chocolate", sample_chocolate); ("DBS Multiplier", sample_dbs) ].

Definition sample_banks_sc_broken : dict BankInfo :=
  [ ("UOB One", sample_uob); ("SC BonusSaver", sample_sc_no_salary_tier);
    ("OCBC 360", sample_ocbc); ("BOC SmartSaver", sample_boc);
    ("Chocolate", sample_chocolate) ].

Definition sample_reqs : Requirements :=
  {| has_salary := true; salary_amount := 3500; spend_amount := 600;
     giro_count := 0; has_insurance := false; insurance_amount := 0;
     has_investments := false; investment_amount := 0;
     has_home_loan := false; home_loan_amount := 0;
     increased_balance := false; grew_wealth := false |}.

Definition sample_reqs_no_salary : Requirements :=
  set_has_salary false sample_reqs.

(** ** The calculator: the total is the sum of the breakdown *)

(** [sum(t['tier_interest'] for t in breakdown)] *)
Definition sum_tier_interest (l : list TierApplication) : Q :=
  fold_left (fun s t => s + tier_interest t) l 0.

Definition consistent (r : CalculationResult) : Prop :=
  total_interest r == sum_tier_interest (breakdown r).

Lemma sum_tier_interest_snoc (l : list TierApplication) (t : TierApplication) :
  sum_tier_interest (l ++ [t]) = sum_tier_interest l + tier_interest t.
Proof.
  unfold sum_tier_interest. rewrite fold_left_app. reflexivity.
Qed.

Lemma consistent_empty : consistent empty_result.
Proof. unfold consistent; simpl. reflexivity. Qed.

Lemma consistent_credit (amount rate : Q) (d : Description)
  (acc : CalculationResult) :
  consistent acc -> consistent (credit amount rate d acc).
Proof.
  unfold consistent, credit, add_tier; simpl. intros H.
  rewrite sum_tier_interest_snoc; simpl. rewrite H. reflexivity.
Qed.

Create HintDb calc.

#[local] Hint Resolve consistent_empty consistent_credit : calc.

Lemma consistent_uob_ladder (label : string -> Description) (ladder : list Tier) :
  forall remaining acc,
    consistent acc -> consistent (uob_ladder label ladder remaining acc).
Proof.
  induction ladder as [| tier0 ladder IH]; intros remaining acc H; simpl.
  - exact H.
  - destruct (Qle_bool _ 0); auto with calc.
Qed.

Lemma consistent_boc_base_bands (base_tiers : list Tier) :
  forall remaining prev_cap acc,
    consistent acc ->
    consistent (boc_base_bands base_tiers remaining prev_cap acc).
Proof.
  induction base_tiers as [| tier0 base_tiers IH];
    intros remaining prev_cap acc H; simpl.
  - exact H.
  - destruct (Qle_bool _ 0); auto with calc.
Qed.

Lemma consistent_boc_bonus (deposit : Q) (t : Tier) (d : Description)
  (acc : CalculationResult) :
  consistent acc -> consistent (boc_bonus deposit t d acc).
Proof. unfold boc_bonus. auto with calc. Qed.

#[local] Hint Resolve consistent_uob_ladder consistent_boc_base_bands
  consistent_boc_bonus : calc.

(** What [process_ocbc_tier] keeps true: the base interest plus the two
    running totals is the sum of the lines written so far. *)
Definition ocbc_consistent (base : Q) (st : OcbcState) : Prop :=
  base + (total_first_75k st + total_next_25k st)
  == sum_tier_interest (ocbc_breakdown st).

Lemma ocbc_consistent_process (deposit : Q) (info : BankInfo) (ty : string)
  (met : bool) (base : Q) (st : OcbcState) :
  ocbc_consistent base st ->
  ocbc_consistent base (process_ocbc_tier deposit info ty met st).
Proof.
  unfold process_ocbc_tier, ocbc_consistent. intros H.
  destruct met; [| exact H].
  destruct (find (has_type_and_cap ty 75000) (tiers info));
    destruct (find (has_type_and_cap ty 25000) (tiers info));
    simpl; repeat rewrite sum_tier_interest_snoc; simpl;
    try rewrite <- H; try ring.
Qed.

(** Unfolds one [bind] whose first component is a [next_tier] lookup. *)
Ltac step_next :=
  match goal with
  | H : context [bind (next_tier ?p ?l) _] |- _ =>
      destruct (next_tier p l) eqn:?; simpl in H; [| discriminate H]
  end.

Ltac split_if H :=
  match type of H with
  | context [if ?c then _ else _] => destruct c eqn:?; simpl in H
  end.

Lemma consistent_sc_bonussaver deposit info reqs r :
  calculate_sc_bonussaver deposit info reqs = Ok r -> consistent r.
Proof.
  unfold calculate_sc_bonussaver. intros H.
  do 3 step_next.
  set (acc0 := credit deposit _ BaseInterest empty_result) in H.
  assert (H0 : consistent acc0) by (subst acc0; auto with calc).
  set (acc1 := if has_salary reqs && _ then _ else acc0) in H.
  assert (H1 : consistent acc1)
    by (subst acc1; destruct (has_salary reqs && _); auto with calc).
  set (acc2 := if Qle_bool _ (spend_amount reqs) then _ else acc1) in H.
  assert (H2 : consistent acc2)
    by (subst acc2; destruct (Qle_bool _ (spend_amount reqs)); auto with calc).
  clearbody acc2. clear H0 H1 acc0 acc1.
  destruct (has_investments reqs); [step_next |]; simpl in H;
    (destruct (has_insurance reqs); [step_next |]; simpl in H);
    inversion H; subst; auto with calc.
Qed.

Lemma consistent_uob_one deposit info reqs r :
  calculate_uob_one deposit info reqs = Ok r -> consistent r.
Proof.
  unfold calculate_uob_one. intros H.
  destruct (Qle_bool 500 (spend_amount reqs)).
  - destruct (has_salary reqs); [| destruct (3 <=? giro_count reqs)%Z];
      inversion H; subst; auto with calc.
  - step_next. inversion H; subst; auto with calc.
Qed.

Lemma consistent_ocbc_360 deposit info reqs r :
  calculate_ocbc_360 deposit info reqs = Ok r -> consistent r.
Proof.
  unfold calculate_ocbc_360. intros H.
  do 3 step_next. inversion H; subst; clear H.
  unfold consistent; simpl.
  match goal with
  | |- ?base + (total_first_75k ?s + total_next_25k ?s) == _ =>
      change (ocbc_consistent base s)
  end.
  repeat apply ocbc_consistent_process.
  unfold ocbc_consistent, add_tier, sum_tier_interest; simpl. ring.
Qed.

Lemma consistent_boc_smartsaver deposit info reqs r :
  calculate_boc_smartsaver deposit info reqs = Ok r -> consistent r.
Proof.
  unfold calculate_boc_smartsaver. intros H.
  set (acc0 := boc_base_bands _ deposit 0 empty_result) in H.
  assert (H0 : consistent acc0) by (subst acc0; auto with calc).
  clearbody acc0.
  destruct (Qle_bool 1500 deposit); [| inversion H; subst; exact H0].
  destruct (has_salary reqs && Qle_bool 2000 (salary_amount reqs));
    [step_next |]; simpl in H;
    (destruct (has_insurance reqs); [step_next |]; simpl in H);
    (destruct (Qle_bool 500 (spend_amount reqs));
     [destruct (Qle_bool 1500 (spend_amount reqs)); step_next |];
     simpl in H);
    (destruct (3 <=? giro_count reqs)%Z; [step_next |]; simpl in H);
    inversion H; subst; auto 10 with calc.
Qed.

Lemma consistent_chocolate deposit info r :
  calculate_chocolate deposit info = Ok r -> consistent r.
Proof.
  unfold calculate_chocolate. intros H.
  do 2 step_next.
  match type of H with
  | context [credit _ _ Next30000 ?acc] =>
      assert (H0 : consistent acc)
        by (unfold consistent, add_tier, sum_tier_interest; simpl; ring)
  end.
  destruct (Qlt_bool 20000 deposit).
  - step_next. inversion H; subst. auto with calc.
  - inversion H; subst. exact H0.
Qed.

Lemma consistent_dbs_multiplier deposit info reqs r :
  calculate_dbs_multiplier deposit info reqs = Ok r -> consistent r.
Proof.
  unfold calculate_dbs_multiplier. intros H.
  destruct (negb (has_salary reqs)); [inversion H; subst; auto with calc |].
  destruct (Qlt_bool _ 500 || _); [inversion H; subst; auto with calc |].
  destruct (find _ (tiers info)); [| inversion H; subst; auto with calc].
  inversion H; subst.
  destruct (Qlt_bool 0 _); destruct (Qlt_bool (cap_amount t) deposit);
    auto with calc.
Qed.

(** C2. For every product, deposit and requirements record, the result
    that [calculate_bank_interest] returns has a [total_interest] equal to
    the sum of [tier_interest] over the lines of its breakdown. The
    equality is the one of exact rationals. *)
Theorem calculate_bank_interest_total_is_sum
  (deposit_amount : Q) (bank_info : BankInfo) (reqs : Requirements)
  (r : CalculationResult) :
  0 <= deposit_amount ->
  calculate_bank_interest deposit_amount bank_info reqs = Ok r ->
  total_interest r == sum_tier_interest (breakdown r).
Proof.
  intros _ H. change (consistent r). unfold calculate_bank_interest in H.
  repeat split_if H;
    eauto using consistent_sc_bonussaver, consistent_uob_one,
      consistent_ocbc_360, consistent_boc_smartsaver, consistent_chocolate,
      consistent_dbs_multiplier.
  inversion H; subst. apply consistent_empty.
Qed.

Lemma calculate_bank_interest_total_is_sum_witness :
  exists r,
    calculate_bank_interest 30000 sample_boc sample_reqs = Ok r
    /\ total_interest r == 787.5
    /\ total_interest r == sum_tier_interest (breakdown r).
Proof.
  eexists. split; [vm_compute; reflexivity |]. split; [reflexivity |].
  apply (calculate_bank_interest_total_is_sum 30000 sample_boc sample_reqs).
  - unfold Qle; simpl; lia.
  - vm_compute; reflexivity.
Defined.

(** ** DBS Multiplier without a salary credit *)

(** C7. For the DBS Multiplier, a deposit of at least 0 and requirements
    whose [has_salary] is false, the calculator returns a result whose
    [total_interest] is the deposit times 0.0005 and whose breakdown has
    exactly one line. *)
Theorem dbs_without_salary_flat_base
  (deposit_amount : Q) (bank_info : BankInfo) (reqs : Requirements) :
  bank bank_info = "DBS Multiplier" ->
  0 <= deposit_amount ->
  has_salary reqs = false ->
  exists r,
    calculate_bank_interest deposit_amount bank_info reqs = Ok r
    /\ total_interest r == deposit_amount * 0.0005
    /\ List.length (breakdown r) = 1%nat.
Proof.
  intros Hbank _ Hsal.
  unfold calculate_bank_interest. rewrite Hbank. simpl.
  unfold calculate_dbs_multiplier. rewrite Hsal. simpl.
  eexists. split; [reflexivity |]. simpl. split; [ring | reflexivity].
Qed.

Lemma dbs_without_salary_flat_base_witness :
  exists r,
    calculate_bank_interest 10000 sample_dbs sample_reqs_no_salary = Ok r
    /\ total_interest r == 5
    /\ List.length (breakdown r) = 1%nat.
Proof.
  destruct (dbs_without_salary_flat_base 10000 sample_dbs
              sample_reqs_no_salary)
    as [r [Hr [Ht Hl]]].
  - reflexivity.
  - unfold Qle; simpl; lia.
  - reflexivity.
  - exists r. split; [exact Hr |]. split; [| exact Hl].
    rewrite Ht. reflexivity.
Defined.

(** ** The salary assignment of a search branch *)






(** ** Generic facts about loops, lists and dictionaries *)

Lemma bind_ok {A B : Type} (m : result A) (k : A -> result B) (b : B) :
  bind m k = Ok b -> exists a, m = Ok a /\ k a = Ok b.
Proof.
  destruct m as [a |]; simpl; intros H; [| discriminate].
  exists a; split; [reflexivity | exact H].
Qed.

Lemma for_each_preserves {A S : Type} (I : S -> Prop)
  (body : A -> S -> result S) (l : list A) :
  (forall x s s', In x l -> I s -> body x s = Ok s' -> I s') ->
  forall s s', I s -> for_each body l s = Ok s' -> I s'.
Proof.
  induction l as [| x l IH]; intros Hbody s s' Hs H; simpl in H.
  - inversion H; subst; exact Hs.
  - destruct (body x s) as [s1 |] eqn:E; simpl in H; [| discriminate].
    apply (IH (fun y t t' Hy => Hbody y t t' (or_intror Hy)) s1 s');
      [| exact H].
    apply (Hbody x s s1); [left; reflexivity | exact Hs | exact E].
Qed.

(** A loop raises as soon as one of its iterations raises whatever the
    state it is run from. *)
Lemma for_each_raises {A S : Type} (body : A -> S -> result S) (l : list A)
  (x : A) :
  In x l ->
  (forall s, exists e, body x s = Raise e) ->
  forall s, exists e, for_each body l s = Raise e.
Proof.
  induction l as [| y l IH]; intros Hin Hx s; simpl in *; [contradiction |].
  destruct (body y s) as [s1 |] eqn:E; simpl.
  - destruct Hin as [-> | Hin].
    + destruct (Hx s) as [e He]. congruence.
    + apply IH; assumption.
  - eexists; reflexivity.
Qed.

Lemma in_list_set {A : Type} (l : list A) :
  forall i v x, In x (list_set l i v) -> x = v \/ In x l.
Proof.
  induction l as [| y l IH]; intros i v x H; simpl in H; [contradiction |].
  destruct i as [| i]; simpl in H.
  - destruct H as [<- | H]; [left; reflexivity | right; right; exact H].
  - destruct H as [<- | H]; [right; left; reflexivity |].
    destruct (IH i v x H) as [-> | H']; [left; reflexivity | right; right; exact H'].
Qed.

Lemma length_list_set {A : Type} (l : list A) :
  forall i v, List.length (list_set l i v) = List.length l.
Proof.
  induction l as [| y l IH]; intros [| i] v; simpl; try reflexivity.
  rewrite IH; reflexivity.
Qed.

Lemma in_shift_down_steps (js : list nat) :
  forall (top : list Solution.t) (x : Solution.t),
    In x (fold_left
            (fun top j =>
               match nth_error top (j - 1) with
               | Some s => list_set top j s
               | None => top
               end) js top) ->
    In x top.
Proof.
  induction js as [| j js IH]; intros top x H; simpl in H; [exact H |].
  apply IH in H.
  destruct (nth_error top (j - 1)) as [s |] eqn:E; [| exact H].
  apply in_list_set in H. destruct H as [-> | H]; [| exact H].
  eapply nth_error_In; exact E.
Qed.

Lemma in_shift_down top i x : In x (shift_down top i) -> In x top.
Proof. apply in_shift_down_steps. Qed.

Lemma in_file_solution new (indices : list nat) top x :
  In x (file_solution new indices top) -> x = new \/ In x top.
Proof.
  induction indices as [| i indices IH]; simpl; intros H; [right; exact H |].
  destruct (nth_error top i) as [s |]; [| right; exact H].
  destruct (Qlt_bool _ _); [| apply IH; exact H].
  apply in_list_set in H. destruct H as [-> | H]; [left; reflexivity |].
  right. eapply in_shift_down; exact H.
Qed.

(** On a list of three, the loop is the usual bounded insertion. *)
Lemma file_solution_three new a b c :
  file_solution new (seq 0 3) [a; b; c]
  = if Qlt_bool (Solution.total_interest a) (Solution.total_interest new)
    then [new; a; b]
    else if Qlt_bool (Solution.total_interest b) (Solution.total_interest new)
    then [a; new; b]
    else if Qlt_bool (Solution.total_interest c) (Solution.total_interest new)
    then [a; b; new]
    else [a; b; c].
Proof.
  simpl.
  destruct (Qlt_bool (Solution.total_interest a) _); [reflexivity |].
  destruct (Qlt_bool (Solution.total_interest b) _); [reflexivity |].
  destruct (Qlt_bool (Solution.total_interest c) _); reflexivity.
Qed.

Lemma Forall_dict_set {V : Type} (P : string * V -> Prop) (k : string) (v : V)
  (d : dict V) :
  Forall P d -> P (k, v) -> Forall P (dict_set k v d).
Proof.
  induction d as [| [k' v'] d IH]; intros Hd Hk; simpl.
  - constructor; [exact Hk | constructor].
  - inversion Hd; subst.
    destruct (String.eqb k' k) eqn:E.
    + apply String.eqb_eq in E; subst k'. constructor; assumption.
    + constructor; [assumption | apply IH; assumption].
Qed.

Lemma dict_item_ok {V : Type} (d : dict V) (k : string) (v : V) :
  dict_item d k = Ok v -> dict_get d k = Some v.
Proof.
  unfold dict_item. destruct (dict_get d k); intros H; inversion H; reflexivity.
Qed.

Lemma in_range0 (stop a : Z) :
  In a (range0 stop 5000) <->
  (0 <= a)%Z /\ (a < stop)%Z /\ (exists k, a = 5000 * k)%Z.
Proof.
  unfold range0. rewrite in_map_iff. split.
  - intros [k [<- Hk]]. apply in_seq in Hk.
    assert (Hlt : (Z.of_nat k < (stop + 5000 - 1) / 5000)%Z) by lia.
    assert (Hdiv : (5000 * ((stop + 5000 - 1) / 5000) <= stop + 5000 - 1)%Z)
      by (apply Z.mul_div_le; lia).
    split; [lia |]. split; [lia |]. exists (Z.of_nat k). lia.
  - intros [H0 [Hs [k ->]]]. exists (Z.to_nat k). split; [lia |].
    apply in_seq. split; [lia |]. simpl.
    assert (Hk : (k + 1 <= (stop + 5000 - 1) / 5000)%Z)
      by (apply Z.div_le_lower_bound; lia).
    lia.
Qed.

(** ** What the search keeps true *)

(** An entry of a distribution the search builds: a positive multiple of
    the increment, within the bonus cap of its product. *)
Definition allocation_ok (item : string * Z) : Prop :=
  (0 < snd item)%Z
  /\ (exists k, snd item = 5000 * k)%Z
  /\ exists cap, dict_get bonus_caps (fst item) = Some cap
                 /\ (snd item <= cap)%Z.

Definition distribution_ok (d : dict Z) : Prop := Forall allocation_ok d.

Lemma bonus_caps_multiple (b : string) (cap : Z) :
  dict_get bonus_caps b = Some cap -> (exists c, cap = 5000 * c)%Z.
Proof.
  unfold bonus_caps; simpl.
  repeat (match goal with
          | |- context [if ?c then _ else _] => destruct c
          end);
    intros H; inversion H; subst.
  - exists 30%Z; reflexivity.
  - exists 20%Z; reflexivity.
  - exists 20%Z; reflexivity.
  - exists 20%Z; reflexivity.
  - exists 10%Z; reflexivity.
Qed.

Section SearchInvariant.

Variable total_amount : Z.
Variable banks_data : dict BankInfo.
Variable user_requirements : Requirements.

Variable I : SearchState -> Prop.

Hypothesis I_step :
  forall d sb st st',
    distribution_ok d -> I st ->
    try_combination total_amount banks_data user_requirements d sb st
    = Ok st' ->
    I st'.

Lemma try_all_combinations_preserves (banks : list string) :
  forall rem dist sb st st',
    distribution_ok dist -> I st ->
    try_all_combinations total_amount banks_data user_requirements
      rem banks dist sb st = Ok st' ->
    I st'.
Proof.
  induction banks as [| current_bank next_banks IH];
    intros rem dist sb st st' Hd Hst H; simpl in H.
  - destruct (rem <? 5000)%Z.
    + eapply I_step; eassumption.
    + inversion H; subst; exact Hst.
  - destruct (dict_item bonus_caps current_bank) as [cap |] eqn:Ecap;
      simpl in H; [| discriminate].
    apply dict_item_ok in Ecap.
    revert H. apply for_each_preserves; [| exact Hst].
    intros amount s s' Hin Hs Hbody.
    destruct (amount <=? Z.min rem cap)%Z eqn:Ele;
      [| inversion Hbody; subst; exact Hs].
    apply Z.leb_le in Ele. apply in_range0 in Hin.
    destruct Hin as [H0 [_ Hk]].
    eapply IH; [| exact Hs | exact Hbody].
    destruct (amount >? 0)%Z eqn:Epos; [| exact Hd].
    apply Forall_dict_set; [exact Hd |].
    unfold allocation_ok; simpl. split; [lia |]. split; [exact Hk |].
    exists cap. split; [exact Ecap | lia].
Qed.

Lemma try_salary_bank_preserves (salary_bank : string) :
  forall st st',
    I st ->
    try_salary_bank total_amount banks_data user_requirements
      salary_bank st = Ok st' ->
    I st'.
Proof.
  intros st st' Hst H. unfold try_salary_bank in H.
  destruct (dict_item bonus_caps salary_bank) as [cap |] eqn:Ecap;
    simpl in H; [| discriminate].
  apply dict_item_ok in Ecap.
  destruct (bonus_caps_multiple _ _ Ecap) as [c Hc].
  revert H. apply for_each_preserves; [| exact Hst].
  intros amount s s' Hin Hs Hbody.
  destruct (amount <=? total_amount)%Z; [| inversion Hbody; subst; exact Hs].
  apply in_range0 in Hin. destruct Hin as [H0 [Hlt [k Hk]]].
  eapply try_all_combinations_preserves; [| exact Hs | exact Hbody].
  destruct (amount >? 0)%Z eqn:Epos; [| constructor].
  constructor; [| constructor].
  unfold allocation_ok; simpl. split; [lia |].
  split; [exists k; exact Hk |].
  exists cap. split; [exact Ecap | lia].
Qed.

Lemma search_preserves (st : SearchState) :
  I initial_state ->
  search total_amount banks_data user_requirements = Ok st ->
  I st.
Proof.
  intros H0 H. unfold search in H.
  apply bind_ok in H. destruct H as [st1 [E1 H]].
  eapply try_all_combinations_preserves; [constructor | | exact H].
  destruct (has_salary user_requirements).
  - revert E1. apply for_each_preserves; [| exact H0].
    intros sb s s' _. apply try_salary_bank_preserves.
  - inversion E1; subst; exact H0.
Qed.

End SearchInvariant.

(** ** The solutions the optimizer returns *)

(** Re-running the calculator on the pairs of a solution's distribution,
    each product with the requirements copy of the solution's recorded
    salary bank, and summing the totals from 0. *)
Definition recompute_total_interest (banks_data : dict BankInfo)
  (user_requirements : Requirements) (s : Solution.t) : result Q :=
  for_each
    (fun (item : string * Z) (total : Q) =>
       let '(bank, amount) := item in
       info <- dict_item banks_data bank ;;
       r <- calculate_bank_interest (inject_Z amount) info
              (bank_reqs_for user_requirements bank (Solution.salary_bank s)) ;;
       Ok (total + total_interest r))
    (Solution.distribution s) 0.

Section Solutions.

Variable total_amount : Z.
Variable banks_data : dict BankInfo.
Variable user_requirements : Requirements.

(** A solution the search has filed: it records a distribution the
    search built, which passed the tolerance test, together with the
    result of evaluating it. *)
Definition found (s : Solution.t) : Prop :=
  distribution_ok (Solution.distribution s)
  /\ (Z.abs (sum_values (Solution.distribution s) - total_amount)
      <= 5000)%Z
  /\ evaluate_distribution banks_data user_requirements
       (Solution.distribution s) (Solution.salary_bank s)
     = Ok (Solution.total_interest s, Solution.breakdown s).

Definition kept (s : Solution.t) : Prop := s = empty_solution \/ found s.

Lemma try_combination_kept d sb st st' :
  distribution_ok d ->
  Forall kept (top_solutions st) ->
  try_combination total_amount banks_data user_requirements d sb st
  = Ok st' ->
  Forall kept (top_solutions st').
Proof.
  intros Hd Hst H. unfold try_combination in H.
  destruct (Z.abs (sum_values d - total_amount) >? 5000)%Z eqn:Etol;
    [inversion H; subst; exact Hst |].
  apply bind_ok in H. destruct H as [[total bds] [Eev H]].
  inversion H; subst; clear H. simpl.
  apply Forall_forall. intros s Hs.
  apply in_file_solution in Hs. destruct Hs as [-> | Hs].
  - right. unfold found; simpl. split; [exact Hd |].
    split; [lia | exact Eev].
  - rewrite Forall_forall in Hst. apply Hst; exact Hs.
Qed.

Lemma optimize_bank_distribution_kept sols :
  optimize_bank_distribution total_amount banks_data user_requirements
  = Ok sols ->
  Forall kept sols.
Proof.
  unfold optimize_bank_distribution. intros H.
  apply bind_ok in H. destruct H as [st [Hsearch H]].
  inversion H; subst; clear H.
  revert Hsearch.
  apply (search_preserves total_amount banks_data user_requirements
           (fun st => Forall kept (top_solutions st))).
  - intros d sb s s'. apply try_combination_kept.
  - simpl. repeat constructor.
Qed.

Lemma recompute_evaluated (sb : option string) (d : dict Z) :
  distribution_ok d ->
  forall total bds total' bds',
    for_each (evaluate_bank banks_data user_requirements sb) d (total, bds)
    = Ok (total', bds') ->
    for_each
      (fun (item : string * Z) (total : Q) =>
         let '(bank, amount) := item in
         info <- dict_item banks_data bank ;;
         r <- calculate_bank_interest (inject_Z amount) info
                (bank_reqs_for user_requirements bank sb) ;;
         Ok (total + total_interest r))
      d total
    = Ok total'.
Proof.
  induction d as [| [bank0 amount] d IH];
    intros Hd total bds total' bds' H; simpl in *.
  - inversion H; subst; reflexivity.
  - inversion Hd as [| x l Hx Hd']; subst.
    destruct Hx as [Hpos _]; simpl in Hpos.
    assert (Egt : (amount >? 0)%Z = true) by lia.
    rewrite Egt in H.
    destruct (dict_item banks_data bank0) as [info |]; simpl in *;
      [| discriminate].
    destruct (calculate_bank_interest _ info _) as [r |]; simpl in *;
      [| discriminate].
    eapply IH; eassumption.
Qed.

End Solutions.

(** ** Totals beyond what the caps can hold *)

Lemma for_each_unchanged {A S : Type} (body : A -> S -> result S) (l : list A) :
  (forall x s, In x l -> body x s = Ok s) ->
  forall s, for_each body l s = Ok s.
Proof.
  induction l as [| x l IH]; intros Hbody s; simpl; [reflexivity |].
  rewrite Hbody by (left; reflexivity). simpl.
  apply IH. intros y t Hy. apply Hbody. right; exact Hy.
Qed.

Fixpoint total_cap (banks : list string) : Z :=
  match banks with
  | [] => 0
  | b :: banks' =>
      match dict_get bonus_caps b with
      | Some cap => cap
      | None => 0
      end + total_cap banks'
  end.

(** When even filling every remaining product to its cap leaves 5000 or
    more, no leaf of the search is evaluated. *)
Lemma try_all_combinations_beyond_caps total_amount banks_data reqs
  (banks : list string) :
  Forall (fun b => dict_get bonus_caps b <> None) banks ->
  forall rem dist sb st,
    (total_cap banks + 5000 <= rem)%Z ->
    try_all_combinations total_amount banks_data reqs rem banks dist sb st
    = Ok st.
Proof.
  induction banks as [| b banks IH]; intros Hb rem dist sb st Hrem;
    cbn [try_all_combinations total_cap] in *.
  - assert (E : (rem <? 5000)%Z = false) by lia. rewrite E. reflexivity.
  - inversion Hb as [| x l Hx Hb']; subst.
    unfold dict_item.
    destruct (dict_get bonus_caps b) as [cap |]; [| congruence].
    cbn [bind].
    apply for_each_unchanged. intros amount s Hin.
    destruct (amount <=? Z.min rem cap)%Z eqn:Ele; [| reflexivity].
    apply Z.leb_le in Ele. apply IH; [exact Hb' | lia].
Qed.

(** ** C3, C10, C6 and C8 *)

Lemma sample_one_million_placeholders :
  optimize_bank_distribution 1000000 sample_banks sample_reqs_no_salary
  = Ok [empty_solution; empty_solution; empty_solution].
Proof.
  unfold optimize_bank_distribution, search.
  change (has_salary sample_reqs_no_salary) with false. cbv iota.
  unfold bind at 2.
  rewrite try_all_combinations_beyond_caps.
  - reflexivity.
  - unfold all_banks. repeat constructor; discriminate.
  - vm_compute. discriminate.
Qed.

(** With a total of 1,000,000 the caps add up to 500,000 only, no
    combination is evaluated and the three initial entries come back: the
    sum of an empty distribution is 1,000,000 away from the total. *)
Lemma placeholder_outside_tolerance :
  exists s,
    optimize_bank_distribution 1000000 sample_banks sample_reqs_no_salary
    = Ok [s; s; s]
    /\ ~ (Z.abs (sum_values (Solution.distribution s) - 1000000) <= 5000)%Z.
Proof.
  exists empty_solution. split.
  - apply sample_one_million_placeholders.
  - vm_compute. intros H. apply H. reflexivity.
Qed.

(** C3, as the code has it. In every solution the optimizer returns, each
    allocation is at most the bonus cap of its product; and unless the
    solution is one of the three initial entries (empty distribution, zero
    interest), the sum of its distribution is within 5000 of the total. In
    particular a returned solution with a positive interest is within the
    tolerance. *)
Theorem returned_solutions_within_caps_and_tolerance
  (total_amount : Z) (banks_data : dict BankInfo) (reqs : Requirements)
  (sols : list Solution.t) (s : Solution.t) :
  optimize_bank_distribution total_amount banks_data reqs = Ok sols ->
  In s sols ->
  (forall bank amount,
      In (bank, amount) (Solution.distribution s) ->
      exists cap, dict_get bonus_caps bank = Some cap /\ (amount <= cap)%Z)
  /\ (s = empty_solution
      \/ (Z.abs (sum_values (Solution.distribution s) - total_amount)
          <= 5000)%Z)
  /\ (0 < Solution.total_interest s ->
      (Z.abs (sum_values (Solution.distribution s) - total_amount)
       <= 5000)%Z).
Proof.
  intros Hopt Hin.
  apply optimize_bank_distribution_kept in Hopt.
  rewrite Forall_forall in Hopt. specialize (Hopt s Hin).
  destruct Hopt as [-> | [Hd [Htol _]]].
  - split; [intros bank0 amount [] |]. split; [left; reflexivity |].
    simpl. intros H. apply Qlt_irrefl in H. contradiction.
  - split; [| split; [right; exact Htol | intros _; exact Htol]].
    intros bank0 amount Hitem. unfold distribution_ok in Hd.
    rewrite Forall_forall in Hd. destruct (Hd _ Hitem) as [_ [_ Hcap]].
    exact Hcap.
Qed.

(** C10. In every solution the optimizer returns, every entry of the
    distribution is strictly positive (a zero allocation is left out of
    the mapping) and is a multiple of the increment of 5000. *)
Theorem returned_distributions_positive_multiples
  (total_amount : Z) (banks_data : dict BankInfo) (reqs : Requirements)
  (sols : list Solution.t) (s : Solution.t) (bank0 : string) (amount : Z) :
  optimize_bank_distribution total_amount banks_data reqs = Ok sols ->
  In s sols ->
  In (bank0, amount) (Solution.distribution s) ->
  (0 < amount)%Z /\ exists k, (0 < k)%Z /\ (amount = 5000 * k)%Z.
Proof.
  intros Hopt Hin Hitem.
  apply optimize_bank_distribution_kept in Hopt.
  rewrite Forall_forall in Hopt. specialize (Hopt s Hin).
  destruct Hopt as [-> | [Hd _]]; [destruct Hitem |].
  unfold distribution_ok in Hd. rewrite Forall_forall in Hd.
  destruct (Hd _ Hitem) as [Hpos [[k Hk] _]]; cbn [snd] in *.
  split; [exact Hpos |]. exists k. split; [lia | exact Hk].
Qed.

(** C6. For every solution the optimizer returns, re-running the
    calculator on each pair of its distribution, with the requirements
    copy of its recorded salary bank, and summing gives back exactly the
    recorded [total_interest]. *)
Theorem returned_total_interest_recomputes
  (total_amount : Z) (banks_data : dict BankInfo) (reqs : Requirements)
  (sols : list Solution.t) (s : Solution.t) :
  optimize_bank_distribution total_amount banks_data reqs = Ok sols ->
  In s sols ->
  recompute_total_interest banks_data reqs s
  = Ok (Solution.total_interest s).
Proof.
  intros Hopt Hin.
  apply optimize_bank_distribution_kept in Hopt.
  rewrite Forall_forall in Hopt. specialize (Hopt s Hin).
  destruct Hopt as [-> | [Hd [_ Hev]]]; [reflexivity |].
  unfold recompute_total_interest.
  eapply recompute_evaluated; [exact Hd | exact Hev].
Qed.

(** C8. For a total of 0 and any requirements record (and any tier table)
    the optimizer raises nothing and returns three solutions, each with a
    zero [total_interest] and an empty distribution. *)
Theorem zero_amount_returns_three_empty_solutions
  (banks_data : dict BankInfo) (reqs : Requirements) :
  exists s1 s2 s3,
    optimize_bank_distribution 0 banks_data reqs = Ok [s1; s2; s3]
    /\ Forall (fun s => Solution.total_interest s = 0
                        /\ Solution.distribution s = [])
         [s1; s2; s3].
Proof.
  exists empty_solution, empty_solution, empty_solution.
  split; [| repeat constructor].
  unfold optimize_bank_distribution, search.
  destruct (has_salary reqs); vm_compute; reflexivity.
Qed.

(** ** The order of the top-3 list *)

Definition at_least (a b : Solution.t) : Prop :=
  Solution.total_interest b <= Solution.total_interest a.

(** Descending by [total_interest]: every entry earns at least as much as
    every entry after it. *)
Definition descending (top : list Solution.t) : Prop :=
  StronglySorted at_least top.

Lemma Qlt_bool_true (x y : Q) : Qlt_bool x y = true -> x < y.
Proof.
  unfold Qlt_bool. intros H. apply negb_true_iff in H.
  apply Qnot_le_lt. intros Hle. apply Qle_bool_iff in Hle. congruence.
Qed.

Lemma Qlt_bool_false (x y : Q) : Qlt_bool x y = false -> y <= x.
Proof.
  unfold Qlt_bool. intros H. apply negb_false_iff in H.
  apply Qle_bool_iff; exact H.
Qed.

Lemma descending_three (a b c : Solution.t) :
  descending [a; b; c] <->
  Solution.total_interest b <= Solution.total_interest a
  /\ Solution.total_interest c <= Solution.total_interest b.
Proof.
  unfold descending. split.
  - intros H. inversion H as [| x l Hbc Ha]; subst.
    inversion Ha as [| y l' Hab _]; subst.
    inversion Hbc as [| x l _ Hb]; subst.
    inversion Hb as [| y l' Hcb _]; subst.
    split; assumption.
  - intros [Hab Hbc].
    assert (Hac : at_least a c) by (unfold at_least; lra).
    repeat constructor; assumption.
Qed.

(** Splits the three tests of [file_solution_three] and turns each
    outcome into an inequality. *)
Ltac file_cases :=
  rewrite file_solution_three;
  repeat match goal with
         | |- context [if Qlt_bool ?x ?y then _ else _] =>
             let E := fresh "E" in
             destruct (Qlt_bool x y) eqn:E;
             [apply Qlt_bool_true in E | apply Qlt_bool_false in E]
         end.

Lemma file_solution_descending new top :
  List.length top = 3%nat ->
  descending top ->
  List.length (file_solution new (seq 0 (List.length top)) top) = 3%nat
  /\ descending (file_solution new (seq 0 (List.length top)) top).
Proof.
  destruct top as [| a [| b [| c [| x top]]]]; try discriminate.
  intros _ H. apply descending_three in H. destruct H as [Hab Hbc].
  change (List.length [a; b; c]) with 3%nat.
  file_cases; (split; [reflexivity | apply descending_three; lra]).
Qed.

Lemma file_solution_tie new top k s :
  List.length top = 3%nat ->
  descending top ->
  nth_error top k = Some s ->
  Solution.total_interest s == Solution.total_interest new ->
  nth_error (file_solution new (seq 0 (List.length top)) top) k = Some s.
Proof.
  destruct top as [| a [| b [| c [| x top]]]]; try discriminate.
  intros _ H Hk Htie. apply descending_three in H. destruct H as [Hab Hbc].
  change (List.length [a; b; c]) with 3%nat.
  destruct k as [| [| [| k]]]; simpl in Hk;
    try (destruct k; discriminate);
    inversion Hk; subst;
    file_cases; try reflexivity; exfalso; lra.
Qed.

(** The states of one invocation: the initial one and whatever
    [try_combination] makes of a state already reached, for any
    combination it is called on. *)
Inductive reached (total_amount : Z) (banks_data : dict BankInfo)
  (reqs : Requirements) : SearchState -> Prop :=
| reached_initial : reached total_amount banks_data reqs initial_state
| reached_try (d : dict Z) (sb : option string) (st st' : SearchState) :
    reached total_amount banks_data reqs st ->
    try_combination total_amount banks_data reqs d sb st = Ok st' ->
    reached total_amount banks_data reqs st'.

Lemma search_reached total_amount banks_data reqs st :
  search total_amount banks_data reqs = Ok st ->
  reached total_amount banks_data reqs st.
Proof.
  apply search_preserves.
  - intros d sb s s' _ Hs H. eapply reached_try; eassumption.
  - constructor.
Qed.

Lemma try_combination_descending total_amount banks_data reqs d sb st st' :
  List.length (top_solutions st) = 3%nat ->
  descending (top_solutions st) ->
  try_combination total_amount banks_data reqs d sb st = Ok st' ->
  List.length (top_solutions st') = 3%nat /\ descending (top_solutions st').
Proof.
  intros Hlen Hdesc H. unfold try_combination in H.
  destruct (Z.abs (sum_values d - total_amount) >? 5000)%Z;
    [inversion H; subst; split; assumption |].
  apply bind_ok in H. destruct H as [[total bds] [_ H]].
  inversion H; subst; clear H. simpl.
  apply file_solution_descending; assumption.
Qed.

Lemma reached_descending total_amount banks_data reqs st :
  reached total_amount banks_data reqs st ->
  List.length (top_solutions st) = 3%nat /\ descending (top_solutions st).
Proof.
  induction 1 as [| d sb st st' _ [Hlen Hdesc] Htry].
  - split; [reflexivity |]. simpl. apply descending_three.
    simpl. split; apply Qle_refl.
  - eapply try_combination_descending; eassumption.
Qed.

(** C5. In one invocation of the optimizer the top-3 list is in
    descending order of [total_interest] in every state of the search,
    that is initially and after every call of [try_combination], and so in
    the list that is returned; and a candidate whose [total_interest]
    equals that of a solution already kept leaves that solution where it
    is. *)
Theorem top_solutions_descending_first_found_wins
  (total_amount : Z) (banks_data : dict BankInfo) (reqs : Requirements) :
  (forall st,
      reached total_amount banks_data reqs st ->
      descending (top_solutions st))
  /\ (forall sols,
         optimize_bank_distribution total_amount banks_data reqs = Ok sols ->
         descending sols)
  /\ (forall d sb st st' total bds k s,
         reached total_amount banks_data reqs st ->
         try_combination total_amount banks_data reqs d sb st = Ok st' ->
         evaluate_distribution banks_data reqs d sb = Ok (total, bds) ->
         nth_error (top_solutions st) k = Some s ->
         Solution.total_interest s == total ->
         nth_error (top_solutions st') k = Some s).
Proof.
  split; [| split].
  - intros st H. apply (reached_descending _ _ _ _ H).
  - intros sols H. unfold optimize_bank_distribution in H.
    apply bind_ok in H. destruct H as [st [Hs H]].
    inversion H; subst. apply search_reached in Hs.
    apply (reached_descending _ _ _ _ Hs).
  - intros d sb st st' total bds k s Hr Htry Hev Hk Htie.
    destruct (reached_descending _ _ _ _ Hr) as [Hlen Hdesc].
    unfold try_combination in Htry.
    destruct (Z.abs (sum_values d - total_amount) >? 5000)%Z;
      [inversion Htry; subst; exact Hk |].
    rewrite Hev in Htry. simpl in Htry. inversion Htry; subst; clear Htry.
    simpl. apply file_solution_tie; assumption.
Qed.

(** ** The spend allocator *)

Section SpendProperties.

Variable banks_data : dict BankInfo.
Variable deposit_amounts : dict Q.
Variable base_requirements : Requirements.






End SpendProperties.

Lemma min_spends_smallest :
  min_value min_spends = 500%Z
  /\ forall b m, dict_get min_spends b = Some m -> (500 <= m)%Z.
Proof.
  split; [reflexivity |].
  intros b m. unfold min_spends; simpl.
  repeat (match goal with
          | |- context [if ?c then _ else _] => destruct c
          end);
    intros H; inversion H; subst; lia.
Qed.



(** ** Configuration faults *)

(** The tier types a product's rules look up on every call with a
    [next(...)] that has no default. *)
Definition unconditional_tiers (name : string) : list string :=
  if String.eqb name "SC BonusSaver" then ["salary"; "spend"; "base"]
  else if String.eqb name "UOB One" then []
  else if String.eqb name "OCBC 360" then ["base"; "salary"; "spend"]
  else if String.eqb name "BOC SmartSaver" then []
  else if String.eqb name "Chocolate" then ["base"]
  else [].

Ltac split_finds :=
  repeat match goal with
         | |- context [find ?p ?l] => destruct (find p l); simpl
         end.

Lemma missing_tier_raises (deposit : Q) (info : BankInfo) (reqs : Requirements)
  (ty : string) :
  In ty (unconditional_tiers (bank info)) ->
  find (has_type ty) (tiers info) = None ->
  calculate_bank_interest deposit info reqs = Raise StopIteration.
Proof.
  unfold calculate_bank_interest, unconditional_tiers.
  destruct (String.eqb (bank info) "SC BonusSaver").
  { unfold calculate_sc_bonussaver, next_tier. simpl.
    intros [<- | [<- | [<- | []]]] Hnone; rewrite Hnone;
      split_finds; reflexivity. }
  destruct (String.eqb (bank info) "UOB One"); [intros [] |].
  destruct (String.eqb (bank info) "OCBC 360").
  { unfold calculate_ocbc_360, next_tier. simpl.
    intros [<- | [<- | [<- | []]]] Hnone; rewrite Hnone;
      split_finds; reflexivity. }
  destruct (String.eqb (bank info) "BOC SmartSaver"); [intros [] |].
  destruct (String.eqb (bank info) "Chocolate"); [| intros []].
  unfold calculate_chocolate, next_tier. simpl.
  intros [<- | []] Hnone; rewrite Hnone; reflexivity.
Qed.

(** The combinations below a node of the search: [leaf_of rem banks dist d]
    when [try_all_combinations rem banks dist] hands [d] to
    [try_combination]. *)
Inductive leaf_of : Z -> list string -> dict Z -> dict Z -> Prop :=
| leaf_here (rem : Z) (dist : dict Z) :
    (rem < 5000)%Z -> leaf_of rem [] dist dist
| leaf_below (rem : Z) (current_bank : string) (next_banks : list string)
    (dist : dict Z) (cap amount k : Z) (d : dict Z) :
    dict_get bonus_caps current_bank = Some cap ->
    (0 <= amount <= Z.min rem cap)%Z ->
    (amount = 5000 * k)%Z ->
    leaf_of (rem - amount) next_banks
      (if (amount >? 0)%Z then dict_set current_bank amount dist else dist)
      d ->
    leaf_of rem (current_bank :: next_banks) dist d.

Section Faults.

Variable total_amount : Z.
Variable banks_data : dict BankInfo.
Variable reqs : Requirements.

(** The calculation of one product of a combination fails. *)
Definition faulty (sb : option string) (item : string * Z) : Prop :=
  (0 < snd item)%Z
  /\ exists e,
      (info <- dict_item banks_data (fst item) ;;
       calculate_bank_interest (inject_Z (snd item)) info
         (bank_reqs_for reqs (fst item) sb))
      = Raise e.

Lemma evaluate_bank_raises sb item :
  faulty sb item ->
  forall acc, exists e, evaluate_bank banks_data reqs sb item acc = Raise e.
Proof.
  destruct item as [bank0 amount]. intros [Hpos [e He]] [total bds].
  cbn [fst snd] in *. unfold evaluate_bank.
  assert (E : (amount >? 0)%Z = true) by lia. rewrite E.
  destruct (dict_item banks_data bank0) as [info |]; cbn [bind] in *;
    [| eexists; reflexivity].
  rewrite He. eexists; reflexivity.
Qed.

Lemma try_combination_raises d sb item :
  In item d -> faulty sb item ->
  (Z.abs (sum_values d - total_amount) <= 5000)%Z ->
  forall st,
  exists e, try_combination total_amount banks_data reqs d sb st = Raise e.
Proof.
  intros Hin Hf Htol st. unfold try_combination.
  assert (E : (Z.abs (sum_values d - total_amount) >? 5000)%Z = false)
    by lia.
  rewrite E. unfold evaluate_distribution.
  destruct (for_each_raises (evaluate_bank banks_data reqs sb) d item Hin
              (evaluate_bank_raises sb item Hf) (0, [])) as [e He].
  rewrite He. eexists; reflexivity.
Qed.

Lemma try_all_combinations_raises sb rem banks dist d :
  leaf_of rem banks dist d ->
  (forall st,
      exists e,
        try_combination total_amount banks_data reqs d sb st = Raise e) ->
  forall st,
  exists e,
    try_all_combinations total_amount banks_data reqs rem banks dist sb st
    = Raise e.
Proof.
  intros Hleaf Hd.
  induction Hleaf as [rem dist Hrem
                     | rem current_bank next_banks dist cap amount k d
                         Hcap Hamount Hk Hleaf IH];
    intros st; cbn [try_all_combinations].
  - assert (E : (rem <? 5000)%Z = true) by lia. rewrite E. apply Hd.
  - unfold dict_item. rewrite Hcap. cbn [bind].
    apply for_each_raises with (x := amount).
    + apply in_range0. split; [lia |]. split; [lia |]. exists k; exact Hk.
    + intros s.
      assert (E : (amount <=? Z.min rem cap)%Z = true) by lia.
      rewrite E. apply IH. exact Hd.
Qed.

Lemma optimize_bank_distribution_raises d item :
  leaf_of total_amount all_banks [] d ->
  In item d -> faulty None item ->
  (Z.abs (sum_values d - total_amount) <= 5000)%Z ->
  exists e,
    optimize_bank_distribution total_amount banks_data reqs = Raise e.
Proof.
  intros Hleaf Hin Hf Htol.
  unfold optimize_bank_distribution, search.
  destruct (if has_salary reqs then _ else _) as [st |];
    [| eexists; reflexivity].
  cbn [bind].
  destruct (try_all_combinations_raises None total_amount all_banks [] d
              Hleaf (try_combination_raises d None item Hin Hf Htol) st)
    as [e He].
  rewrite He. eexists; reflexivity.
Qed.

End Faults.

(** With the [salary] row of SC BonusSaver lost and 5000 to place, the
    optimizer ends with [StopIteration] and returns no solution at all,
    although Chocolate calculates without fault, the combination that
    puts everything in UOB One evaluates without fault, and a
    combination that holds both SC BonusSaver and Chocolate fails before
    Chocolate is calculated. *)
Lemma missing_tier_aborts_whole_search :
  optimize_bank_distribution 5000 sample_banks_sc_broken
    sample_reqs_no_salary = Raise StopIteration
  /\ (exists r,
        calculate_bank_interest 5000 sample_chocolate sample_reqs_no_salary
        = Ok r)
  /\ (exists ev,
        evaluate_distribution sample_banks_sc_broken sample_reqs_no_salary
          [("UOB One", 5000%Z)] None = Ok ev)
  /\ evaluate_distribution sample_banks_sc_broken sample_reqs_no_salary
       [("SC BonusSaver", 5000%Z); ("Chocolate", 5000%Z)] None
     = Raise StopIteration.
Proof.
  split; [vm_compute; reflexivity |].
  split; [eexists; vm_compute; reflexivity |].
  split; [eexists; vm_compute; reflexivity |].
  vm_compute; reflexivity.
Qed.

(** C1, as the code has it. A tier type that a product's rules always
    look up and that its table lacks makes [calculate_bank_interest]
    raise [StopIteration] to its caller. Nothing in the optimizer catches
    it: [try_combination] raises on every combination within the
    tolerance that holds a product, with a positive allocation, whose
    calculation raises; and when such a combination is among those of the
    final pass, [optimize_bank_distribution] itself raises and returns no
    solution. *)
Theorem configuration_fault_propagates
  (total_amount : Z) (banks_data : dict BankInfo) (reqs : Requirements) :
  (forall deposit info r ty,
      In ty (unconditional_tiers (bank info)) ->
      find (has_type ty) (tiers info) = None ->
      calculate_bank_interest deposit info r = Raise StopIteration)
  /\ (forall d sb item st,
         In item d -> faulty banks_data reqs sb item ->
         (Z.abs (sum_values d - total_amount) <= 5000)%Z ->
         exists e,
           try_combination total_amount banks_data reqs d sb st = Raise e)
  /\ (forall d item,
         leaf_of total_amount all_banks [] d ->
         In item d -> faulty banks_data reqs None item ->
         (Z.abs (sum_values d - total_amount) <= 5000)%Z ->
         exists e,
           optimize_bank_distribution total_amount banks_data reqs
           = Raise e).
Proof.
  split; [| split].
  - intros deposit info r ty. apply missing_tier_raises.
  - intros d sb item st Hin Hf Htol.
    apply (try_combination_raises total_amount banks_data reqs d sb item
             Hin Hf Htol st).
  - intros d item. apply optimize_bank_distribution_raises.
Qed.

Lemma configuration_fault_propagates_witness :
  calculate_bank_interest 5000 sample_sc_no_salary_tier sample_reqs_no_salary
  = Raise StopIteration
  /\ exists e,
      optimize_bank_distribution 5000 sample_banks_sc_broken
        sample_reqs_no_salary = Raise e.
Proof.
  destruct (configuration_fault_propagates 5000 sample_banks_sc_broken
              sample_reqs_no_salary) as [H1 [_ H3]].
  split.
  - apply (H1 5000 sample_sc_no_salary_tier sample_reqs_no_salary "salary").
    + left; reflexivity.
    + reflexivity.
  - apply (H3 [("SC BonusSaver", 5000%Z)] ("SC BonusSaver", 5000%Z)).
    + apply leaf_below with (cap := 150000%Z) (amount := 0%Z) (k := 0%Z);
        [reflexivity | lia | reflexivity |].
      apply leaf_below with (cap := 100000%Z) (amount := 5000%Z) (k := 1%Z);
        [reflexivity | lia | reflexivity |].
      apply leaf_below with (cap := 100000%Z) (amount := 0%Z) (k := 0%Z);
        [reflexivity | lia | reflexivity |].
      apply leaf_below with (cap := 100000%Z) (amount := 0%Z) (k := 0%Z);
        [reflexivity | lia | reflexivity |].
      apply leaf_below with (cap := 50000%Z) (amount := 0%Z) (k := 0%Z);
        [reflexivity | lia | reflexivity |].
      apply leaf_here. reflexivity.
    + left; reflexivity.
    + split; [reflexivity |]. exists StopIteration. reflexivity.
    + vm_compute. discriminate.
Defined.

(** ** Closed instances of the optimizer theorems *)

(** The run the instances below share: 5000 to place, no salary credit. *)
Definition sample_run : result (list Solution.t) :=
  optimize_bank_distribution 5000 sample_banks sample_reqs_no_salary.

Lemma returned_solutions_within_caps_and_tolerance_witness :
  exists sols s,
    sample_run = Ok sols
    /\ In s sols
    /\ Solution.distribution s = [("Chocolate", 5000%Z)]
    /\ (forall bank0 amount,
           In (bank0, amount) (Solution.distribution s) ->
           exists cap,
             dict_get bonus_caps bank0 = Some cap /\ (amount <= cap)%Z)
    /\ (Z.abs (sum_values (Solution.distribution s) - 5000) <= 5000)%Z.
Proof.
  eexists; eexists.
  split; [vm_compute; reflexivity |].
  split; [left; reflexivity |].
  split; [reflexivity |].
  destruct (returned_solutions_within_caps_and_tolerance 5000 sample_banks
              sample_reqs_no_salary _ _
              (eq_refl : sample_run = Ok _) (or_introl eq_refl))
    as [Hcap [_ Htol]].
  split; [exact Hcap |].
  apply Htol. reflexivity.
Defined.

Lemma returned_distributions_positive_multiples_witness :
  exists sols s,
    sample_run = Ok sols
    /\ In s sols
    /\ In ("Chocolate", 5000%Z) (Solution.distribution s)
    /\ (0 < 5000)%Z /\ exists k, (0 < k)%Z /\ (5000 = 5000 * k)%Z.
Proof.
  eexists; eexists.
  split; [vm_compute; reflexivity |].
  split; [left; reflexivity |].
  split; [left; reflexivity |].
  apply (returned_distributions_positive_multiples 5000 sample_banks
           sample_reqs_no_salary _ _ "Chocolate" 5000%Z
           (eq_refl : sample_run = Ok _) (or_introl eq_refl)
           (or_introl eq_refl)).
Defined.

Lemma returned_total_interest_recomputes_witness :
  exists sols s,
    sample_run = Ok sols
    /\ In s sols
    /\ Solution.total_interest s == 180
    /\ recompute_total_interest sample_banks sample_reqs_no_salary s
       = Ok (Solution.total_interest s).
Proof.
  eexists; eexists.
  split; [vm_compute; reflexivity |].
  split; [left; reflexivity |].
  split; [reflexivity |].
  apply (returned_total_interest_recomputes 5000 sample_banks
           sample_reqs_no_salary _ _
           (eq_refl : sample_run = Ok _) (or_introl eq_refl)).
Defined.

(** In the sample run BOC SmartSaver and UOB One both earn 32.5; BOC
    SmartSaver is evaluated first and is the one in third place. *)
Lemma top_solutions_descending_first_found_wins_witness :
  exists sols,
    sample_run = Ok sols
    /\ map Solution.distribution sols
       = [ [("Chocolate", 5000%Z)]; [("SC BonusSaver", 5000%Z)];
           [("BOC SmartSaver", 5000%Z)] ]
    /\ descending sols.
Proof.
  eexists.
  split; [vm_compute; reflexivity |].
  split; [reflexivity |].
  apply (proj1 (proj2 (top_solutions_descending_first_found_wins 5000
                         sample_banks sample_reqs_no_salary))).
  vm_compute; reflexivity.
Defined.


(** * Further properties of the calculator *)

(** ** Every line of a breakdown *)

(** What [add_tier] writes: the interest of a line is its amount times its
    rate and the monthly interest is a twelfth of it. *)
Definition line_ok (t : TierApplication) : Prop :=
  tier_interest t = amount_in_tier t * tier_rate t
  /\ monthly_interest t = tier_interest t / 12.

Definition lines_ok (r : CalculationResult) : Prop :=
  Forall line_ok (breakdown r).

Lemma lines_ok_add_tier amount rate d l :
  Forall line_ok l -> Forall line_ok (snd (add_tier amount rate d l)).
Proof.
  intros H. unfold add_tier; simpl. apply Forall_app. split; [exact H |].
  constructor; [split; reflexivity | constructor].
Qed.

Lemma lines_ok_empty : lines_ok empty_result.
Proof. constructor. Qed.

Lemma lines_ok_credit amount rate d acc :
  lines_ok acc -> lines_ok (credit amount rate d acc).
Proof. intros H. apply (lines_ok_add_tier amount rate d _ H). Qed.

Create HintDb lines.

#[local] Hint Resolve lines_ok_empty lines_ok_credit : lines.

Lemma lines_ok_uob_ladder label ladder :
  forall remaining acc,
    lines_ok acc -> lines_ok (uob_ladder label ladder remaining acc).
Proof.
  induction ladder as [| t ladder IH]; intros remaining acc H; simpl.
  - exact H.
  - destruct (Qle_bool _ 0); auto with lines.
Qed.

Lemma lines_ok_boc_base_bands base_tiers :
  forall remaining prev_cap acc,
    lines_ok acc ->
    lines_ok (boc_base_bands base_tiers remaining prev_cap acc).
Proof.
  induction base_tiers as [| t base_tiers IH];
    intros remaining prev_cap acc H; simpl.
  - exact H.
  - destruct (Qle_bool _ 0); auto with lines.
Qed.

Lemma lines_ok_boc_bonus deposit t d acc :
  lines_ok acc -> lines_ok (boc_bonus deposit t d acc).
Proof. unfold boc_bonus. auto with lines. Qed.

#[local] Hint Resolve lines_ok_uob_ladder lines_ok_boc_base_bands
  lines_ok_boc_bonus : lines.

Lemma lines_ok_process_ocbc deposit info ty met st :
  Forall line_ok (ocbc_breakdown st) ->
  Forall line_ok (ocbc_breakdown (process_ocbc_tier deposit info ty met st)).
Proof.
  unfold process_ocbc_tier. intros H. destruct met; [| exact H].
  destruct (find (has_type_and_cap ty 75000) (tiers info));
    destruct (find (has_type_and_cap ty 25000) (tiers info));
    simpl; repeat apply lines_ok_add_tier; exact H.
Qed.

Lemma lines_ok_sc_bonussaver deposit info reqs r :
  calculate_sc_bonussaver deposit info reqs = Ok r -> lines_ok r.
Proof.
  unfold calculate_sc_bonussaver. intros H.
  do 3 step_next.
  set (acc0 := credit deposit _ BaseInterest empty_result) in H.
  assert (H0 : lines_ok acc0) by (subst acc0; auto with lines).
  set (acc1 := if has_salary reqs && _ then _ else acc0) in H.
  assert (H1 : lines_ok acc1)
    by (subst acc1; destruct (has_salary reqs && _); auto with lines).
  set (acc2 := if Qle_bool _ (spend_amount reqs) then _ else acc1) in H.
  assert (H2 : lines_ok acc2)
    by (subst acc2; destruct (Qle_bool _ (spend_amount reqs));
        auto with lines).
  clearbody acc2. clear H0 H1 acc0 acc1.
  destruct (has_investments reqs); [step_next |]; simpl in H;
    (destruct (has_insurance reqs); [step_next |]; simpl in H);
    inversion H; subst; auto with lines.
Qed.

Lemma lines_ok_uob_one deposit info reqs r :
  calculate_uob_one deposit info reqs = Ok r -> lines_ok r.
Proof.
  unfold calculate_uob_one. intros H.
  destruct (Qle_bool 500 (spend_amount reqs)).
  - destruct (has_salary reqs); [| destruct (3 <=? giro_count reqs)%Z];
      inversion H; subst; auto with lines.
  - step_next. inversion H; subst; auto with lines.
Qed.

Lemma lines_ok_ocbc_360 deposit info reqs r :
  calculate_ocbc_360 deposit info reqs = Ok r -> lines_ok r.
Proof.
  unfold calculate_ocbc_360. intros H.
  do 3 step_next. inversion H; subst; clear H.
  unfold lines_ok; simpl.
  repeat apply lines_ok_process_ocbc.
  simpl. apply (lines_ok_add_tier _ _ _ []). constructor.
Qed.

Lemma lines_ok_boc_smartsaver deposit info reqs r :
  calculate_boc_smartsaver deposit info reqs = Ok r -> lines_ok r.
Proof.
  unfold calculate_boc_smartsaver. intros H.
  set (acc0 := boc_base_bands _ deposit 0 empty_result) in H.
  assert (H0 : lines_ok acc0) by (subst acc0; auto with lines).
  clearbody acc0.
  destruct (Qle_bool 1500 deposit); [| inversion H; subst; exact H0].
  destruct (has_salary reqs && Qle_bool 2000 (salary_amount reqs));
    [step_next |]; simpl in H;
    (destruct (has_insurance reqs); [step_next |]; simpl in H);
    (destruct (Qle_bool 500 (spend_amount reqs));
     [destruct (Qle_bool 1500 (spend_amount reqs)); step_next |];
     simpl in H);
    (destruct (3 <=? giro_count reqs)%Z; [step_next |]; simpl in H);
    inversion H; subst; auto 10 with lines.
Qed.

Lemma lines_ok_chocolate deposit info r :
  calculate_chocolate deposit info = Ok r -> lines_ok r.
Proof.
  unfold calculate_chocolate. intros H.
  do 2 step_next.
  match type of H with
  | context [credit _ _ Next30000 ?acc] =>
      assert (H0 : lines_ok acc)
        by (apply (lines_ok_add_tier _ _ _ []); constructor)
  end.
  destruct (Qlt_bool 20000 deposit).
  - step_next. inversion H; subst. auto with lines.
  - inversion H; subst. exact H0.
Qed.

Lemma lines_ok_dbs_multiplier deposit info reqs r :
  calculate_dbs_multiplier deposit info reqs = Ok r -> lines_ok r.
Proof.
  unfold calculate_dbs_multiplier. intros H.
  destruct (negb (has_salary reqs)); [inversion H; subst; auto with lines |].
  destruct (Qlt_bool _ 500 || _); [inversion H; subst; auto with lines |].
  destruct (find _ (tiers info)); [| inversion H; subst; auto with lines].
  inversion H; subst.
  destruct (Qlt_bool 0 _); destruct (Qlt_bool (cap_amount t) deposit);
    auto with lines.
Qed.

(** X1. In every result the calculator returns, for every product, each
    line of the breakdown has [tier_interest = amount_in_tier * tier_rate]
    and [monthly_interest = tier_interest / 12]. *)
Theorem breakdown_lines_interest_and_monthly
  (deposit_amount : Q) (bank_info : BankInfo) (reqs : Requirements)
  (r : CalculationResult) (t : TierApplication) :
  calculate_bank_interest deposit_amount bank_info reqs = Ok r ->
  In t (breakdown r) ->
  tier_interest t = amount_in_tier t * tier_rate t
  /\ monthly_interest t = tier_interest t / 12.
Proof.
  intros H Hin.
  assert (Hr : lines_ok r).
  { unfold calculate_bank_interest in H.
    repeat split_if H;
      eauto using lines_ok_sc_bonussaver, lines_ok_uob_one,
        lines_ok_ocbc_360, lines_ok_boc_smartsaver, lines_ok_chocolate,
        lines_ok_dbs_multiplier.
    inversion H; subst. apply lines_ok_empty. }
  unfold lines_ok in Hr. rewrite Forall_forall in Hr. apply Hr; exact Hin.
Qed.

Lemma breakdown_lines_interest_and_monthly_witness :
  exists r t,
    calculate_bank_interest 30000 sample_boc sample_reqs = Ok r
    /\ In t (breakdown r)
    /\ amount_in_tier t == 15000
    /\ tier_interest t = amount_in_tier t * tier_rate t
    /\ monthly_interest t = tier_interest t / 12.
Proof.
  eexists; eexists.
  split; [vm_compute; reflexivity |].
  split; [right; left; reflexivity |].
  split; [reflexivity |].
  apply (breakdown_lines_interest_and_monthly 30000 sample_boc sample_reqs
           _ _ eq_refl (or_intror (or_introl eq_refl))).
Defined.

(** ** SC BonusSaver *)

(** X2. SC BonusSaver with no bonus met (salary not credited or below the
    product's minimum, spend below the product's minimum, no investment,
    no insurance): the result is the base rate on the whole deposit, in a
    single line labelled as base interest. *)
Theorem sc_bonussaver_base_only
  (deposit_amount : Q) (bank_info : BankInfo) (reqs : Requirements)
  (salary_tier spend_tier base_tier : Tier) :
  bank bank_info = "SC BonusSaver" ->
  find (has_type "salary") (tiers bank_info) = Some salary_tier ->
  find (has_type "spend") (tiers bank_info) = Some spend_tier ->
  find (has_type "base") (tiers bank_info) = Some base_tier ->
  has_salary reqs = false \/ salary_amount reqs < min_salary salary_tier ->
  spend_amount reqs < min_spend spend_tier ->
  has_investments reqs = false ->
  has_insurance reqs = false ->
  exists r line,
    calculate_bank_interest deposit_amount bank_info reqs = Ok r
    /\ total_interest r == deposit_amount * (interest_rate base_tier / 100)
    /\ breakdown r = [line]
    /\ amount_in_tier line = deposit_amount
    /\ description line = BaseInterest.
Proof.
  intros Hbank Hsal Hsp Hbase Hnosal Hnospend Hinv Hins.
  unfold calculate_bank_interest. rewrite Hbank. simpl.
  unfold calculate_sc_bonussaver, next_tier.
  rewrite Hsal, Hsp, Hbase. simpl. rewrite Hinv, Hins.
  assert (E1 : has_salary reqs
               && Qle_bool (min_salary salary_tier) (salary_amount reqs)
               = false).
  { destruct Hnosal as [-> | Hlt]; [reflexivity |].
    apply andb_false_iff. right.
    destruct (Qle_bool (min_salary salary_tier) (salary_amount reqs)) eqn:E;
      [| reflexivity].
    apply Qle_bool_iff in E. exfalso. lra. }
  assert (E2 : Qle_bool (min_spend spend_tier) (spend_amount reqs) = false).
  { destruct (Qle_bool (min_spend spend_tier) (spend_amount reqs)) eqn:E;
      [| reflexivity].
    apply Qle_bool_iff in E. exfalso. lra. }
  rewrite E1, E2. simpl.
  eexists; eexists. split; [reflexivity |]. simpl.
  split; [unfold rate_of; ring |]. repeat split.
Qed.

Lemma sc_bonussaver_base_only_witness :
  exists r,
    calculate_bank_interest 10000 sample_sc
      (set_spend_amount 0 sample_reqs_no_salary) = Ok r
    /\ total_interest r == 5
    /\ List.length (breakdown r) = 1%nat.
Proof.
  destruct (sc_bonussaver_base_only 10000 sample_sc
              (set_spend_amount 0 sample_reqs_no_salary)
              (tier "salary" "1" 1 "salary" 100000)
              (tier "spend" "1" 1 "spend" 100000)
              (tier "base" "1" 0.05 "base" 0))
    as [r [line [Hr [Ht [Hb _]]]]];
    try reflexivity.
  - left; reflexivity.
  - exists r. split; [exact Hr |]. split.
    + rewrite Ht. reflexivity.
    + rewrite Hb. reflexivity.
Defined.

(** The shape the SC BonusSaver rules keep: a first line on the whole
    deposit, then lines on [min(deposit, 100000)] only. *)
Definition sc_shape (deposit : Q) (acc : CalculationResult) : Prop :=
  exists first rest,
    breakdown acc = first :: rest
    /\ amount_in_tier first = deposit
    /\ Forall (fun t => amount_in_tier t = Qmin deposit 100000) rest.

Lemma sc_shape_credit deposit rate d acc :
  sc_shape deposit acc ->
  sc_shape deposit (credit (Qmin deposit 100000) rate d acc).
Proof.
  intros [first [rest [Hb [Hf Hr]]]]. exists first.
  eexists. unfold credit, add_tier; simpl. rewrite Hb. simpl.
  split; [reflexivity |]. split; [exact Hf |].
  apply Forall_app. split; [exact Hr |]. constructor; [reflexivity | constructor].
Qed.

(** X3. In every result for SC BonusSaver the first line is on the whole
    deposit and every other line, the bonuses, is on
    [min(deposit, 100000)]: no bonus is paid on more than 100,000. *)
Theorem sc_bonussaver_bonus_capped
  (deposit_amount : Q) (bank_info : BankInfo) (reqs : Requirements)
  (r : CalculationResult) :
  bank bank_info = "SC BonusSaver" ->
  calculate_bank_interest deposit_amount bank_info reqs = Ok r ->
  exists first rest,
    breakdown r = first :: rest
    /\ amount_in_tier first = deposit_amount
    /\ description first = BaseInterest
    /\ (List.length rest <= 4)%nat
    /\ Forall (fun t => amount_in_tier t = Qmin deposit_amount 100000
                        /\ amount_in_tier t <= 100000) rest.
Proof.
  intros Hbank H. unfold calculate_bank_interest in H.
  rewrite Hbank in H. simpl in H.
  unfold calculate_sc_bonussaver in H. do 3 step_next.
  assert (Hgoal :
            forall acc,
              (exists first rest,
                  breakdown acc = first :: rest
                  /\ amount_in_tier first = deposit_amount
                  /\ description first = BaseInterest
                  /\ (List.length rest <= 4)%nat
                  /\ Forall (fun t =>
                               amount_in_tier t = Qmin deposit_amount 100000)
                       rest) ->
              exists first rest,
                breakdown acc = first :: rest
                /\ amount_in_tier first = deposit_amount
                /\ description first = BaseInterest
                /\ (List.length rest <= 4)%nat
                /\ Forall (fun t =>
                             amount_in_tier t = Qmin deposit_amount 100000
                             /\ amount_in_tier t <= 100000) rest).
  { intros acc [first [rest [Hb [Hf [Hd [Hl Hr]]]]]].
    exists first, rest. repeat (split; [assumption |]).
    eapply Forall_impl; [| exact Hr].
    intros t0 Ht. split; [exact Ht |]. rewrite Ht. apply Q.le_min_r. }
  apply Hgoal. clear Hgoal.
  unfold credit, add_tier in H. simpl in H.
  destruct (has_salary reqs && _); destruct (Qle_bool _ (spend_amount reqs));
    (destruct (has_investments reqs); [step_next |]; simpl in H);
    (destruct (has_insurance reqs); [step_next |]; simpl in H);
    inversion H; subst; clear H; simpl;
    eexists; eexists; (split; [reflexivity |]);
    simpl; repeat split; try lia; repeat constructor.
Qed.

Lemma sc_bonussaver_bonus_capped_witness :
  exists r first rest,
    calculate_bank_interest 500000 sample_sc sample_reqs = Ok r
    /\ breakdown r = first :: rest
    /\ amount_in_tier first = 500000
    /\ List.length rest = 2%nat
    /\ Forall (fun t => amount_in_tier t <= 100000) rest.
Proof.
  destruct (sc_bonussaver_bonus_capped 500000 sample_sc sample_reqs
              _ eq_refl eq_refl)
    as [first [rest [Hb [Hf [_ [_ Hr]]]]]].
  eexists; exists first, rest.
  split; [reflexivity |].
  split; [exact Hb |]. split; [exact Hf |].
  split; [inversion Hb; reflexivity |].
  eapply Forall_impl; [| exact Hr]. intros t [_ Ht]; exact Ht.
Defined.

(** ** Amounts that earn interest *)

(** The sum of [amount_in_tier] over a breakdown. *)
Definition sum_amounts (l : list TierApplication) : Q :=
  fold_left (fun s t => s + amount_in_tier t) l 0.

Lemma sum_amounts_snoc l t :
  sum_amounts (l ++ [t]) = sum_amounts l + amount_in_tier t.
Proof. unfold sum_amounts. rewrite fold_left_app. reflexivity. Qed.

Lemma sum_amounts_credit amount rate d acc :
  sum_amounts (breakdown (credit amount rate d acc))
  = sum_amounts (breakdown acc) + amount.
Proof. unfold credit, add_tier; simpl. apply sum_amounts_snoc. Qed.

Lemma Qle_bool_false (x y : Q) : Qle_bool x y = false -> y < x.
Proof.
  intros H. apply Qnot_le_lt. intros Hle. apply Qle_bool_iff in Hle.
  congruence.
Qed.

Lemma Qmin_cases (x y : Q) :
  (x <= y /\ Qmin x y == x) \/ (y <= x /\ Qmin x y == y).
Proof.
  destruct (Qlt_le_dec y x) as [H | H].
  - right. split; [apply Qlt_le_weak; exact H |].
    apply Q.min_r. apply Qlt_le_weak; exact H.
  - left. split; [exact H | apply Q.min_l; exact H].
Qed.

Lemma Qmax_cases (x y : Q) :
  (y <= x /\ Qmax x y == x) \/ (x <= y /\ Qmax x y == y).
Proof.
  destruct (Qlt_le_dec x y) as [H | H].
  - right. split; [apply Qlt_le_weak; exact H |].
    apply Q.max_r. apply Qlt_le_weak; exact H.
  - left. split; [exact H | apply Q.max_l; exact H].
Qed.

(** The ladder of UOB One adds at most what is left of the deposit. *)
Lemma uob_ladder_amounts label ladder :
  forall remaining acc,
    sum_amounts (breakdown (uob_ladder label ladder remaining acc))
    <= sum_amounts (breakdown acc) + Qmax 0 remaining.
Proof.
  induction ladder as [| t ladder IH]; intros remaining acc; simpl.
  - destruct (Qmax_cases 0 remaining) as [[H0 E] | [H0 E]]; lra.
  - destruct (Qle_bool (Qmin remaining (cap_amount t)) 0) eqn:Epos.
    + destruct (Qmax_cases 0 remaining) as [[H0 E] | [H0 E]]; lra.
    + apply Qle_bool_false in Epos.
      eapply Qle_trans; [apply IH |].
      rewrite sum_amounts_credit.
      destruct (Qmin_cases remaining (cap_amount t)) as [[Hle E] | [Hle E]];
        destruct (Qmax_cases 0 remaining) as [[H1 E1] | [H1 E1]];
        destruct (Qmax_cases 0 (remaining - Qmin remaining (cap_amount t)))
          as [[H2 E2] | [H2 E2]];
        lra.
Qed.

(** X4. UOB One never pays interest on more than the deposit: for a
    deposit of at least 0 the amounts of the breakdown add up to at most
    the deposit, whichever ladder applies. *)
Theorem uob_one_amounts_within_deposit
  (deposit_amount : Q) (bank_info : BankInfo) (reqs : Requirements)
  (r : CalculationResult) :
  bank bank_info = "UOB One" ->
  0 <= deposit_amount ->
  calculate_bank_interest deposit_amount bank_info reqs = Ok r ->
  sum_amounts (breakdown r) <= deposit_amount.
Proof.
  intros Hbank Hd H. unfold calculate_bank_interest in H.
  rewrite Hbank in H. simpl in H. unfold calculate_uob_one in H.
  assert (Hladder :
            forall label ladder,
              sum_amounts
                (breakdown (uob_ladder label ladder deposit_amount
                              empty_result))
              <= deposit_amount).
  { intros label ladder.
    eapply Qle_trans; [apply uob_ladder_amounts |].
    unfold sum_amounts; simpl.
    destruct (Qmax_cases 0 deposit_amount) as [[H0 E] | [H0 E]]; lra. }
  destruct (Qle_bool 500 (spend_amount reqs)).
  - destruct (has_salary reqs); [| destruct (3 <=? giro_count reqs)%Z];
      inversion H; subst; apply Hladder.
  - step_next. inversion H; subst. rewrite sum_amounts_credit.
    unfold sum_amounts; simpl.
    destruct (Qmin_cases deposit_amount (cap_amount a)) as [[Hle E] | [Hle E]];
      lra.
Qed.

Lemma uob_one_amounts_within_deposit_witness :
  exists r,
    calculate_bank_interest 200000 sample_uob sample_reqs = Ok r
    /\ sum_amounts (breakdown r) == 125000
    /\ sum_amounts (breakdown r) <= 200000.
Proof.
  eexists. split; [vm_compute; reflexivity |]. split; [reflexivity |].
  apply (uob_one_amounts_within_deposit 200000 sample_uob sample_reqs).
  - reflexivity.
  - unfold Qle; simpl; lia.
  - vm_compute; reflexivity.
Defined.

(** ** BOC SmartSaver *)

Definition is_base_line (t : TierApplication) : Prop :=
  exists label, description t = BaseInterestOf label.

(** The lines the loop over the base bands writes. *)
Definition boc_base_lines (deposit : Q) (info : BankInfo)
  : list TierApplication :=
  breakdown
    (boc_base_bands (sorted_by_cap (filter (has_type "base") (tiers info)))
       deposit 0 empty_result).

Lemma boc_base_bands_amounts base_tiers :
  forall deposit prev_cap acc,
    sum_amounts (breakdown (boc_base_bands base_tiers deposit prev_cap acc))
    <= sum_amounts (breakdown acc) + Qmax 0 (deposit - prev_cap).
Proof.
  induction base_tiers as [| t base_tiers IH]; intros deposit prev_cap acc;
    simpl.
  - destruct (Qmax_cases 0 (deposit - prev_cap)) as [[H0 E] | [H0 E]]; lra.
  - destruct (Qle_bool _ 0) eqn:Epos.
    + destruct (Qmax_cases 0 (deposit - prev_cap)) as [[H0 E] | [H0 E]]; lra.
    + apply Qle_bool_false in Epos.
      eapply Qle_trans; [apply IH |].
      rewrite sum_amounts_credit.
      destruct (Qmin_cases (Qmax 0 (deposit - prev_cap))
                  (cap_amount t - prev_cap)) as [[Hle E] | [Hle E]];
        destruct (Qmax_cases 0 (deposit - prev_cap)) as [[H1 E1] | [H1 E1]];
        destruct (Qmax_cases 0 (deposit - cap_amount t))
          as [[H2 E2] | [H2 E2]];
        lra.
Qed.

Lemma boc_base_bands_lines base_tiers :
  forall deposit prev_cap acc,
    Forall is_base_line (breakdown acc) ->
    Forall is_base_line
      (breakdown (boc_base_bands base_tiers deposit prev_cap acc)).
Proof.
  induction base_tiers as [| t base_tiers IH];
    intros deposit prev_cap acc H; simpl.
  - exact H.
  - destruct (Qle_bool _ 0); [exact H |].
    apply IH. unfold credit, add_tier; simpl.
    apply Forall_app. split; [exact H |].
    constructor; [eexists; reflexivity | constructor].
Qed.

(** X5. BOC SmartSaver below the balance gate of 1500: the calculation
    never raises, whatever tiers the table lacks, its result does not
    depend on the requirements, and the breakdown holds base-band lines
    only. *)
Theorem boc_below_gate_base_only
  (deposit_amount : Q) (bank_info : BankInfo) :
  bank bank_info = "BOC SmartSaver" ->
  deposit_amount < 1500 ->
  exists r,
    (forall reqs,
        calculate_bank_interest deposit_amount bank_info reqs = Ok r)
    /\ Forall is_base_line (breakdown r).
Proof.
  intros Hbank Hgate.
  exists (boc_base_bands
            (sorted_by_cap (filter (has_type "base") (tiers bank_info)))
            deposit_amount 0 empty_result).
  split.
  - intros reqs. unfold calculate_bank_interest. rewrite Hbank. simpl.
    unfold calculate_boc_smartsaver.
    destruct (Qle_bool 1500 deposit_amount) eqn:E; [| reflexivity].
    apply Qle_bool_iff in E. exfalso. lra.
  - apply boc_base_bands_lines. constructor.
Qed.

Lemma boc_below_gate_base_only_witness :
  exists r,
    calculate_bank_interest 1000 sample_boc sample_reqs = Ok r
    /\ List.length (breakdown r) = 1%nat
    /\ Forall is_base_line (breakdown r).
Proof.
  destruct (boc_below_gate_base_only 1000 sample_boc) as [r [Hr Hb]].
  - reflexivity.
  - reflexivity.
  - exists r. split; [apply Hr |]. split; [| exact Hb].
    specialize (Hr sample_reqs). vm_compute in Hr.
    inversion Hr; subst. reflexivity.
Defined.

(** X6. In every result for BOC SmartSaver the breakdown starts with the
    base-band lines, which for a deposit of at least 0 cover at most the
    deposit, and every line after them, the bonuses, is on at most the
    deposit. *)
Theorem boc_base_bands_within_deposit
  (deposit_amount : Q) (bank_info : BankInfo) (reqs : Requirements)
  (r : CalculationResult) :
  bank bank_info = "BOC SmartSaver" ->
  0 <= deposit_amount ->
  calculate_bank_interest deposit_amount bank_info reqs = Ok r ->
  exists bonus,
    breakdown r = boc_base_lines deposit_amount bank_info ++ bonus
    /\ Forall is_base_line (boc_base_lines deposit_amount bank_info)
    /\ sum_amounts (boc_base_lines deposit_amount bank_info)
       <= deposit_amount
    /\ Forall (fun t => amount_in_tier t <= deposit_amount) bonus.
Proof.
  intros Hbank Hd H.
  assert (Hbase : Forall is_base_line
                    (boc_base_lines deposit_amount bank_info))
    by (apply boc_base_bands_lines; constructor).
  assert (Hsum : sum_amounts (boc_base_lines deposit_amount bank_info)
                 <= deposit_amount).
  { unfold boc_base_lines.
    eapply Qle_trans; [apply boc_base_bands_amounts |].
    unfold sum_amounts; simpl.
    destruct (Qmax_cases 0 (deposit_amount - 0)) as [[H0 E] | [H0 E]]; lra. }
  unfold calculate_bank_interest in H. rewrite Hbank in H. simpl in H.
  unfold calculate_boc_smartsaver in H.
  fold (boc_base_lines deposit_amount bank_info) in *.
  set (acc0 := boc_base_bands _ deposit_amount 0 empty_result) in H.
  assert (Hshape :
            forall acc t d,
              (exists bonus,
                  breakdown acc
                  = boc_base_lines deposit_amount bank_info ++ bonus
                  /\ Forall (fun t => amount_in_tier t <= deposit_amount)
                       bonus) ->
              exists bonus,
                breakdown (boc_bonus deposit_amount t d acc)
                = boc_base_lines deposit_amount bank_info ++ bonus
                /\ Forall (fun t => amount_in_tier t <= deposit_amount)
                     bonus).
  { intros acc t d [bonus [Hb Hf]].
    exists (bonus ++ [ {| amount_in_tier :=
                            Qmin deposit_amount (cap_amount t);
                          tier_rate := rate_of t;
                          tier_interest :=
                            Qmin deposit_amount (cap_amount t) * rate_of t;
                          monthly_interest :=
                            Qmin deposit_amount (cap_amount t) * rate_of t
                            / 12;
                          description := d |} ]).
    unfold boc_bonus, credit, add_tier; simpl. rewrite Hb.
    rewrite app_assoc. split; [reflexivity |].
    apply Forall_app. split; [exact Hf |].
    constructor; [simpl; apply Q.le_min_l | constructor]. }
  assert (H0 : exists bonus,
             breakdown acc0
             = boc_base_lines deposit_amount bank_info ++ bonus
             /\ Forall (fun t => amount_in_tier t <= deposit_amount) bonus).
  { exists []. rewrite app_nil_r. split; [reflexivity | constructor]. }
  assert (Hfinal :
            exists bonus,
              breakdown r = boc_base_lines deposit_amount bank_info ++ bonus
              /\ Forall (fun t => amount_in_tier t <= deposit_amount) bonus).
  { clearbody acc0.
    destruct (Qle_bool 1500 deposit_amount); [| inversion H; subst; exact H0].
    destruct (has_salary reqs && Qle_bool 2000 (salary_amount reqs));
      [step_next |]; simpl in H;
      (destruct (has_insurance reqs); [step_next |]; simpl in H);
      (destruct (Qle_bool 500 (spend_amount reqs));
       [destruct (Qle_bool 1500 (spend_amount reqs)); step_next |];
       simpl in H);
      (destruct (3 <=? giro_count reqs)%Z; [step_next |]; simpl in H);
      inversion H; subst; repeat apply Hshape; exact H0. }
  destruct Hfinal as [bonus [Hb Hf]].
  exists bonus. repeat split; assumption.
Qed.

Lemma boc_base_bands_within_deposit_witness :
  exists r bonus,
    calculate_bank_interest 30000 sample_boc sample_reqs = Ok r
    /\ breakdown r = boc_base_lines 30000 sample_boc ++ bonus
    /\ sum_amounts (boc_base_lines 30000 sample_boc) == 20000
    /\ sum_amounts (boc_base_lines 30000 sample_boc) <= 30000.
Proof.
  edestruct (boc_base_bands_within_deposit 30000 sample_boc sample_reqs)
    as [bonus [Hb [_ [Hs _]]]].
  - reflexivity.
  - unfold Qle; simpl; lia.
  - vm_compute; reflexivity.
  - eexists; exists bonus. split; [vm_compute; reflexivity |].
    split; [exact Hb |]. split; [reflexivity | exact Hs].
Defined.

(** ** Chocolate *)

Lemma Qlt_bool_of_lt (x y : Q) : x < y -> Qlt_bool x y = true.
Proof.
  intros H. unfold Qlt_bool. apply negb_true_iff.
  destruct (Qle_bool y x) eqn:E; [| reflexivity].
  apply Qle_bool_iff in E. exfalso. lra.
Qed.

Lemma Qlt_bool_of_le (x y : Q) : y <= x -> Qlt_bool x y = false.
Proof.
  intros H. unfold Qlt_bool. apply negb_false_iff.
  apply Qle_bool_iff; exact H.
Qed.

(** X7. Chocolate pays nothing on what lies beyond 50,000: any two
    deposits of at least 50,000 earn the same interest, which is 20,000 at
    the rate of the first band plus 30,000 at the rate of the second, and
    the rate of the plain base lookup plays no part. *)
Theorem chocolate_nothing_beyond_50000
  (deposit_amount : Q) (bank_info : BankInfo) (reqs : Requirements)
  (r : CalculationResult) :
  bank bank_info = "Chocolate" ->
  50000 <= deposit_amount ->
  calculate_bank_interest deposit_amount bank_info reqs = Ok r ->
  exists first_tier second_tier,
    find (has_type_and_cap "base" 20000) (tiers bank_info) = Some first_tier
    /\ find (has_type_and_cap "base" 30000) (tiers bank_info)
       = Some second_tier
    /\ total_interest r
       == 20000 * (interest_rate first_tier / 100)
          + 30000 * (interest_rate second_tier / 100)
    /\ sum_amounts (breakdown r) == 50000.
Proof.
  intros Hbank Hd H. unfold calculate_bank_interest in H.
  rewrite Hbank in H. simpl in H. unfold calculate_chocolate in H.
  step_next.
  unfold next_tier in H.
  destruct (find (has_type_and_cap "base" 20000) (tiers bank_info))
    as [first_tier |]; simpl in H; [| discriminate].
  rewrite (Qlt_bool_of_lt 20000 deposit_amount) in H by lra.
  destruct (find (has_type_and_cap "base" 30000) (tiers bank_info))
    as [second_tier |]; simpl in H; [| discriminate].
  inversion H; subst; clear H.
  exists first_tier, second_tier.
  split; [reflexivity |]. split; [reflexivity |].
  unfold credit, add_tier, sum_amounts, rate_of; simpl.
  destruct (Qmin_cases deposit_amount 20000) as [[H1 E1] | [H1 E1]];
    destruct (Qmin_cases (deposit_amount - 20000) 30000)
      as [[H2 E2] | [H2 E2]];
    rewrite E1, E2; split; try lra;
    assert (Ed : deposit_amount == 50000) by lra; rewrite ?Ed; try lra;
    try ring.
Qed.

Lemma chocolate_nothing_beyond_50000_witness :
  exists r,
    calculate_bank_interest 80000 sample_chocolate sample_reqs = Ok r
    /\ total_interest r == 1680
    /\ sum_amounts (breakdown r) == 50000.
Proof.
  edestruct (chocolate_nothing_beyond_50000 80000 sample_chocolate
               sample_reqs) as [t1 [t2 [_ [_ [Ht Hs]]]]].
  - reflexivity.
  - unfold Qle; simpl; lia.
  - vm_compute; reflexivity.
  - eexists. split; [vm_compute; reflexivity |].
    split; [reflexivity | exact Hs].
Defined.

(** ** DBS Multiplier *)

(** X8. The DBS Multiplier calculation never raises, whatever the tier
    table: a missing tier is replaced by the flat base rate. When the
    deposit is at least 0 and no tier has a negative cap, the amounts of
    the breakdown add up to the deposit: every dollar earns exactly one
    rate. *)
Theorem dbs_never_raises_and_covers_deposit
  (deposit_amount : Q) (bank_info : BankInfo) (reqs : Requirements) :
  bank bank_info = "DBS Multiplier" ->
  exists r,
    calculate_bank_interest deposit_amount bank_info reqs = Ok r
    /\ (List.length (breakdown r) <= 2)%nat
    /\ (0 <= deposit_amount ->
        Forall (fun t => 0 <= cap_amount t) (tiers bank_info) ->
        sum_amounts (breakdown r) == deposit_amount).
Proof.
  intros Hbank. unfold calculate_bank_interest. rewrite Hbank. simpl.
  unfold calculate_dbs_multiplier.
  destruct (negb (has_salary reqs)).
  { eexists. split; [reflexivity |]. split; [simpl; lia |].
    intros _ _. unfold sum_amounts; simpl. ring. }
  destruct (Qlt_bool _ 500 || _).
  { eexists. split; [reflexivity |]. split; [simpl; lia |].
    intros _ _. unfold sum_amounts; simpl. ring. }
  destruct (find _ (tiers bank_info)) as [t |] eqn:Efind.
  2:{ eexists. split; [reflexivity |]. split; [simpl; lia |].
      intros _ _. unfold sum_amounts; simpl. ring. }
  eexists. split; [reflexivity |].
  apply find_some in Efind. destruct Efind as [Hin _].
  split.
  - destruct (Qlt_bool 0 _); destruct (Qlt_bool (cap_amount t) _);
      simpl; lia.
  - intros Hd Hcaps. rewrite Forall_forall in Hcaps.
    specialize (Hcaps t Hin).
    destruct (Qlt_bool 0 (Qmin deposit_amount (cap_amount t))) eqn:E1;
      [apply Qlt_bool_true in E1 | apply Qlt_bool_false in E1];
      (destruct (Qlt_bool (cap_amount t) deposit_amount) eqn:E2;
       [apply Qlt_bool_true in E2 | apply Qlt_bool_false in E2]);
      unfold credit, add_tier, sum_amounts; simpl;
      destruct (Qmin_cases deposit_amount (cap_amount t))
        as [[H1 E] | [H1 E]];
      lra.
Qed.

Lemma dbs_never_raises_and_covers_deposit_witness :
  exists r,
    calculate_bank_interest 80000 sample_dbs sample_reqs = Ok r
    /\ List.length (breakdown r) = 2%nat
    /\ sum_amounts (breakdown r) == 80000.
Proof.
  destruct (dbs_never_raises_and_covers_deposit 80000 sample_dbs sample_reqs
              eq_refl) as [r [Hr [_ Hs]]].
  exists r. split; [exact Hr |]. split.
  - vm_compute in Hr. inversion Hr; subst. reflexivity.
  - apply Hs.
    + unfold Qle; simpl; lia.
    + repeat constructor; unfold Qle; simpl; lia.
Defined.

Lemma get_dbs_tier_inline (category_count : nat) (total_transactions : Q) :
  500 <= total_transactions ->
  get_dbs_tier category_count total_transactions
  = dbs_tier_type category_count total_transactions.
Proof.
  intros H. unfold get_dbs_tier, dbs_tier_type.
  rewrite (Qlt_bool_of_le total_transactions 500 H). reflexivity.
Qed.

(** X9. With the salary credited, a volume of at least 500 and at least
    one active category, the tier the calculator applies is the one
    [get_dbs_tier] names. When the table has no such tier the whole
    deposit earns the flat 0.05% in one line marked as the fallback; when
    it has one and the deposit is positive and within the tier's cap, the
    whole deposit earns that tier's rate. *)
Theorem dbs_applies_the_tier_get_dbs_tier_names
  (deposit_amount : Q) (bank_info : BankInfo) (reqs : Requirements) :
  bank bank_info = "DBS Multiplier" ->
  has_salary reqs = true ->
  500 <= calculate_dbs_eligible_transactions reqs ->
  count_dbs_categories reqs <> 0%nat ->
  let key :=
    get_dbs_tier (count_dbs_categories reqs)
      (calculate_dbs_eligible_transactions reqs) in
  (find (has_type key) (tiers bank_info) = None ->
   exists r line,
     calculate_bank_interest deposit_amount bank_info reqs = Ok r
     /\ breakdown r = [line]
     /\ description line = BaseNoMatchingTier
     /\ total_interest r == deposit_amount * 0.0005)
  /\ (forall t,
         find (has_type key) (tiers bank_info) = Some t ->
         0 < deposit_amount -> deposit_amount <= cap_amount t ->
         exists r,
           calculate_bank_interest deposit_amount bank_info reqs = Ok r
           /\ total_interest r
              == deposit_amount * (interest_rate t / 100)).
Proof.
  intros Hbank Hsal Hvol Hcount key.
  assert (Hkey : key = dbs_tier_type (count_dbs_categories reqs)
                         (calculate_dbs_eligible_transactions reqs))
    by (apply get_dbs_tier_inline; exact Hvol).
  assert (Hgate : Qlt_bool (calculate_dbs_eligible_transactions reqs) 500
                  || Nat.eqb (count_dbs_categories reqs) 0 = false).
  { apply orb_false_iff. split.
    - apply Qlt_bool_of_le; exact Hvol.
    - apply Nat.eqb_neq; exact Hcount. }
  split.
  - intros Hnone. rewrite Hkey in Hnone.
    unfold calculate_bank_interest. rewrite Hbank. simpl.
    unfold calculate_dbs_multiplier. rewrite Hsal. simpl.
    rewrite Hgate, Hnone.
    eexists; eexists. split; [reflexivity |]. simpl.
    split; [reflexivity |]. split; [reflexivity | ring].
  - intros t Hsome Hpos Hcap. rewrite Hkey in Hsome.
    unfold calculate_bank_interest. rewrite Hbank. simpl.
    unfold calculate_dbs_multiplier. rewrite Hsal. simpl.
    rewrite Hgate, Hsome.
    eexists. split; [reflexivity |].
    assert (Emin : Qmin deposit_amount (cap_amount t) == deposit_amount)
      by (apply Q.min_l; exact Hcap).
    assert (E1 : Qlt_bool 0 (Qmin deposit_amount (cap_amount t)) = true)
      by (apply Qlt_bool_of_lt; lra).
    assert (E2 : Qlt_bool (cap_amount t) deposit_amount = false)
      by (apply Qlt_bool_of_le; exact Hcap).
    rewrite E1, E2. unfold credit, add_tier, rate_of; simpl.
    rewrite Emin. ring.
Qed.

Lemma dbs_applies_the_tier_get_dbs_tier_names_witness :
  get_dbs_tier (count_dbs_categories sample_reqs)
    (calculate_dbs_eligible_transactions sample_reqs) = "cat1_low"
  /\ exists r,
      calculate_bank_interest 40000 sample_dbs sample_reqs = Ok r
      /\ total_interest r == 720.
Proof.
  split; [reflexivity |].
  destruct (dbs_applies_the_tier_get_dbs_tier_names 40000 sample_dbs
              sample_reqs) as [_ H].
  - reflexivity.
  - reflexivity.
  - unfold Qle; vm_compute; discriminate.
  - vm_compute; discriminate.
  - destruct (H (tier "cat1_low" "1" 1.8 "salary" 50000)) as [r [Hr Ht]].
    + reflexivity.
    + reflexivity.
    + unfold Qle; simpl; lia.
    + exists r. split; [exact Hr |]. rewrite Ht. reflexivity.
Defined.


(** * Further properties of the deposit optimizer *)

(** ** The combinations the search evaluates *)

(** [visited total reqs d sb]: the combination [d] is handed to
    [try_combination] with salary bank [sb], either in the final pass or,
    when the user credits a salary, in the pass of one of the three salary
    banks, after that bank took [amount]. *)
Inductive visited (total_amount : Z) (reqs : Requirements)
  : dict Z -> option string -> Prop :=
| visited_without_salary (d : dict Z) :
    leaf_of total_amount all_banks [] d ->
    visited total_amount reqs d None
| visited_with_salary (b : string) (cap amount k : Z) (d : dict Z) :
    has_salary reqs = true ->
    In b salary_banks ->
    dict_get bonus_caps b = Some cap ->
    (0 <= amount <= Z.min total_amount cap)%Z ->
    (amount = 5000 * k)%Z ->
    leaf_of (total_amount - amount)
      (filter (fun bank0 => negb (String.eqb bank0 b)) all_banks)
      (if (amount >? 0)%Z then [(b, amount)] else []) d ->
    visited total_amount reqs d (Some b).

Section Visits.

Variable total_amount : Z.
Variable banks_data : dict BankInfo.
Variable reqs : Requirements.

Variable I : SearchState -> Prop.

Lemma try_all_combinations_leaves (sb : option string) (banks : list string) :
  forall rem dist st st',
    (forall d s s',
        leaf_of rem banks dist d -> I s ->
        try_combination total_amount banks_data reqs d sb s = Ok s' ->
        I s') ->
    I st ->
    try_all_combinations total_amount banks_data reqs rem banks dist sb st
    = Ok st' ->
    I st'.
Proof.
  induction banks as [| current_bank next_banks IH];
    intros rem dist st st' Hstep Hst H; cbn [try_all_combinations] in H.
  - destruct (rem <? 5000)%Z eqn:E.
    + eapply Hstep; [| exact Hst | exact H]. constructor. lia.
    + inversion H; subst; exact Hst.
  - apply bind_ok in H. destruct H as [cap [Ecap H]].
    apply dict_item_ok in Ecap.
    revert H. apply for_each_preserves; [| exact Hst].
    intros amount s s' Hin Hs Hbody.
    destruct (amount <=? Z.min rem cap)%Z eqn:Ele;
      [| inversion Hbody; subst; exact Hs].
    apply Z.leb_le in Ele. apply in_range0 in Hin.
    destruct Hin as [H0 [_ [k Hk]]].
    eapply IH; [| exact Hs | exact Hbody].
    intros d t t' Hleaf. apply Hstep.
    apply leaf_below with (cap := cap) (amount := amount) (k := k);
      [exact Ecap | lia | exact Hk | exact Hleaf].
Qed.

Lemma search_visits (st : SearchState) :
  (forall d sb s s',
      visited total_amount reqs d sb -> I s ->
      try_combination total_amount banks_data reqs d sb s = Ok s' ->
      I s') ->
  I initial_state ->
  search total_amount banks_data reqs = Ok st ->
  I st.
Proof.
  intros Hstep H0 H. unfold search in H.
  apply bind_ok in H. destruct H as [st1 [E1 H]].
  assert (H1 : I st1).
  { destruct (has_salary reqs) eqn:Esal;
      [| inversion E1; subst; exact H0].
    revert E1. apply for_each_preserves; [| exact H0].
    intros b s s' Hb Hs Hpass. unfold try_salary_bank in Hpass.
    apply bind_ok in Hpass. destruct Hpass as [cap [Ecap Hpass]].
    apply dict_item_ok in Ecap.
    destruct (bonus_caps_multiple _ _ Ecap) as [c Hc].
    revert Hpass. apply for_each_preserves; [| exact Hs].
    intros amount t t' Hin Ht Hbody.
    destruct (amount <=? total_amount)%Z eqn:Ele;
      [| inversion Hbody; subst; exact Ht].
    apply Z.leb_le in Ele. apply in_range0 in Hin.
    destruct Hin as [Hpos [Hlt [k Hk]]].
    revert Hbody. apply try_all_combinations_leaves; [| exact Ht].
    intros d u u' Hleaf. apply Hstep.
    apply visited_with_salary with (cap := cap) (amount := amount) (k := k);
      [exact Esal | exact Hb | exact Ecap | lia | exact Hk | exact Hleaf]. }
  revert H. apply try_all_combinations_leaves; [| exact H1].
  intros d u u' Hleaf. apply Hstep. constructor; exact Hleaf.
Qed.

End Visits.

(** ** Sums and keys of the combinations *)

Lemma fold_left_Zadd (l : list Z) (a : Z) :
  fold_left Z.add l a = (a + fold_left Z.add l 0)%Z.
Proof.
  revert a. induction l as [| x l IH]; intros a; simpl; [lia |].
  rewrite (IH (a + x)%Z), (IH x). lia.
Qed.

Lemma sum_values_cons (x : string * Z) (d : dict Z) :
  sum_values (x :: d) = (snd x + sum_values d)%Z.
Proof. unfold sum_values; simpl. apply fold_left_Zadd. Qed.

Lemma sum_values_dict_set (k : string) (v : Z) (d : dict Z) :
  ~ In k (map fst d) ->
  sum_values (dict_set k v d) = (sum_values d + v)%Z
  /\ map fst (dict_set k v d) = map fst d ++ [k].
Proof.
  induction d as [| [k' v'] d IH]; intros Hk; simpl.
  - split; reflexivity.
  - destruct (String.eqb k' k) eqn:E.
    + apply String.eqb_eq in E. subst k'. exfalso. apply Hk. left; reflexivity.
    + destruct IH as [IH1 IH2]; [intros Hin; apply Hk; right; exact Hin |].
      rewrite !sum_values_cons, IH1. simpl. rewrite IH2.
      split; [lia | reflexivity].
Qed.

(** Below a node whose banks are distinct and not yet in the
    distribution, a combination holds what the node held plus what was
    taken from the remaining amount, and its keys are the node's keys
    followed by some of the node's banks, each once. *)
Lemma leaf_of_sum (rem : Z) (banks : list string) (dist d : dict Z) :
  leaf_of rem banks dist d ->
  NoDup banks ->
  (forall b, In b banks -> ~ In b (map fst dist)) ->
  exists left_over taken,
    (left_over < 5000)%Z
    /\ (banks <> [] -> 0 <= left_over)%Z
    /\ (sum_values d + left_over = sum_values dist + rem)%Z
    /\ map fst d = map fst dist ++ taken
    /\ NoDup taken
    /\ incl taken banks.
Proof.
  induction 1 as [rem dist Hrem
                 | rem current_bank next_banks dist cap amount k d
                     Hcap Hamount Hk Hleaf IH];
    intros Hnodup Hfresh.
  - exists rem, []. rewrite app_nil_r.
    repeat split; try lia; try congruence; try constructor;
      try (intros b []).
  - apply NoDup_cons_iff in Hnodup. destruct Hnodup as [Hnotin Hnodup'].
    assert (Hcur : ~ In current_bank (map fst dist))
      by (apply Hfresh; left; reflexivity).
    destruct (sum_values_dict_set current_bank amount dist Hcur)
      as [Hsum Hkeys].
    destruct (amount >? 0)%Z eqn:Epos.
    + destruct IH as [left_over [taken [Hlt [Hge [Hs [Hk' [Hnd Hincl]]]]]]];
        [exact Hnodup' | |].
      { intros b Hb. rewrite Hkeys. intros Hin. apply in_app_or in Hin.
        destruct Hin as [Hin | [-> | []]].
        - apply (Hfresh b); [right; exact Hb | exact Hin].
        - apply Hnotin; exact Hb. }
      exists left_over, (current_bank :: taken).
      split; [exact Hlt |]. split.
      { intros _. destruct next_banks as [| b0 bs].
        - inversion Hleaf; subst. lia.
        - apply Hge. discriminate. }
      split; [lia |]. split.
      { rewrite Hk', Hkeys, <- app_assoc. reflexivity. }
      split.
      { constructor; [| exact Hnd].
        intros Hin. apply Hnotin. apply Hincl; exact Hin. }
      intros b [<- | Hb]; [left; reflexivity | right; apply Hincl; exact Hb].
    + destruct IH as [left_over [taken [Hlt [Hge [Hs [Hk' [Hnd Hincl]]]]]]];
        [exact Hnodup' | |].
      { intros b Hb. apply Hfresh. right; exact Hb. }
      exists left_over, taken.
      split; [exact Hlt |]. split.
      { intros _. destruct next_banks as [| b0 bs].
        - inversion Hleaf; subst. lia.
        - apply Hge. discriminate. }
      split; [lia |]. split; [exact Hk' |]. split; [exact Hnd |].
      intros b Hb. right. apply Hincl; exact Hb.
Qed.

(** A combination the search evaluates never exceeds the total, leaves
    less than 5000 of it unplaced, and names each of the five banks of the
    optimizer at most once. *)
Lemma visited_sum total_amount reqs d sb :
  visited total_amount reqs d sb ->
  (total_amount - 5000 < sum_values d <= total_amount)%Z
  /\ NoDup (map fst d)
  /\ incl (map fst d) all_banks.
Proof.
  intros [d0 Hleaf | b cap amount k d0 Hsal Hb Hcap Hamount Hk Hleaf].
  - destruct (leaf_of_sum _ _ _ _ Hleaf)
      as [left_over [taken [Hlt [Hge [Hs [Hkeys [Hnd Hincl]]]]]]].
    + unfold all_banks. repeat constructor; simpl; intuition discriminate.
    + intros b0 _ [].
    + assert (0 <= left_over)%Z by (apply Hge; discriminate).
      change (sum_values []) with 0%Z in Hs. simpl in Hkeys.
      rewrite Hkeys. split; [lia |]. split; assumption.
  - assert (Hfilter :
              NoDup (filter (fun bank0 => negb (String.eqb bank0 b))
                       all_banks))
      by (apply NoDup_filter; unfold all_banks;
          repeat constructor; simpl; intuition discriminate).
    assert (Hnot :
              forall b0,
                In b0 (filter (fun bank0 => negb (String.eqb bank0 b))
                         all_banks) ->
                b0 <> b).
    { intros b0 Hin. apply filter_In in Hin. destruct Hin as [_ Hne].
      apply negb_true_iff in Hne. apply String.eqb_neq; exact Hne. }
    assert (Hball : In b all_banks).
    { pose proof Hb as Hb'. unfold salary_banks in Hb'. simpl in Hb'.
      unfold all_banks. simpl. tauto. }
    destruct (leaf_of_sum _ _ _ _ Hleaf)
      as [left_over [taken [Hlt [Hge [Hs [Hkeys [Hnd Hincl]]]]]]].
    + exact Hfilter.
    + intros b0 Hb0. destruct (amount >? 0)%Z; simpl; [| tauto].
      intros [E | []]. apply (Hnot b0 Hb0). symmetry; exact E.
    + assert (0 <= left_over)%Z.
      { apply Hge. unfold salary_banks in Hb. simpl in Hb.
        destruct Hb as [<- | [<- | [<- | []]]]; discriminate. }
      assert (Hincl' : incl taken all_banks).
      { intros b0 Hb0. apply Hincl in Hb0. apply filter_In in Hb0.
        destruct Hb0 as [Hb0 _]; exact Hb0. }
      destruct (amount >? 0)%Z eqn:Epos.
      * rewrite sum_values_cons in Hs.
        change (sum_values []) with 0%Z in Hs. simpl in Hs, Hkeys.
        rewrite Hkeys. split; [lia |]. split.
        -- constructor; [| exact Hnd].
           intros Hin. apply (Hnot b); [apply Hincl; exact Hin | reflexivity].
        -- intros b0 [<- | Hb0]; [exact Hball | apply Hincl'; exact Hb0].
      * change (sum_values []) with 0%Z in Hs. simpl in Hkeys.
        rewrite Hkeys. split; [lia |]. split; assumption.
Qed.

(** ** What the returned list holds *)

Section Returned.

Variable total_amount : Z.
Variable banks_data : dict BankInfo.
Variable reqs : Requirements.

(** A solution the search filed: it comes from a combination the search
    evaluated and it earns a positive interest. *)
Definition filed (s : Solution.t) : Prop :=
  visited total_amount reqs (Solution.distribution s)
    (Solution.salary_bank s)
  /\ 0 < Solution.total_interest s.

Definition placeholder_or_filed (s : Solution.t) : Prop :=
  s = empty_solution \/ filed s.

Lemma placeholder_or_filed_nonneg s :
  placeholder_or_filed s -> 0 <= Solution.total_interest s.
Proof.
  intros [-> | [_ H]]; [apply Qle_refl | apply Qlt_le_weak; exact H].
Qed.

Lemma try_combination_filed d sb st st' :
  visited total_amount reqs d sb ->
  List.length (top_solutions st) = 3%nat
  /\ Forall placeholder_or_filed (top_solutions st) ->
  try_combination total_amount banks_data reqs d sb st = Ok st' ->
  List.length (top_solutions st') = 3%nat
  /\ Forall placeholder_or_filed (top_solutions st').
Proof.
  intros Hv [Hlen Hall] H. unfold try_combination in H.
  destruct (Z.abs (sum_values d - total_amount) >? 5000)%Z;
    [inversion H; subst; split; assumption |].
  apply bind_ok in H. destruct H as [[total bds] [_ H]].
  inversion H; subst; clear H. simpl.
  destruct (top_solutions st) as [| a [| b [| c [| x top]]]];
    try discriminate.
  change (List.length [a; b; c]) with 3%nat.
  inversion Hall as [| ? ? Ha Hall1]; subst.
  inversion Hall1 as [| ? ? Hb Hall2]; subst.
  inversion Hall2 as [| ? ? Hc _]; subst.
  pose proof (placeholder_or_filed_nonneg a Ha) as Na.
  pose proof (placeholder_or_filed_nonneg b Hb) as Nb.
  pose proof (placeholder_or_filed_nonneg c Hc) as Nc.
  file_cases; (split; [reflexivity |]);
    simpl in *;
    repeat (apply Forall_cons; [| try apply Forall_nil]);
    try assumption;
    right; (split; [exact Hv | simpl; lra]).
Qed.

Lemma optimize_bank_distribution_filed sols :
  optimize_bank_distribution total_amount banks_data reqs = Ok sols ->
  List.length sols = 3%nat /\ Forall placeholder_or_filed sols.
Proof.
  unfold optimize_bank_distribution. intros H.
  apply bind_ok in H. destruct H as [st [Hsearch H]].
  inversion H; subst; clear H.
  revert Hsearch.
  apply (search_visits total_amount banks_data reqs
           (fun st => List.length (top_solutions st) = 3%nat
                      /\ Forall placeholder_or_filed (top_solutions st))).
  - intros d sb s s' Hv. apply try_combination_filed; exact Hv.
  - split; [reflexivity |]. simpl. repeat constructor.
Qed.

End Returned.

(** X10. The optimizer returns exactly three entries, and each of them is
    either the initial placeholder or has a strictly positive
    [total_interest]: testing [total_interest > 0], as the display does,
    tells the solutions found from the placeholders. *)
Theorem returned_three_placeholder_or_positive
  (total_amount : Z) (banks_data : dict BankInfo) (reqs : Requirements)
  (sols : list Solution.t) :
  optimize_bank_distribution total_amount banks_data reqs = Ok sols ->
  List.length sols = 3%nat
  /\ forall s, In s sols ->
       s = empty_solution \/ 0 < Solution.total_interest s.
Proof.
  intros H. apply optimize_bank_distribution_filed in H.
  destruct H as [Hlen Hall]. split; [exact Hlen |].
  intros s Hs. rewrite Forall_forall in Hall.
  destruct (Hall s Hs) as [-> | [_ Hpos]]; [left; reflexivity | right; exact Hpos].
Qed.

Lemma returned_three_placeholder_or_positive_witness :
  exists sols,
    sample_run = Ok sols
    /\ List.length sols = 3%nat
    /\ forall s, In s sols ->
         s = empty_solution \/ 0 < Solution.total_interest s.
Proof.
  eexists. split; [vm_compute; reflexivity |].
  apply (returned_three_placeholder_or_positive 5000 sample_banks
           sample_reqs_no_salary).
  vm_compute; reflexivity.
Defined.

(** X11. A returned solution never allocates more than the total (for a
    total of at least 0), names each product at most once and only
    products among the five of the optimizer, never the DBS Multiplier;
    and a returned solution with a positive interest leaves less than
    5000 of the total unallocated. *)
Theorem returned_distribution_within_total
  (total_amount : Z) (banks_data : dict BankInfo) (reqs : Requirements)
  (sols : list Solution.t) (s : Solution.t) :
  optimize_bank_distribution total_amount banks_data reqs = Ok sols ->
  In s sols ->
  NoDup (map fst (Solution.distribution s))
  /\ incl (map fst (Solution.distribution s)) all_banks
  /\ ~ In "DBS Multiplier" (map fst (Solution.distribution s))
  /\ ((0 <= total_amount)%Z ->
      (sum_values (Solution.distribution s) <= total_amount)%Z)
  /\ (0 < Solution.total_interest s ->
      (total_amount - 5000 < sum_values (Solution.distribution s)
       <= total_amount)%Z).
Proof.
  intros H Hs. apply optimize_bank_distribution_filed in H.
  destruct H as [_ Hall]. rewrite Forall_forall in Hall.
  assert (Hnodbs : forall l, incl l all_banks -> ~ In "DBS Multiplier" l).
  { intros l Hl Hin. apply Hl in Hin. unfold all_banks in Hin. simpl in Hin.
    intuition discriminate. }
  destruct (Hall s Hs) as [-> | [Hv Hpos]].
  - simpl. split; [constructor |]. split; [intros b [] |].
    split; [intros [] |]. split; [intros H0; exact H0 |].
    intros H0. apply Qlt_irrefl in H0. contradiction.
  - destruct (visited_sum _ _ _ _ Hv) as [Hsum [Hnd Hincl]].
    split; [exact Hnd |]. split; [exact Hincl |].
    split; [apply Hnodbs; exact Hincl |].
    split; [intros _; lia | intros _; exact Hsum].
Qed.

Lemma returned_distribution_within_total_witness :
  exists sols s,
    sample_run = Ok sols
    /\ In s sols
    /\ Solution.distribution s = [("Chocolate", 5000%Z)]
    /\ (5000 - 5000 < sum_values (Solution.distribution s) <= 5000)%Z.
Proof.
  eexists; eexists.
  split; [vm_compute; reflexivity |].
  split; [left; reflexivity |].
  split; [reflexivity |].
  apply (returned_distribution_within_total 5000 sample_banks
           sample_reqs_no_salary _ _
           (eq_refl : sample_run = Ok _) (or_introl eq_refl)).
  reflexivity.
Defined.

(** X12. The salary bank a returned solution records is one of the three
    banks that take the salary, and one is recorded only when the user
    credits a salary: without a salary credit every returned solution has
    no salary bank. *)
Theorem returned_salary_bank
  (total_amount : Z) (banks_data : dict BankInfo) (reqs : Requirements)
  (sols : list Solution.t) (s : Solution.t) :
  optimize_bank_distribution total_amount banks_data reqs = Ok sols ->
  In s sols ->
  (forall b, Solution.salary_bank s = Some b ->
             has_salary reqs = true /\ In b salary_banks)
  /\ (has_salary reqs = false -> Solution.salary_bank s = None).
Proof.
  intros H Hs. apply optimize_bank_distribution_filed in H.
  destruct H as [_ Hall]. rewrite Forall_forall in Hall.
  assert (Hsome : forall b, Solution.salary_bank s = Some b ->
                            has_salary reqs = true /\ In b salary_banks).
  { intros b Hb. destruct (Hall s Hs) as [-> | [Hv _]]; [discriminate |].
    rewrite Hb in Hv. inversion Hv; subst. split; assumption. }
  split; [exact Hsome |].
  intros Hno. destruct (Solution.salary_bank s) as [b |] eqn:E;
    [| reflexivity].
  destruct (Hsome b eq_refl) as [Hyes _]. congruence.
Qed.

Lemma returned_salary_bank_witness :
  exists sols,
    sample_run = Ok sols
    /\ forall s, In s sols -> Solution.salary_bank s = None.
Proof.
  eexists. split; [vm_compute; reflexivity |].
  intros s Hs.
  apply (returned_salary_bank 5000 sample_banks sample_reqs_no_salary _ s
           (eq_refl : sample_run = Ok _) Hs).
  reflexivity.
Defined.

(** ** The best solution *)

(** A loop that keeps [P], and keeps [Q] once it holds, ends in [Q] when
    one of its iterations leads from [P] to [Q]. *)
Lemma for_each_reaches {A S : Type} (P Q : S -> Prop)
  (body : A -> S -> result S) (l : list A) (x : A) :
  In x l ->
  (forall y s s', P s -> body y s = Ok s' -> P s') ->
  (forall y s s', Q s -> body y s = Ok s' -> Q s') ->
  (forall s s', P s -> body x s = Ok s' -> Q s') ->
  forall s s', P s -> for_each body l s = Ok s' -> Q s'.
Proof.
  intros Hin HP HQ Hx.
  induction l as [| y l IH]; intros s s' Hs H; simpl in *; [contradiction |].
  apply bind_ok in H. destruct H as [s1 [E1 H]].
  destruct Hin as [-> | Hin].
  - revert H. apply for_each_preserves.
    + intros z t t' _. apply HQ.
    + eapply Hx; eassumption.
  - eapply IH; [exact Hin | | exact H]. eapply HP; eassumption.
Qed.

Section Reaching.

Variable total_amount : Z.
Variable banks_data : dict BankInfo.
Variable reqs : Requirements.

Variables P Q : SearchState -> Prop.

Hypothesis P_kept :
  forall d sb s s',
    P s -> try_combination total_amount banks_data reqs d sb s = Ok s' ->
    P s'.

Hypothesis Q_kept :
  forall d sb s s',
    Q s -> try_combination total_amount banks_data reqs d sb s = Ok s' ->
    Q s'.

Variable target : dict Z.
Variable target_salary_bank : option string.

Hypothesis target_reaches :
  forall s s',
    P s ->
    try_combination total_amount banks_data reqs target target_salary_bank s
    = Ok s' ->
    Q s'.

Lemma try_all_combinations_reaches rem banks dist :
  leaf_of rem banks dist target ->
  forall st st',
    P st ->
    try_all_combinations total_amount banks_data reqs rem banks dist
      target_salary_bank st = Ok st' ->
    Q st'.
Proof.
  induction 1 as [rem dist Hrem
                 | rem current_bank next_banks dist cap amount k d
                     Hcap Hamount Hk Hleaf IH];
    intros st st' Hst H; cbn [try_all_combinations] in H.
  - assert (E : (rem <? 5000)%Z = true) by lia. rewrite E in H.
    eapply target_reaches; eassumption.
  - unfold dict_item in H. rewrite Hcap in H. cbn [bind] in H.
    revert H.
    apply (for_each_reaches P Q) with (x := amount); [| | | | exact Hst].
    + apply in_range0. split; [lia |]. split; [lia |]. exists k; exact Hk.
    + intros y s s' Hs Hbody.
      destruct (y <=? Z.min rem cap)%Z; [| inversion Hbody; subst; exact Hs].
      revert Hbody. apply try_all_combinations_leaves; [| exact Hs].
      intros d0 t t' _. apply P_kept.
    + intros y s s' Hs Hbody.
      destruct (y <=? Z.min rem cap)%Z; [| inversion Hbody; subst; exact Hs].
      revert Hbody. apply try_all_combinations_leaves; [| exact Hs].
      intros d0 t t' _. apply Q_kept.
    + intros s s' Hs Hbody.
      assert (E : (amount <=? Z.min rem cap)%Z = true) by lia.
      rewrite E in Hbody. eapply IH; eassumption.
Qed.

End Reaching.

Lemma search_reaches (total_amount : Z) (banks_data : dict BankInfo)
  (reqs : Requirements) (P Q : SearchState -> Prop)
  (target : dict Z) (target_salary_bank : option string)
  (st : SearchState) :
  (forall d sb s s',
      P s -> try_combination total_amount banks_data reqs d sb s = Ok s' ->
      P s') ->
  (forall d sb s s',
      Q s -> try_combination total_amount banks_data reqs d sb s = Ok s' ->
      Q s') ->
  (forall s s',
      P s ->
      try_combination total_amount banks_data reqs target
        target_salary_bank s = Ok s' ->
      Q s') ->
  visited total_amount reqs target target_salary_bank ->
  P initial_state ->
  search total_amount banks_data reqs = Ok st ->
  Q st.
Proof.
  intros P_kept Q_kept target_reaches Hv H0 H. unfold search in H.
  apply bind_ok in H. destruct H as [st1 [E1 H]].
  destruct Hv as [d Hleaf | b cap amount k d Hsal Hb Hcap Hamount Hk Hleaf].
  - assert (H1 : P st1).
    { destruct (has_salary reqs); [| inversion E1; subst; exact H0].
      revert E1. apply for_each_preserves; [| exact H0].
      intros sb s s' _. apply try_salary_bank_preserves.
      intros d0 sb0 t t' _. apply P_kept. }
    revert H.
    apply (try_all_combinations_reaches total_amount banks_data reqs P Q
             P_kept Q_kept d None target_reaches _ _ _ Hleaf);
      exact H1.
  - rewrite Hsal in E1.
    assert (H1 : Q st1).
    { revert E1.
      apply (for_each_reaches P Q) with (x := b); [exact Hb | | | | exact H0].
      - intros y s s'. apply try_salary_bank_preserves.
        intros d0 sb0 t t' _. apply P_kept.
      - intros y s s'. apply try_salary_bank_preserves.
        intros d0 sb0 t t' _. apply Q_kept.
      - intros s s' Hs Hpass. unfold try_salary_bank in Hpass.
        unfold dict_item in Hpass. rewrite Hcap in Hpass.
        cbn [bind] in Hpass. revert Hpass.
        apply (for_each_reaches P Q) with (x := amount); [| | | | exact Hs].
        + apply in_range0. split; [lia |]. split; [lia |].
          exists k; exact Hk.
        + intros y t t' Ht Hbody.
          destruct (y <=? total_amount)%Z;
            [| inversion Hbody; subst; exact Ht].
          revert Hbody. apply try_all_combinations_leaves; [| exact Ht].
          intros d0 u u' _. apply P_kept.
        + intros y t t' Ht Hbody.
          destruct (y <=? total_amount)%Z;
            [| inversion Hbody; subst; exact Ht].
          revert Hbody. apply try_all_combinations_leaves; [| exact Ht].
          intros d0 u u' _. apply Q_kept.
        + intros t t' Ht Hbody.
          assert (E : (amount <=? total_amount)%Z = true) by lia.
          rewrite E in Hbody. revert Hbody.
          apply (try_all_combinations_reaches total_amount banks_data reqs
                   P Q P_kept Q_kept d (Some b) target_reaches _ _ _ Hleaf);
            exact Ht. }
    revert H. apply try_all_combinations_leaves; [| exact H1].
    intros d0 u u' _. apply Q_kept.
Qed.

(** The first entry earns at least [t]. *)
Definition best_at_least (t : Q) (top : list Solution.t) : Prop :=
  exists best rest, top = best :: rest /\ t <= Solution.total_interest best.

(** X13. The first solution the optimizer returns earns at least as much
    as every combination the search evaluates: for every combination
    handed to [try_combination], in the final pass or in the pass of a
    salary bank, whose evaluation gives the interest [t], the first
    returned solution has a [total_interest] of at least [t]. *)
Theorem first_solution_is_best
  (total_amount : Z) (banks_data : dict BankInfo) (reqs : Requirements)
  (d : dict Z) (sb : option string) (t : Q)
  (bds : dict (list TierApplication)) (sols : list Solution.t) :
  visited total_amount reqs d sb ->
  evaluate_distribution banks_data reqs d sb = Ok (t, bds) ->
  optimize_bank_distribution total_amount banks_data reqs = Ok sols ->
  exists best rest,
    sols = best :: rest /\ t <= Solution.total_interest best.
Proof.
  intros Hv Hev H. unfold optimize_bank_distribution in H.
  apply bind_ok in H. destruct H as [st [Hsearch H]].
  inversion H; subst; clear H.
  pose (P := fun st : SearchState =>
               List.length (top_solutions st) = 3%nat
               /\ descending (top_solutions st)).
  pose (Q := fun st : SearchState =>
               P st /\ best_at_least t (top_solutions st)).
  assert (HQ : Q st); [| destruct HQ as [_ HQ]; exact HQ].
  revert Hsearch.
  apply (search_reaches total_amount banks_data reqs P Q d sb).
  - intros d0 sb0 s s' [Hlen Hdesc]. unfold P.
    apply try_combination_descending; assumption.
  - intros d0 sb0 s s' [[Hlen Hdesc] [best [rest [Htop Hbest]]]] Htry.
    split; [eapply try_combination_descending; eassumption |].
    unfold try_combination in Htry.
    destruct (Z.abs (sum_values d0 - total_amount) >? 5000)%Z;
      [inversion Htry; subst; exists best, rest; split; assumption |].
    apply bind_ok in Htry. destruct Htry as [[total bds0] [_ Htry]].
    inversion Htry; subst; clear Htry. simpl.
    destruct (top_solutions s) as [| a [| b [| c [| x top]]]];
      try discriminate.
    inversion Htop; subst.
    change (List.length [best; b; c]) with 3%nat.
    unfold best_at_least.
    file_cases; eexists; eexists; (split; [reflexivity |]); simpl in *; lra.
  - intros s s' [Hlen Hdesc] Htry.
    split; [eapply try_combination_descending; eassumption |].
    destruct (visited_sum _ _ _ _ Hv) as [Hsum _].
    unfold try_combination in Htry.
    assert (E : (Z.abs (sum_values d - total_amount) >? 5000)%Z = false)
      by lia.
    rewrite E, Hev in Htry. cbn [bind] in Htry.
    inversion Htry; subst; clear Htry. simpl.
    destruct (top_solutions s) as [| a [| b [| c [| x top]]]];
      try discriminate.
    change (List.length [a; b; c]) with 3%nat.
    unfold best_at_least.
    file_cases; eexists; eexists; (split; [reflexivity |]); simpl in *;
      try lra; apply Qle_refl.
  - exact Hv.
  - split; [reflexivity |]. simpl. apply descending_three.
    simpl. split; apply Qle_refl.
Qed.

Lemma first_solution_is_best_witness :
  exists t bds sols best rest,
    evaluate_distribution sample_banks sample_reqs_no_salary
      [("SC BonusSaver", 5000%Z)] None = Ok (t, bds)
    /\ t == 52.5
    /\ sample_run = Ok sols
    /\ sols = best :: rest
    /\ t <= Solution.total_interest best.
Proof.
  edestruct (first_solution_is_best 5000 sample_banks sample_reqs_no_salary
               [("SC BonusSaver", 5000%Z)] None)
    as [best [rest [Hsols Hbest]]].
  - constructor.
    apply leaf_below with (cap := 150000%Z) (amount := 0%Z) (k := 0%Z);
      [reflexivity | lia | reflexivity |].
    apply leaf_below with (cap := 100000%Z) (amount := 5000%Z) (k := 1%Z);
      [reflexivity | lia | reflexivity |].
    apply leaf_below with (cap := 100000%Z) (amount := 0%Z) (k := 0%Z);
      [reflexivity | lia | reflexivity |].
    apply leaf_below with (cap := 100000%Z) (amount := 0%Z) (k := 0%Z);
      [reflexivity | lia | reflexivity |].
    apply leaf_below with (cap := 50000%Z) (amount := 0%Z) (k := 0%Z);
      [reflexivity | lia | reflexivity |].
    apply leaf_here. reflexivity.
  - vm_compute; reflexivity.
  - vm_compute; reflexivity.
  - eexists; eexists; eexists; exists best, rest.
    split; [vm_compute; reflexivity |].
    split; [reflexivity |].
    split; [vm_compute; reflexivity |].
    split; [exact Hsols | exact Hbest].
Defined.

(** ** Totals the search cannot place *)

Lemma for_each_succeeds {A S : Type} (P : S -> Prop)
  (body : A -> S -> result S) (l : list A) :
  (forall x s, In x l -> P s -> exists s', body x s = Ok s' /\ P s') ->
  forall s, P s -> exists s', for_each body l s = Ok s' /\ P s'.
Proof.
  induction l as [| x l IH]; intros Hbody s Hs; simpl.
  - exists s. split; [reflexivity | exact Hs].
  - destruct (Hbody x s (or_introl eq_refl) Hs) as [s1 [E1 H1]].
    rewrite E1. simpl. apply IH; [| exact H1].
    intros y t Hy. apply Hbody. right; exact Hy.
Qed.

Definition only_placeholders (st : SearchState) : Prop :=
  top_solutions st = [empty_solution; empty_solution; empty_solution].

Lemma try_combination_empty total_amount banks_data reqs sb st :
  only_placeholders st ->
  exists st',
    try_combination total_amount banks_data reqs [] sb st = Ok st'
    /\ only_placeholders st'.
Proof.
  unfold only_placeholders, try_combination. intros H.
  destruct (Z.abs (sum_values [] - total_amount) >? 5000)%Z.
  - eexists. split; [reflexivity | exact H].
  - simpl. rewrite H. eexists. split; [reflexivity | reflexivity].
Qed.

(** With less than one increment to place, every bank takes nothing. *)
Lemma try_all_combinations_below_increment total_amount banks_data reqs sb
  (banks : list string) :
  Forall (fun b => dict_get bonus_caps b <> None) banks ->
  forall rem st,
    (rem < 5000)%Z ->
    only_placeholders st ->
    exists st',
      try_all_combinations total_amount banks_data reqs rem banks [] sb st
      = Ok st'
      /\ only_placeholders st'.
Proof.
  induction banks as [| b banks IH]; intros Hb rem st Hrem Hst;
    cbn [try_all_combinations].
  - assert (E : (rem <? 5000)%Z = true) by lia. rewrite E.
    apply try_combination_empty; exact Hst.
  - inversion Hb as [| x l Hx Hb']; subst.
    unfold dict_item.
    destruct (dict_get bonus_caps b) as [cap |]; [| congruence].
    cbn [bind].
    apply for_each_succeeds; [| exact Hst].
    intros amount s Hin Hs. apply in_range0 in Hin.
    destruct Hin as [H0 [_ [k Hk]]].
    destruct (amount <=? Z.min rem cap)%Z eqn:Ele.
    + apply Z.leb_le in Ele.
      assert (Ez : amount = 0%Z) by lia. clear Hk H0 Ele. subst amount.
      change (0 >? 0)%Z with false. cbn iota.
      apply IH; [exact Hb' | lia | exact Hs].
    + exists s. split; [reflexivity | exact Hs].
Qed.

Lemma non_salary_banks_capped (b : string) :
  Forall (fun b0 => dict_get bonus_caps b0 <> None)
    (filter (fun bank0 => negb (String.eqb bank0 b)) all_banks).
Proof.
  apply Forall_forall. intros b0 Hin. apply filter_In in Hin.
  destruct Hin as [Hin _]. unfold all_banks in Hin. simpl in Hin.
  destruct Hin as [<- | [<- | [<- | [<- | [<- | []]]]]]; discriminate.
Qed.

Lemma all_banks_capped :
  Forall (fun b0 => dict_get bonus_caps b0 <> None) all_banks.
Proof. unfold all_banks. repeat constructor; discriminate. Qed.

(** X14. With less than one increment of 5000 to place (a negative total
    included) the optimizer raises nothing and returns the three
    placeholders, whatever the tier table and the requirements. *)
Theorem below_increment_returns_placeholders
  (total_amount : Z) (banks_data : dict BankInfo) (reqs : Requirements) :
  (total_amount < 5000)%Z ->
  optimize_bank_distribution total_amount banks_data reqs
  = Ok [empty_solution; empty_solution; empty_solution].
Proof.
  intros Hsmall. unfold optimize_bank_distribution, search.
  assert (Hpasses :
            exists st1,
              (if has_salary reqs
               then for_each (try_salary_bank total_amount banks_data reqs)
                      salary_banks initial_state
               else Ok initial_state) = Ok st1
              /\ only_placeholders st1).
  { destruct (has_salary reqs);
      [| exists initial_state; split; reflexivity].
    apply for_each_succeeds; [| reflexivity].
    intros b s Hb Hs. unfold try_salary_bank, dict_item.
    assert (Hcap : exists cap, dict_get bonus_caps b = Some cap).
    { unfold salary_banks in Hb. simpl in Hb.
      destruct Hb as [<- | [<- | [<- | []]]]; eexists; reflexivity. }
    destruct Hcap as [cap Hcap]. rewrite Hcap. cbn [bind].
    apply for_each_succeeds; [| exact Hs].
    intros amount t Hin Ht. apply in_range0 in Hin.
    destruct Hin as [H0 [_ [k Hk]]].
    destruct (amount <=? total_amount)%Z eqn:Ele.
    - apply Z.leb_le in Ele.
      assert (Ez : amount = 0%Z) by lia. clear Hk H0 Ele. subst amount.
      change (0 >? 0)%Z with false. cbn iota.
      apply try_all_combinations_below_increment;
        [apply non_salary_banks_capped | lia | exact Ht].
    - exists t. split; [reflexivity | exact Ht]. }
  destruct Hpasses as [st1 [E1 H1]]. rewrite E1. cbn [bind].
  destruct (try_all_combinations_below_increment total_amount banks_data reqs
              None all_banks all_banks_capped total_amount st1 Hsmall H1)
    as [st2 [E2 H2]].
  rewrite E2. cbn [bind]. rewrite H2. reflexivity.
Qed.

Lemma below_increment_returns_placeholders_witness :
  optimize_bank_distribution 4999 sample_banks_sc_broken sample_reqs
  = Ok [empty_solution; empty_solution; empty_solution].
Proof.
  apply (below_increment_returns_placeholders 4999 sample_banks_sc_broken
           sample_reqs).
  reflexivity.
Defined.

(** X15. The caps of the five banks add up to 500,000: from a total of
    505,000 on, no combination comes within 5000 of the total, none is
    evaluated, and the optimizer returns the three placeholders, whatever
    the tier table and the requirements. *)
Theorem beyond_caps_returns_placeholders
  (total_amount : Z) (banks_data : dict BankInfo) (reqs : Requirements) :
  (505000 <= total_amount)%Z ->
  optimize_bank_distribution total_amount banks_data reqs
  = Ok [empty_solution; empty_solution; empty_solution].
Proof.
  intros Hbig. unfold optimize_bank_distribution, search.
  assert (Hpasses :
            (if has_salary reqs
             then for_each (try_salary_bank total_amount banks_data reqs)
                    salary_banks initial_state
             else Ok initial_state) = Ok initial_state).
  { destruct (has_salary reqs); [| reflexivity].
    apply for_each_unchanged. intros b s Hb.
    unfold try_salary_bank, dict_item.
    assert (Hcap : dict_get bonus_caps b = Some 100000%Z
                   /\ total_cap
                        (filter (fun bank0 => negb (String.eqb bank0 b))
                           all_banks) = 400000%Z).
    { unfold salary_banks in Hb. simpl in Hb.
      destruct Hb as [<- | [<- | [<- | []]]]; split; reflexivity. }
    destruct Hcap as [Hcap Hrest]. rewrite Hcap. cbn [bind].
    apply for_each_unchanged. intros amount t Hin.
    apply in_range0 in Hin. destruct Hin as [H0 [Hlt [k Hk]]].
    destruct (amount <=? total_amount)%Z; [| reflexivity].
    apply try_all_combinations_beyond_caps;
      [apply non_salary_banks_capped | rewrite Hrest; lia]. }
  rewrite Hpasses. cbn [bind].
  rewrite try_all_combinations_beyond_caps;
    [reflexivity | apply all_banks_capped |].
  change (total_cap all_banks) with 500000%Z. lia.
Qed.

Lemma beyond_caps_returns_placeholders_witness :
  optimize_bank_distribution 505000 sample_banks sample_reqs
  = Ok [empty_solution; empty_solution; empty_solution].
Proof.
  apply (beyond_caps_returns_placeholders 505000 sample_banks sample_reqs).
  lia.
Defined.

(** ** The scenario estimate *)

Lemma calculate_total_scenarios_positive (amount num_banks : Z) :
  (0 <= amount)%Z -> (0 <= num_banks)%Z ->
  (1 <= calculate_total_scenarios amount num_banks)%Z.
Proof.
  intros Ha Hn. unfold calculate_total_scenarios.
  assert (H1 : (1 <= amount / 5000 + 1)%Z).
  { assert (0 <= amount / 5000)%Z by (apply Z.div_pos; lia). lia. }
  assert (H2 : (0 < (amount / 5000 + 1) ^ num_banks)%Z)
    by (apply Z.pow_pos_nonneg; lia).
  lia.
Qed.

(** X16. For a total of at least 0 the count [total_scenarios], by which
    the progress line divides, is computed without fault and is at least
    1; it is at least 4 when the user credits a salary. *)
Theorem total_scenarios_positive
  (total_amount : Z) (reqs : Requirements) :
  (0 <= total_amount)%Z ->
  exists n,
    total_scenarios total_amount reqs = Ok n
    /\ (1 <= n)%Z
    /\ (has_salary reqs = true -> 4 <= n)%Z.
Proof.
  intros Hpos. unfold total_scenarios.
  pose proof (calculate_total_scenarios_positive total_amount 5 Hpos
                ltac:(lia)) as H5.
  destruct (has_salary reqs).
  - unfold salary_banks. cbn [for_each].
    change (dict_item bonus_caps "SC BonusSaver") with (Ok 100000%Z).
    change (dict_item bonus_caps "OCBC 360") with (Ok 100000%Z).
    change (dict_item bonus_caps "BOC SmartSaver") with (Ok 100000%Z).
    cbn [bind].
    pose proof (calculate_total_scenarios_positive
                  (Z.min total_amount 100000) 4 ltac:(lia) ltac:(lia)) as H4.
    eexists. split; [reflexivity |]. split; [lia | intros _; lia].
  - cbn [bind]. eexists. split; [reflexivity |].
    split; [lia | discriminate].
Qed.

Lemma total_scenarios_positive_witness :
  total_scenarios 10000 sample_reqs = Ok 486%Z
  /\ exists n, total_scenarios 10000 sample_reqs = Ok n /\ (1 <= n)%Z.
Proof.
  split; [reflexivity |].
  destruct (total_scenarios_positive 10000 sample_reqs) as [n [Hn [H1 _]]].
  - lia.
  - exists n. split; [exact Hn | exact H1].
Defined.


(** * Further properties of the spend allocator *)

Lemma dict_set_twice {V : Type} (k : string) (v v' : V) (d : dict V) :
  dict_set k v' (dict_set k v d) = dict_set k v' d.
Proof.
  induction d as [| [k0 v0] d IH]; simpl.
  - rewrite String.eqb_refl. reflexivity.
  - destruct (String.eqb k0 k) eqn:E; simpl; rewrite E; [reflexivity |].
    rewrite IH. reflexivity.
Qed.

Section SpendBudget.

Variable banks_data : dict BankInfo.
Variable deposit_amounts : dict Q.
Variable base_requirements : Requirements.
Variable budget : Q.

(** What holds at every node of [try_allocation]: the spend handed out
    and the spend remaining make up the budget, and no bank still to come
    has received anything. *)
Definition node_ok (rem : Q) (banks : list string) (alloc : dict Z) : Prop :=
  0 <= rem
  /\ inject_Z (sum_values alloc) + rem == budget
  /\ NoDup (map fst alloc)
  /\ forall b, In b banks -> ~ In b (map fst alloc).

Definition within_budget (best : BestAllocation) : Prop :=
  inject_Z (sum_values (best_allocation best)) <= budget
  /\ NoDup (map fst (best_allocation best)).

Lemma evaluate_allocation_budget rem banks alloc best best' :
  node_ok rem banks alloc -> within_budget best ->
  evaluate_allocation banks_data deposit_amounts base_requirements
    alloc best = Ok best' ->
  within_budget best'.
Proof.
  intros [Hrem [Hsum [Hnd _]]] Hb H. unfold evaluate_allocation in H.
  apply bind_ok in H. destruct H as [[total bds] [_ H]].
  destruct (Qlt_bool (best_total_interest best) total);
    inversion H; subst; [| exact Hb].
  split; [simpl; lra | exact Hnd].
Qed.

Lemma node_ok_allocate rem current_bank next_banks alloc (m : Z) :
  NoDup (current_bank :: next_banks) ->
  node_ok rem (current_bank :: next_banks) alloc ->
  inject_Z m <= rem ->
  node_ok (rem - inject_Z m) next_banks (dict_set current_bank m alloc).
Proof.
  intros Hnodup [Hrem [Hsum [Hnd Hfresh]]] Hm.
  apply NoDup_cons_iff in Hnodup. destruct Hnodup as [Hnotin _].
  assert (Hcur : ~ In current_bank (map fst alloc))
    by (apply Hfresh; left; reflexivity).
  destruct (sum_values_dict_set current_bank m alloc Hcur) as [Hs Hk].
  split; [lra |]. split.
  { rewrite Hs, inject_Z_plus. lra. }
  rewrite Hk. split.
  { apply Permutation_NoDup with (l := current_bank :: map fst alloc).
    - apply Permutation_cons_append.
    - constructor; assumption. }
  intros b Hb Hin. apply in_app_or in Hin.
  destruct Hin as [Hin | [-> | []]].
  - apply (Hfresh b); [right; exact Hb | exact Hin].
  - apply Hnotin; exact Hb.
Qed.

Lemma node_ok_skip rem current_bank next_banks alloc :
  node_ok rem (current_bank :: next_banks) alloc ->
  node_ok rem next_banks alloc.
Proof.
  intros [Hrem [Hsum [Hnd Hfresh]]]. repeat split; try assumption.
  intros b Hb. apply Hfresh. right; exact Hb.
Qed.

Lemma try_allocation_budget (banks : list string) :
  forall rem alloc best best',
    NoDup banks ->
    node_ok rem banks alloc -> within_budget best ->
    try_allocation banks_data deposit_amounts base_requirements
      rem banks alloc best = Ok best' ->
    within_budget best'.
Proof.
  induction banks as [| current_bank next_banks IH];
    intros rem alloc best best' Hnodup Hnode Hb H;
    cbn [try_allocation] in H.
  - exact (evaluate_allocation_budget rem [] alloc best best' Hnode Hb H).
  - destruct (Qlt_bool rem _);
      [exact (evaluate_allocation_budget rem _ alloc best best' Hnode Hb H) |].
    assert (Hnodup' : NoDup next_banks)
      by (apply NoDup_cons_iff in Hnodup; tauto).
    apply bind_ok in H. destruct H as [m [Em H]].
    apply bind_ok in H. destruct H as [best1 [E1 H]].
    assert (Hb1 : within_budget best1).
    { exact (IH rem alloc best best1 Hnodup'
               (node_ok_skip _ _ _ _ Hnode) Hb E1). }
    destruct (Qle_bool (inject_Z m) rem) eqn:Em';
      [| inversion H; subst; exact Hb1].
    apply Qle_bool_iff in Em'.
    apply bind_ok in H. destruct H as [best2 [E2 H]].
    assert (Hb2 : within_budget best2).
    { exact (IH _ _ best1 best2 Hnodup'
               (node_ok_allocate _ _ _ _ m Hnodup Hnode Em') Hb1 E2). }
    destruct (String.eqb current_bank "BOC SmartSaver" && Qle_bool 1500 rem)
      eqn:Eboc; [| inversion H; subst; exact Hb2].
    apply andb_true_iff in Eboc. destruct Eboc as [_ E1500].
    apply Qle_bool_iff in E1500.
    rewrite dict_set_twice in H.
    refine (IH _ _ best2 best' Hnodup' _ Hb2 H).
    apply (node_ok_allocate rem current_bank next_banks alloc 1500 Hnodup
             Hnode E1500).
Qed.

End SpendBudget.

Lemma eligible_banks_nodup (deposit_amounts : dict Q) :
  NoDup (eligible_banks deposit_amounts).
Proof.
  unfold eligible_banks. apply NoDup_filter.
  unfold min_spends; simpl.
  repeat constructor; simpl; intuition discriminate.
Qed.

(** X17. The spend allocator stays within the budget: for a spend budget
    of at least 0 the spends of the returned allocation add up to at most
    the budget, and no product appears twice in it. *)
Theorem spend_allocation_within_budget
  (banks_data : dict BankInfo) (deposit_amounts : dict Q)
  (reqs : Requirements) (total_spend : Q)
  (alloc : dict Z) (total : Q) (bds : dict CalculationResult) :
  0 <= total_spend ->
  optimize_spend_allocation banks_data deposit_amounts reqs total_spend
  = Ok (alloc, total, bds) ->
  inject_Z (sum_values alloc) <= total_spend
  /\ NoDup (map fst alloc).
Proof.
  intros Hpos H. unfold optimize_spend_allocation in H.
  apply bind_ok in H. destruct H as [best [Hbest H]].
  inversion H; subst; clear H.
  revert Hbest.
  apply (try_allocation_budget banks_data deposit_amounts reqs total_spend).
  - apply eligible_banks_nodup.
  - split; [exact Hpos |]. split.
    { change (inject_Z (sum_values [])) with 0. lra. }
    split; [constructor | intros b _ []].
  - split; [exact Hpos | constructor].
Qed.

Lemma spend_allocation_within_budget_witness :
  exists alloc total bds,
    optimize_spend_allocation sample_banks
      [("UOB One", 5000); ("BOC SmartSaver", 10000); ("OCBC 360", 0)]
      sample_reqs 2000 = Ok (alloc, total, bds)
    /\ sum_values alloc = 2000%Z
    /\ inject_Z (sum_values alloc) <= 2000.
Proof.
  eexists; eexists; eexists.
  split; [vm_compute; reflexivity |]. split; [reflexivity |].
  eapply (spend_allocation_within_budget sample_banks
            [("UOB One", 5000); ("BOC SmartSaver", 10000); ("OCBC 360", 0)]
            sample_reqs 2000).
  - unfold Qle; simpl; lia.
  - vm_compute; reflexivity.
Defined.

Lemma filter_none {A : Type} (f : A -> bool) (l : list A) :
  (forall x, In x l -> f x = false) -> filter f l = [].
Proof.
  induction l as [| x l IH]; intros H; simpl; [reflexivity |].
  rewrite (H x (or_introl eq_refl)). apply IH.
  intros y Hy. apply H. right; exact Hy.
Qed.

(** X18. When the budget is below 500, the smallest minimum spend, or no
    product holds a positive deposit, the allocator calls the calculator
    for no product, raises nothing whatever the tier table, and returns
    the empty allocation with zero interest. *)
Theorem spend_allocation_nothing_to_allocate
  (banks_data : dict BankInfo) (deposit_amounts : dict Q)
  (reqs : Requirements) (total_spend : Q) :
  total_spend < 500
  \/ (forall b d, dict_get deposit_amounts b = Some d -> d <= 0) ->
  optimize_spend_allocation banks_data deposit_amounts reqs total_spend
  = Ok ([], 0, []).
Proof.
  intros H. unfold optimize_spend_allocation.
  assert (Hleaf :
            forall best,
              try_allocation banks_data deposit_amounts reqs total_spend
                (eligible_banks deposit_amounts) [] best
              = evaluate_allocation banks_data deposit_amounts reqs []
                  best).
  { intros best. destruct H as [Hlow | Hnone].
    - destruct (eligible_banks deposit_amounts); [reflexivity |].
      cbn [try_allocation].
      rewrite (Qlt_bool_of_lt total_spend (inject_Z (min_value min_spends)))
        by exact Hlow.
      reflexivity.
    - assert (E : eligible_banks deposit_amounts = []).
      { unfold eligible_banks. apply filter_none. intros b _.
        destruct (dict_get deposit_amounts b) as [d |] eqn:Ed;
          [| reflexivity].
        apply Qlt_bool_of_le. apply (Hnone b d Ed). }
      rewrite E. reflexivity. }
  rewrite Hleaf. reflexivity.
Qed.

Lemma spend_allocation_nothing_to_allocate_witness :
  optimize_spend_allocation [] [("UOB One", 5000)] sample_reqs 499
  = Ok ([], 0, []).
Proof.
  apply (spend_allocation_nothing_to_allocate [] [("UOB One", 5000)]
           sample_reqs 499).
  left. reflexivity.
Defined.

Section SpendBest.

Variable banks_data : dict BankInfo.
Variable deposit_amounts : dict Q.
Variable base_requirements : Requirements.

(** The best allocation so far is the initial one, or one that was
    evaluated to the positive interest recorded with it. *)
Definition best_recorded (best : BestAllocation) : Prop :=
  (best_allocation best = [] /\ best_total_interest best = 0
   /\ best_breakdown best = [])
  \/ (0 < best_total_interest best
      /\ for_each
           (evaluate_spend banks_data deposit_amounts base_requirements)
           (best_allocation best) (0, [])
         = Ok (best_total_interest best, best_breakdown best)).

Lemma best_recorded_nonneg best :
  best_recorded best -> 0 <= best_total_interest best.
Proof.
  intros [[_ [E _]] | [H _]]; [rewrite E; apply Qle_refl |].
  apply Qlt_le_weak; exact H.
Qed.

Lemma evaluate_allocation_steps alloc best best' :
  evaluate_allocation banks_data deposit_amounts base_requirements
    alloc best = Ok best' ->
  best_total_interest best <= best_total_interest best'
  /\ (best_recorded best -> best_recorded best')
  /\ forall t bds,
       for_each (evaluate_spend banks_data deposit_amounts base_requirements)
         alloc (0, []) = Ok (t, bds) ->
       t <= best_total_interest best'.
Proof.
  intros H. unfold evaluate_allocation in H.
  apply bind_ok in H. destruct H as [[total bds] [Eev H]].
  destruct (Qlt_bool (best_total_interest best) total) eqn:E;
    inversion H; subst; clear H; simpl.
  - apply Qlt_bool_true in E. split; [lra |]. split.
    + intros Hb. right. simpl. split; [| exact Eev].
      apply best_recorded_nonneg in Hb. lra.
    + intros t bds0 Ht. rewrite Ht in Eev. inversion Eev; subst.
      apply Qle_refl.
  - apply Qlt_bool_false in E. split; [apply Qle_refl |].
    split; [intros Hb; exact Hb |].
    intros t bds0 Ht. rewrite Ht in Eev. inversion Eev; subst. exact E.
Qed.

Lemma try_allocation_steps (banks : list string) :
  forall rem alloc best best',
    try_allocation banks_data deposit_amounts base_requirements
      rem banks alloc best = Ok best' ->
    best_total_interest best <= best_total_interest best'
    /\ (best_recorded best -> best_recorded best').
Proof.
  induction banks as [| current_bank next_banks IH];
    intros rem alloc best best' H; cbn [try_allocation] in H.
  - destruct (evaluate_allocation_steps _ _ _ H) as [H1 [H2 _]].
    split; assumption.
  - destruct (Qlt_bool rem _).
    { destruct (evaluate_allocation_steps _ _ _ H) as [H1 [H2 _]].
      split; assumption. }
    apply bind_ok in H. destruct H as [m [_ H]].
    apply bind_ok in H. destruct H as [best1 [E1 H]].
    destruct (IH _ _ _ _ E1) as [M1 R1].
    destruct (Qle_bool (inject_Z m) rem);
      [| inversion H; subst; split; assumption].
    apply bind_ok in H. destruct H as [best2 [E2 H]].
    destruct (IH _ _ _ _ E2) as [M2 R2].
    destruct (String.eqb current_bank "BOC SmartSaver" && Qle_bool 1500 rem).
    + destruct (IH _ _ _ _ H) as [M3 R3].
      split; [lra | intros Hb; apply R3, R2, R1; exact Hb].
    + inversion H; subst.
      split; [lra | intros Hb; apply R2, R1; exact Hb].
Qed.

End SpendBest.

(** X19. What the spend allocator returns is either the empty allocation
    with zero interest and no breakdown, or an allocation with a strictly
    positive interest that is exactly what evaluating that allocation
    gives, together with the per-product results of that evaluation. *)
Theorem spend_allocation_records_evaluation
  (banks_data : dict BankInfo) (deposit_amounts : dict Q)
  (reqs : Requirements) (total_spend : Q)
  (alloc : dict Z) (total : Q) (bds : dict CalculationResult) :
  optimize_spend_allocation banks_data deposit_amounts reqs total_spend
  = Ok (alloc, total, bds) ->
  (alloc = [] /\ total = 0 /\ bds = [])
  \/ (0 < total
      /\ for_each (evaluate_spend banks_data deposit_amounts reqs) alloc
           (0, [])
         = Ok (total, bds)).
Proof.
  intros H. unfold optimize_spend_allocation in H.
  apply bind_ok in H. destruct H as [best [Hbest H]].
  inversion H; subst; clear H.
  destruct (try_allocation_steps _ _ _ _ _ _ _ _ Hbest) as [_ Hrec].
  apply Hrec. left. repeat split.
Qed.

Lemma spend_allocation_records_evaluation_witness :
  exists alloc total bds,
    optimize_spend_allocation sample_banks
      [("UOB One", 5000); ("BOC SmartSaver", 10000)] sample_reqs 2000
    = Ok (alloc, total, bds)
    /\ total == 447.5
    /\ ((alloc = [] /\ total = 0 /\ bds = [])
        \/ (0 < total
            /\ for_each
                 (evaluate_spend sample_banks
                    [("UOB One", 5000); ("BOC SmartSaver", 10000)]
                    sample_reqs) alloc (0, [])
               = Ok (total, bds))).
Proof.
  eexists; eexists; eexists.
  split; [vm_compute; reflexivity |]. split; [reflexivity |].
  apply (spend_allocation_records_evaluation sample_banks
           [("UOB One", 5000); ("BOC SmartSaver", 10000)] sample_reqs 2000).
  vm_compute; reflexivity.
Defined.

(** The allocations [try_allocation] evaluates below a node. *)
Inductive spend_leaf : Q -> list string -> dict Z -> dict Z -> Prop :=
| spend_leaf_no_banks (rem : Q) (alloc : dict Z) :
    spend_leaf rem [] alloc alloc
| spend_leaf_no_spend (rem : Q) (banks : list string) (alloc : dict Z) :
    rem < inject_Z (min_value min_spends) ->
    spend_leaf rem banks alloc alloc
| spend_leaf_skip (rem : Q) (current_bank : string)
    (next_banks : list string) (alloc a : dict Z) :
    inject_Z (min_value min_spends) <= rem ->
    spend_leaf rem next_banks alloc a ->
    spend_leaf rem (current_bank :: next_banks) alloc a
| spend_leaf_minimum (rem : Q) (current_bank : string)
    (next_banks : list string) (alloc a : dict Z) (m : Z) :
    inject_Z (min_value min_spends) <= rem ->
    dict_get min_spends current_bank = Some m ->
    inject_Z m <= rem ->
    spend_leaf (rem - inject_Z m) next_banks
      (dict_set current_bank m alloc) a ->
    spend_leaf rem (current_bank :: next_banks) alloc a
| spend_leaf_elevated (rem : Q) (next_banks : list string)
    (alloc a : dict Z) (m : Z) :
    inject_Z (min_value min_spends) <= rem ->
    dict_get min_spends "BOC SmartSaver" = Some m ->
    inject_Z m <= rem ->
    1500 <= rem ->
    spend_leaf (rem - 1500) next_banks
      (dict_set "BOC SmartSaver" 1500%Z
         (dict_set "BOC SmartSaver" m alloc)) a ->
    spend_leaf rem ("BOC SmartSaver" :: next_banks) alloc a.

Lemma try_allocation_reaches banks_data deposit_amounts reqs
  (rem : Q) (banks : list string) (alloc a : dict Z) (t : Q)
  (bds : dict CalculationResult) :
  spend_leaf rem banks alloc a ->
  for_each (evaluate_spend banks_data deposit_amounts reqs) a (0, [])
  = Ok (t, bds) ->
  forall best best',
    try_allocation banks_data deposit_amounts reqs rem banks alloc best
    = Ok best' ->
    t <= best_total_interest best'.
Proof.
  intros Hleaf Hev.
  induction Hleaf as [rem alloc
                     | rem banks alloc Hlow
                     | rem current_bank next_banks alloc a Hrem Hleaf IH
                     | rem current_bank next_banks alloc a m Hrem Hm Hle
                         Hleaf IH
                     | rem next_banks alloc a m Hrem Hm Hle H1500 Hleaf IH];
    intros best best' H.
  - cbn [try_allocation] in H.
    destruct (evaluate_allocation_steps _ _ _ _ _ _ H) as [_ [_ Ht]].
    eapply Ht; exact Hev.
  - assert (E : try_allocation banks_data deposit_amounts reqs rem banks
                  alloc best
                = evaluate_allocation banks_data deposit_amounts reqs alloc
                    best).
    { destruct banks; [reflexivity |]. cbn [try_allocation].
      rewrite (Qlt_bool_of_lt _ _ Hlow). reflexivity. }
    rewrite E in H.
    destruct (evaluate_allocation_steps _ _ _ _ _ _ H) as [_ [_ Ht]].
    eapply Ht; exact Hev.
  - cbn [try_allocation] in H.
    rewrite (Qlt_bool_of_le _ _ Hrem) in H.
    apply bind_ok in H. destruct H as [m [_ H]].
    apply bind_ok in H. destruct H as [best1 [E1 H]].
    specialize (IH Hev _ _ E1).
    destruct (Qle_bool (inject_Z m) rem);
      [| inversion H; subst; exact IH].
    apply bind_ok in H. destruct H as [best2 [E2 H]].
    destruct (try_allocation_steps _ _ _ _ _ _ _ _ E2) as [M2 _].
    destruct (String.eqb current_bank "BOC SmartSaver" && Qle_bool 1500 rem).
    + destruct (try_allocation_steps _ _ _ _ _ _ _ _ H) as [M3 _]. lra.
    + inversion H; subst. lra.
  - cbn [try_allocation] in H.
    rewrite (Qlt_bool_of_le _ _ Hrem) in H.
    unfold dict_item in H. rewrite Hm in H. cbn [bind] in H.
    apply bind_ok in H. destruct H as [best1 [E1 H]].
    assert (Em : Qle_bool (inject_Z m) rem = true)
      by (apply Qle_bool_iff; exact Hle).
    rewrite Em in H.
    apply bind_ok in H. destruct H as [best2 [E2 H]].
    specialize (IH Hev _ _ E2).
    destruct (String.eqb current_bank "BOC SmartSaver" && Qle_bool 1500 rem).
    + destruct (try_allocation_steps _ _ _ _ _ _ _ _ H) as [M3 _]. lra.
    + inversion H; subst. exact IH.
  - cbn [try_allocation] in H.
    rewrite (Qlt_bool_of_le _ _ Hrem) in H.
    unfold dict_item in H. rewrite Hm in H. cbn [bind] in H.
    apply bind_ok in H. destruct H as [best1 [E1 H]].
    assert (Em : Qle_bool (inject_Z m) rem = true)
      by (apply Qle_bool_iff; exact Hle).
    rewrite Em in H.
    apply bind_ok in H. destruct H as [best2 [E2 H]].
    assert (E15 : Qle_bool 1500 rem = true)
      by (apply Qle_bool_iff; exact H1500).
    rewrite E15 in H. cbn [String.eqb Ascii.eqb Bool.eqb andb] in H.
    exact (IH Hev _ _ H).
Qed.

(** X20. The interest the spend allocator returns is at least the
    interest of every allocation its search evaluates: skipping a
    product, giving it its minimum spend, or giving BOC SmartSaver 1500,
    down to where no product or less than 500 remains. *)
Theorem spend_allocation_is_best
  (banks_data : dict BankInfo) (deposit_amounts : dict Q)
  (reqs : Requirements) (total_spend : Q)
  (a : dict Z) (t : Q) (bds0 : dict CalculationResult)
  (alloc : dict Z) (total : Q) (bds : dict CalculationResult) :
  spend_leaf total_spend (eligible_banks deposit_amounts) [] a ->
  for_each (evaluate_spend banks_data deposit_amounts reqs) a (0, [])
  = Ok (t, bds0) ->
  optimize_spend_allocation banks_data deposit_amounts reqs total_spend
  = Ok (alloc, total, bds) ->
  t <= total.
Proof.
  intros Hleaf Hev H. unfold optimize_spend_allocation in H.
  apply bind_ok in H. destruct H as [best [Hbest H]].
  inversion H; subst; clear H.
  eapply try_allocation_reaches; eassumption.
Qed.

Lemma spend_allocation_is_best_witness :
  exists t bds0 alloc total bds,
    for_each
      (evaluate_spend sample_banks
         [("UOB One", 5000); ("BOC SmartSaver", 10000)] sample_reqs)
      [("UOB One", 500%Z)] (0, []) = Ok (t, bds0)
    /\ t == 150
    /\ optimize_spend_allocation sample_banks
         [("UOB One", 5000); ("BOC SmartSaver", 10000)] sample_reqs 2000
       = Ok (alloc, total, bds)
    /\ t <= total.
Proof.
  eexists; eexists; eexists; eexists; eexists.
  split; [vm_compute; reflexivity |]. split; [reflexivity |].
  split; [vm_compute; reflexivity |].
  eapply (spend_allocation_is_best sample_banks
            [("UOB One", 5000); ("BOC SmartSaver", 10000)] sample_reqs 2000
            [("UOB One", 500%Z)]).
  - apply spend_leaf_minimum with (m := 500%Z).
    + unfold Qle; simpl; lia.
    + reflexivity.
    + unfold Qle; simpl; lia.
    + apply spend_leaf_skip; [unfold Qle; simpl; lia |].
      apply spend_leaf_no_banks.
  - vm_compute; reflexivity.
  - vm_compute; reflexivity.
Defined.


(** * The comparison of the products and the suggested questions *)

(** ** Sorting by annual interest *)

Definition earns_at_least (a b : BankResult.t) : Prop :=
  BankResult.annual_interest b <= BankResult.annual_interest a.

Lemma insert_by_interest_perm x l :
  Permutation (insert_by_interest x l) (x :: l).
Proof.
  induction l as [| y l IH]; simpl; [apply Permutation_refl |].
  destruct (Qle_bool _ _); [apply Permutation_refl |].
  eapply Permutation_trans; [apply perm_skip; exact IH | apply perm_swap].
Qed.

Lemma sorted_by_interest_perm l : Permutation (sorted_by_interest l) l.
Proof.
  induction l as [| x l IH]; simpl; [constructor |].
  eapply Permutation_trans; [apply insert_by_interest_perm |].
  apply perm_skip; exact IH.
Qed.

Lemma insert_by_interest_sorted x l :
  StronglySorted earns_at_least l ->
  StronglySorted earns_at_least (insert_by_interest x l).
Proof.
  induction l as [| y l IH]; intros H; simpl.
  - repeat constructor.
  - inversion H as [| ? ? Hl Hy]; subst.
    destruct (Qle_bool (BankResult.annual_interest y)
                (BankResult.annual_interest x)) eqn:E.
    + apply Qle_bool_iff in E. constructor; [exact H |].
      constructor; [exact E |].
      eapply Forall_impl; [| exact Hy].
      intros z Hz. unfold earns_at_least in *. lra.
    + apply Qle_bool_false in E. constructor; [apply IH; exact Hl |].
      apply Forall_forall. intros z Hz.
      apply (Permutation_in _ (insert_by_interest_perm x l)) in Hz.
      destruct Hz as [<- | Hz].
      * unfold earns_at_least. lra.
      * rewrite Forall_forall in Hy. apply Hy; exact Hz.
Qed.

Lemma sorted_by_interest_sorted l :
  StronglySorted earns_at_least (sorted_by_interest l).
Proof.
  induction l as [| x l IH]; simpl; [constructor |].
  apply insert_by_interest_sorted; exact IH.
Qed.

(** Sorting a list that is already in order changes nothing: the sort is
    stable. *)
Lemma sorted_by_interest_fixed l :
  StronglySorted earns_at_least l -> sorted_by_interest l = l.
Proof.
  induction l as [| x l IH]; intros H; simpl; [reflexivity |].
  inversion H as [| ? ? Hl Hx]; subst. rewrite (IH Hl).
  destruct l as [| y l]; simpl; [reflexivity |].
  inversion Hx as [| ? ? Hxy _]; subst.
  unfold earns_at_least in Hxy. apply Qle_bool_iff in Hxy.
  rewrite Hxy. reflexivity.
Qed.

(** ** The comparison *)

Section ComparisonProperties.

Variable amount : Z.
Variable banks_data : dict BankInfo.
Variable reqs : Requirements.

(** An entry of the comparison: the result of the calculator for that
    product, on the amount and with the requirements as entered. *)
Definition entry_ok (e : BankResult.t) : Prop :=
  BankResult.monthly_interest e = BankResult.annual_interest e / 12
  /\ exists info r,
      dict_get banks_data (BankResult.bank e) = Some info
      /\ calculate_bank_interest (inject_Z amount) info reqs = Ok r
      /\ BankResult.annual_interest e = total_interest r
      /\ BankResult.breakdown e = breakdown r.

Lemma comparison_reqs_unchanged :
  set_salary_amount (salary_amount reqs)
    (set_has_salary (has_salary reqs) reqs) = reqs.
Proof. destruct reqs; reflexivity. Qed.

Lemma calculate_one_bank_entry bank_name acc res :
  calculate_one_bank amount banks_data reqs bank_name acc = Ok res ->
  exists e,
    res = acc ++ [e] /\ BankResult.bank e = bank_name /\ entry_ok e.
Proof.
  unfold calculate_one_bank. intros H.
  assert (Ereqs : (if String.eqb bank_name "UOB One"
                   then set_salary_amount (salary_amount reqs)
                          (set_has_salary (has_salary reqs) reqs)
                   else reqs) = reqs)
    by (destruct (String.eqb bank_name "UOB One");
        [apply comparison_reqs_unchanged | reflexivity]).
  rewrite Ereqs in H.
  apply bind_ok in H. destruct H as [info [Einfo H]].
  apply dict_item_ok in Einfo.
  apply bind_ok in H. destruct H as [r [Er H]].
  inversion H; subst; clear H.
  eexists. split; [reflexivity |]. split; [reflexivity |].
  split; [reflexivity |]. exists info, r. repeat split; assumption.
Qed.

Lemma calculate_all_banks_entries (names : list string) :
  forall acc res,
    for_each (calculate_one_bank amount banks_data reqs) names acc = Ok res ->
    exists new,
      res = acc ++ new
      /\ map BankResult.bank new = names
      /\ Forall entry_ok new.
Proof.
  induction names as [| name names IH]; intros acc res H; simpl in H.
  - inversion H; subst. exists []. rewrite app_nil_r.
    repeat split; constructor.
  - apply bind_ok in H. destruct H as [acc1 [E1 H]].
    apply calculate_one_bank_entry in E1.
    destruct E1 as [e [-> [Hname He]]].
    destruct (IH _ _ H) as [new [-> [Hnames Hnew]]].
    exists (e :: new). rewrite <- app_assoc. simpl.
    split; [reflexivity |]. split; [rewrite Hname, Hnames; reflexivity |].
    constructor; assumption.
Qed.

End ComparisonProperties.

Lemma single_bank_results_shape
  (amount : Z) (banks_data : dict BankInfo) (reqs : Requirements)
  (results : list BankResult.t) :
  single_bank_results amount banks_data reqs = Ok results ->
  Permutation (map BankResult.bank results) comparison_banks
  /\ StronglySorted earns_at_least results
  /\ Forall (entry_ok amount banks_data reqs) results.
Proof.
  unfold single_bank_results. intros H.
  apply bind_ok in H. destruct H as [unsorted [Hloop H]].
  inversion H; subst; clear H.
  apply calculate_all_banks_entries in Hloop.
  destruct Hloop as [new [-> [Hnames Hall]]]. simpl.
  pose proof (sorted_by_interest_perm new) as Hperm.
  split.
  - rewrite <- Hnames. apply Permutation_map. exact Hperm.
  - split; [apply sorted_by_interest_sorted |].
    apply Forall_forall. intros e He.
    apply (Permutation_in _ Hperm) in He.
    rewrite Forall_forall in Hall. apply Hall; exact He.
Qed.

(** X21. When the comparison of the single-bank page succeeds it holds
    one entry for each of the six products, in descending order of annual
    interest; each entry is the calculator's result for that product on
    the amount entered, with the requirements exactly as entered (the
    special handling of UOB One changes nothing), and its monthly
    interest is a twelfth of its annual interest. *)
Theorem single_bank_results_sorted_entries
  (amount : Z) (banks_data : dict BankInfo) (reqs : Requirements)
  (results : list BankResult.t) :
  single_bank_results amount banks_data reqs = Ok results ->
  Permutation (map BankResult.bank results) comparison_banks
  /\ StronglySorted earns_at_least results
  /\ Forall (entry_ok amount banks_data reqs) results.
Proof. apply single_bank_results_shape. Qed.

Lemma single_bank_results_sorted_entries_witness :
  exists results,
    single_bank_results 10000 sample_banks sample_reqs = Ok results
    /\ map BankResult.bank results
       = [ "Chocolate"; "UOB One"; "BOC SmartSaver"; "OCBC 360";
           "SC BonusSaver"; "DBS Multiplier" ]
    /\ StronglySorted earns_at_least results.
Proof.
  eexists. split; [vm_compute; reflexivity |]. split; [reflexivity |].
  apply (single_bank_results_sorted_entries 10000 sample_banks sample_reqs).
  vm_compute; reflexivity.
Defined.

(** X22. The comparison gives no partial result: when one of the six
    products is missing from the tier table, or its calculation raises,
    the whole comparison raises. *)
Theorem single_bank_results_all_or_nothing
  (amount : Z) (banks_data : dict BankInfo) (reqs : Requirements)
  (b : string) :
  In b comparison_banks ->
  dict_get banks_data b = None
  \/ (exists info e,
         dict_get banks_data b = Some info
         /\ calculate_bank_interest (inject_Z amount) info reqs = Raise e) ->
  exists e, single_bank_results amount banks_data reqs = Raise e.
Proof.
  intros Hb Hfault. unfold single_bank_results.
  destruct (for_each_raises (calculate_one_bank amount banks_data reqs)
              comparison_banks b Hb) with (s := @nil BankResult.t)
    as [e He].
  - intros acc. unfold calculate_one_bank, dict_item.
    assert (Ereqs : (if String.eqb b "UOB One"
                     then set_salary_amount (salary_amount reqs)
                            (set_has_salary (has_salary reqs) reqs)
                     else reqs) = reqs)
      by (destruct (String.eqb b "UOB One");
          [apply comparison_reqs_unchanged | reflexivity]).
    rewrite Ereqs.
    destruct Hfault as [Hnone | [info [e [Hsome Hraise]]]].
    + rewrite Hnone. eexists; reflexivity.
    + rewrite Hsome. cbn [bind]. rewrite Hraise. eexists; reflexivity.
  - rewrite He. eexists; reflexivity.
Qed.

Lemma single_bank_results_all_or_nothing_witness :
  exists e,
    single_bank_results 10000 sample_banks_sc_broken sample_reqs = Raise e.
Proof.
  apply (single_bank_results_all_or_nothing 10000 sample_banks_sc_broken
           sample_reqs "DBS Multiplier").
  - unfold comparison_banks. simpl. tauto.
  - left. reflexivity.
Defined.

(** ** Suggested questions *)

Definition generic_suggestions (top_bank : string) : list string :=
  [ String.append "Why is "
      (String.append top_bank " giving me the highest interest?");
    "How can I increase my interest rate?";
    "What if I increase my savings amount?";
    "Which bank has the easiest requirements?" ].

Lemma generate_suggestions_of_sorted (e : BankResult.t)
  (l : list BankResult.t) (top : BankResult.t) (rest : list BankResult.t) :
  sorted_by_interest (e :: l) = top :: rest ->
  generate_suggestions (e :: l) = generic_suggestions (BankResult.bank top).
Proof.
  intros H. unfold generate_suggestions. rewrite H.
  unfold generic_suggestions.
  destruct (String.eqb (BankResult.bank top) "UOB One"); [reflexivity |].
  destruct (String.eqb (BankResult.bank top) "OCBC 360"); [reflexivity |].
  destruct (String.eqb (BankResult.bank top) "SC BonusSaver"); reflexivity.
Qed.

(** X23. For a list of results that is not empty, [generate_suggestions]
    returns exactly four questions: one that names a product with the
    highest annual interest of the list, and the three generic ones. The
    question written for UOB One, OCBC 360 or SC BonusSaver is appended in
    fifth place and always cut off by the limit of four. *)
Theorem generate_suggestions_four_generic
  (bank_results : list BankResult.t) :
  bank_results <> [] ->
  exists top,
    In top bank_results
    /\ (forall e, In e bank_results ->
                  BankResult.annual_interest e
                  <= BankResult.annual_interest top)
    /\ generate_suggestions bank_results
       = generic_suggestions (BankResult.bank top)
    /\ List.length (generate_suggestions bank_results) = 4%nat.
Proof.
  intros Hne. destruct bank_results as [| e l]; [congruence |].
  pose proof (sorted_by_interest_perm (e :: l)) as Hperm.
  pose proof (sorted_by_interest_sorted (e :: l)) as Hsorted.
  destruct (sorted_by_interest (e :: l)) as [| top rest] eqn:Es.
  { apply Permutation_nil in Hperm. discriminate. }
  exists top. split.
  { apply (Permutation_in _ Hperm). left; reflexivity. }
  split.
  { intros x Hx. apply (Permutation_in _ (Permutation_sym Hperm)) in Hx.
    inversion Hsorted as [| ? ? _ Htop]; subst.
    destruct Hx as [<- | Hx]; [apply Qle_refl |].
    rewrite Forall_forall in Htop. apply (Htop x Hx). }
  rewrite (generate_suggestions_of_sorted e l top rest Es).
  split; reflexivity.
Qed.

Lemma generate_suggestions_four_generic_witness :
  exists results,
    single_bank_results 200000 sample_banks sample_reqs = Ok results
    /\ generate_suggestions results
       = [ "Why is UOB One giving me the highest interest?";
           "How can I increase my interest rate?";
           "What if I increase my savings amount?";
           "Which bank has the easiest requirements?" ]
    /\ exists top,
        In top results
        /\ generate_suggestions results
           = generic_suggestions (BankResult.bank top).
Proof.
  eexists. split; [vm_compute; reflexivity |]. split; [reflexivity |].
  edestruct (generate_suggestions_four_generic) as [top [Hin [_ [Hs _]]]];
    [| exists top; split; [exact Hin | exact Hs]].
  discriminate.
Defined.

(** X24. The first suggested question names the product the single-bank
    page shows as the optimal choice, the first entry of the comparison:
    sorting the sorted comparison again leaves it as it is. *)
Theorem suggestions_name_the_optimal_bank
  (amount : Z) (banks_data : dict BankInfo) (reqs : Requirements)
  (results : list BankResult.t) :
  single_bank_results amount banks_data reqs = Ok results ->
  exists optimal_bank rest,
    results = optimal_bank :: rest
    /\ generate_suggestions results
       = generic_suggestions (BankResult.bank optimal_bank).
Proof.
  intros H.
  destruct (single_bank_results_shape _ _ _ _ H)
    as [Hperm [Hsorted _]].
  destruct results as [| optimal_bank rest].
  { apply Permutation_nil in Hperm. discriminate. }
  exists optimal_bank, rest. split; [reflexivity |].
  apply generate_suggestions_of_sorted with (rest := rest).
  apply sorted_by_interest_fixed. exact Hsorted.
Qed.

Lemma suggestions_name_the_optimal_bank_witness :
  exists results optimal_bank rest,
    single_bank_results 10000 sample_banks sample_reqs = Ok results
    /\ results = optimal_bank :: rest
    /\ BankResult.bank optimal_bank = "Chocolate"
    /\ generate_suggestions results
       = generic_suggestions (BankResult.bank optimal_bank).
Proof.
  edestruct (suggestions_name_the_optimal_bank 10000 sample_banks
               sample_reqs) as [optimal_bank [rest [Hr Hs]]].
  - vm_compute; reflexivity.
  - eexists; exists optimal_bank, rest.
    split; [vm_compute; reflexivity |]. split; [exact Hr |].
    split; [| exact Hs]. inversion Hr; reflexivity.
Defined.


(** * OCBC 360 *)

(** The amounts the two bands of a bonus category are paid on. *)
Definition ocbc_band_amount (deposit : Q) (t : TierApplication) : Prop :=
  amount_in_tier t = first_75k deposit
  \/ amount_in_tier t = next_25k deposit.

Definition ocbc_shape (deposit : Q) (l : list TierApplication) : Prop :=
  exists first rest,
    l = first :: rest
    /\ amount_in_tier first = deposit
    /\ description first = BaseInterest
    /\ Forall (ocbc_band_amount deposit) rest.

Lemma ocbc_shape_snoc deposit l t :
  ocbc_shape deposit l -> ocbc_band_amount deposit t ->
  ocbc_shape deposit (l ++ [t]).
Proof.
  intros [first [rest [-> [Hf [Hd Hr]]]]] Ht.
  exists first, (rest ++ [t]). split; [reflexivity |].
  split; [exact Hf |]. split; [exact Hd |].
  apply Forall_app. split; [exact Hr | constructor; [exact Ht | constructor]].
Qed.

Lemma ocbc_shape_process deposit info ty met st :
  ocbc_shape deposit (ocbc_breakdown st) ->
  ocbc_shape deposit
    (ocbc_breakdown (process_ocbc_tier deposit info ty met st)).
Proof.
  unfold process_ocbc_tier. intros H. destruct met; [| exact H].
  destruct (find (has_type_and_cap ty 75000) (tiers info));
    destruct (find (has_type_and_cap ty 25000) (tiers info));
    unfold add_tier; simpl;
    repeat (apply ocbc_shape_snoc; [| (left; reflexivity)
                                      || (right; reflexivity)]);
    exact H.
Qed.

(** X25. In every result for OCBC 360 the first line is the base
    interest on the whole deposit and every other line is on one of the
    two bands, [min(deposit, 75000)] or
    [min(max(deposit - 75000, 0), 25000)]: no bonus line is on more than
    75,000, and none on a negative amount when the deposit is at least
    0. *)
Theorem ocbc_bonus_on_the_two_bands
  (deposit_amount : Q) (bank_info : BankInfo) (reqs : Requirements)
  (r : CalculationResult) :
  bank bank_info = "OCBC 360" ->
  calculate_bank_interest deposit_amount bank_info reqs = Ok r ->
  exists first rest,
    breakdown r = first :: rest
    /\ amount_in_tier first = deposit_amount
    /\ description first = BaseInterest
    /\ Forall (fun t =>
                 (amount_in_tier t = Qmin deposit_amount 75000
                  \/ amount_in_tier t
                     = Qmin (Qmax (deposit_amount - 75000) 0) 25000)
                 /\ amount_in_tier t <= 75000
                 /\ (0 <= deposit_amount -> 0 <= amount_in_tier t))
         rest.
Proof.
  intros Hbank H. unfold calculate_bank_interest in H.
  rewrite Hbank in H. simpl in H.
  unfold calculate_ocbc_360 in H. do 3 step_next.
  inversion H; subst; clear H. simpl.
  match goal with
  | |- exists first rest, ocbc_breakdown ?s = _ /\ _ =>
      assert (Hshape : ocbc_shape deposit_amount (ocbc_breakdown s))
  end.
  { repeat apply ocbc_shape_process. simpl.
    eexists; exists []. unfold add_tier; simpl.
    split; [reflexivity |]. repeat split. constructor. }
  destruct Hshape as [first [rest [Hb [Hf [Hd Hr]]]]].
  exists first, rest. repeat (split; [assumption |]).
  eapply Forall_impl; [| exact Hr].
  intros t [Ht | Ht]; unfold first_75k, next_25k in Ht.
  - split; [left; exact Ht |]. rewrite Ht. split; [apply Q.le_min_r |].
    intros Hpos.
    destruct (Qmin_cases deposit_amount 75000) as [[H1 E] | [H1 E]]; lra.
  - split; [right; exact Ht |]. rewrite Ht. split.
    + destruct (Qmin_cases (Qmax (deposit_amount - 75000) 0) 25000)
        as [[H1 E] | [H1 E]]; lra.
    + intros Hpos.
      destruct (Qmin_cases (Qmax (deposit_amount - 75000) 0) 25000)
        as [[H1 E] | [H1 E]];
        destruct (Qmax_cases (deposit_amount - 75000) 0)
          as [[H2 E2] | [H2 E2]];
        lra.
Qed.

Lemma ocbc_bonus_on_the_two_bands_witness :
  exists r first rest,
    calculate_bank_interest 90000 sample_ocbc sample_reqs = Ok r
    /\ breakdown r = first :: rest
    /\ amount_in_tier first = 90000
    /\ List.length rest = 3%nat
    /\ Forall (fun t => amount_in_tier t <= 75000) rest.
Proof.
  edestruct (ocbc_bonus_on_the_two_bands 90000 sample_ocbc sample_reqs)
    as [first [rest [Hb [Hf [_ Hr]]]]].
  - reflexivity.
  - vm_compute; reflexivity.
  - eexists; exists first, rest.
    split; [vm_compute; reflexivity |].
    split; [exact Hb |]. split; [exact Hf |].
    split; [inversion Hb; reflexivity |].
    eapply Forall_impl; [| exact Hr]. intros t [_ [Ht _]]; exact Ht.
Defined.
